(** * LangGraph tutorials: chatbot, feedback-driven blog agent, stock agent

    A shallow embedding of the three applications of the repository:

    - [Chatbot/main.py]: the tool-calling chatbot ([calculator_tool] and
      the [chat_node]/[tools] graph);
    - [Feedback-Driven_Blog_Agent/main.py] and [app.py]: the
      outline / draft / score loop with its router [blog_optimizer];
    - [stock_market_agent/app.py]: [get_stock_price], [buy_stocks],
      [sell_stocks] and the [agent]/[tools] graph with human confirmation.

    Python values are modelled as follows: [str] as the [string] of its
    UTF-8 encoding, with the case mapping and the white space of Unicode
    for [str.upper] and [str.strip]; [int] as [Z]; [float] as
    the binary64 numbers of [PrimFloat], with [round] and [repr] computed
    on their exact values; a [TypedDict] that is filled field by field as
    a record of options.  Calls that leave the program (the language
    model, [eval], the web search, the market-data provider, the clock)
    are answered by an oracle, which may answer the same call differently
    each time; where the source catches with [except Exception], the
    oracle says whether what is raised derives from [Exception].  The
    graph engine, [ToolNode], [tools_condition], [interrupt] and the
    schema validation belong to the frameworks the applications import;
    they are modelled from the specification, and the step limit of the
    engine, which the specification leaves out, from the framework. *)

From Stdlib Require Import ZArith List ListSet String Ascii Bool Lia.
From Stdlib Require Import DecimalString.
From Stdlib Require Import PrimFloat SpecFloat FloatOps FloatAxioms.
Import ListNotations.

Set Warnings "-inexact-float".

#[local] Open Scope list_scope.
#[local] Open Scope string_scope.

(* ------------------------------------------------------------------ *)
(** ** Python strings *)

Module PyStr.

Definition is_ascii_upper (c : ascii) : bool :=
  let n := nat_of_ascii c in (65 <=? n)%nat && (n <=? 90)%nat.

Definition is_ascii_lower (c : ascii) : bool :=
  let n := nat_of_ascii c in (97 <=? n)%nat && (n <=? 122)%nat.

Definition char_lower (c : ascii) : ascii :=
  if is_ascii_upper c then ascii_of_nat (nat_of_ascii c + 32) else c.

Fixpoint map_chars (f : ascii -> ascii) (s : string) : string :=
  match s with
  | EmptyString => EmptyString
  | String c s' => String (f c) (map_chars f s')
  end.

(** [s.lower()], on the letters A to Z: the sources use it only to
    compare the result with ["yes"], and no other character has a lower
    case that is one of [y], [e], [s]. *)
Definition lower : string -> string := map_chars char_lower.

(** *** Characters

    A [str] is a sequence of Unicode characters; it is held here as the
    bytes of its UTF-8 encoding, as the string literals of this file
    are: [é] is the two bytes 195 169, the no-break space U+00A0 the two
    bytes 194 160.  A character is one byte below 128, or a leading
    byte followed by one, two or three continuation bytes.  A byte
    string that is not of this form is the encoding of no [str]. *)

Definition byte (c : ascii) : N := N_of_ascii c.

Definition continuation (c : ascii) : bool :=
  (128 <=? byte c)%N && (byte c <? 192)%N.

(** The number of bytes of the character a byte begins; 0 when it begins
    none. *)
Definition width (c : ascii) : nat :=
  if (byte c <? 128)%N then 1
  else if (byte c <? 192)%N then 0
  else if (byte c <? 224)%N then 2
  else if (byte c <? 240)%N then 3
  else if (byte c <? 248)%N then 4
  else 0.

(** The characters of a string, in order; a byte that begins no complete
    character stands alone. *)
Fixpoint chars (s : string) : list string :=
  match s with
  | EmptyString => []
  | String b0 s1 =>
      match width b0, s1 with
      | 2, String b1 s2 =>
          if continuation b1
          then String b0 (String b1 EmptyString) :: chars s2
          else String b0 EmptyString :: chars s1
      | 3, String b1 (String b2 s3) =>
          if continuation b1 && continuation b2
          then String b0 (String b1 (String b2 EmptyString)) :: chars s3
          else String b0 EmptyString :: chars s1
      | 4, String b1 (String b2 (String b3 s4)) =>
          if continuation b1 && continuation b2 && continuation b3
          then String b0 (String b1 (String b2 (String b3 EmptyString)))
               :: chars s4
          else String b0 EmptyString :: chars s1
      | _, _ => String b0 EmptyString :: chars s1
      end
  end.

Fixpoint every (p : ascii -> bool) (s : string) : bool :=
  match s with
  | EmptyString => true
  | String c s' => p c && every p s'
  end.

(** One character. *)
Definition is_char (c : string) : bool :=
  match c with
  | EmptyString => false
  | String b0 rest =>
      Nat.eqb (width b0) (S (String.length rest)) && every continuation rest
  end.

(** The encoding of a [str]. *)
Definition utf8 (s : string) : bool := forallb is_char (chars s).

Definition join (parts : list string) : string :=
  fold_right append EmptyString parts.

(** The UTF-8 encoding of a code point. *)
Definition byte_of (n : Z) : ascii := ascii_of_N (Z.to_N n).

Definition encode_point (cp : Z) : string :=
  if (cp <? 128)%Z then
    String (byte_of cp) EmptyString
  else if (cp <? 2048)%Z then
    String (byte_of (192 + cp / 64))
      (String (byte_of (128 + cp mod 64)) EmptyString)
  else if (cp <? 65536)%Z then
    String (byte_of (224 + cp / 4096))
      (String (byte_of (128 + (cp / 64) mod 64))
         (String (byte_of (128 + cp mod 64)) EmptyString))
  else
    String (byte_of (240 + cp / 262144))
      (String (byte_of (128 + (cp / 4096) mod 64))
         (String (byte_of (128 + (cp / 64) mod 64))
            (String (byte_of (128 + cp mod 64)) EmptyString))).

Definition encode (points : list Z) : string :=
  join (map encode_point points).

(** *** [str.upper]

    The upper case of every code point that has one other than itself
    (Unicode 14.0, the data of CPython 3.11).  [(first, count, stride,
    shift)] stands for the [count] code points [first], [first + stride],
    ..., each of which has the upper case [code point + shift]; the
    second table has the code points whose upper case is more than one
    character ([ß] is [SS]).  [str.upper] maps character by character,
    whatever the neighbours. *)
Definition upper_runs : list (Z * Z * Z * Z) :=
  [
   (97, 26, 1, (-32)); (181, 1, 1, 743); (224, 23, 1, (-32));
   (248, 7, 1, (-32)); (255, 1, 1, 121); (257, 24, 2, (-1));
   (305, 1, 1, (-232)); (307, 3, 2, (-1)); (314, 8, 2, (-1));
   (331, 23, 2, (-1)); (378, 3, 2, (-1)); (383, 1, 1, (-300));
   (384, 1, 1, 195); (387, 2, 2, (-1)); (392, 1, 1, (-1));
   (396, 1, 1, (-1)); (402, 1, 1, (-1)); (405, 1, 1, 97);
   (409, 1, 1, (-1)); (410, 1, 1, 163); (414, 1, 1, 130);
   (417, 3, 2, (-1)); (424, 1, 1, (-1)); (429, 1, 1, (-1));
   (432, 1, 1, (-1)); (436, 2, 2, (-1)); (441, 1, 1, (-1));
   (445, 1, 1, (-1)); (447, 1, 1, 56); (453, 1, 1, (-1));
   (454, 1, 1, (-2)); (456, 1, 1, (-1)); (457, 1, 1, (-2));
   (459, 1, 1, (-1)); (460, 1, 1, (-2)); (462, 8, 2, (-1));
   (477, 1, 1, (-79)); (479, 9, 2, (-1)); (498, 1, 1, (-1));
   (499, 1, 1, (-2)); (501, 1, 1, (-1)); (505, 20, 2, (-1));
   (547, 9, 2, (-1)); (572, 1, 1, (-1)); (575, 2, 1, 10815);
   (578, 1, 1, (-1)); (583, 5, 2, (-1)); (592, 1, 1, 10783);
   (593, 1, 1, 10780); (594, 1, 1, 10782); (595, 1, 1, (-210));
   (596, 1, 1, (-206)); (598, 2, 1, (-205)); (601, 1, 1, (-202));
   (603, 1, 1, (-203)); (604, 1, 1, 42319); (608, 1, 1, (-205));
   (609, 1, 1, 42315); (611, 1, 1, (-207)); (613, 1, 1, 42280);
   (614, 1, 1, 42308); (616, 1, 1, (-209)); (617, 1, 1, (-211));
   (618, 1, 1, 42308); (619, 1, 1, 10743); (620, 1, 1, 42305);
   (623, 1, 1, (-211)); (625, 1, 1, 10749); (626, 1, 1, (-213));
   (629, 1, 1, (-214)); (637, 1, 1, 10727); (640, 1, 1, (-218));
   (642, 1, 1, 42307); (643, 1, 1, (-218)); (647, 1, 1, 42282);
   (648, 1, 1, (-218)); (649, 1, 1, (-69)); (650, 2, 1, (-217));
   (652, 1, 1, (-71)); (658, 1, 1, (-219)); (669, 1, 1, 42261);
   (670, 1, 1, 42258); (837, 1, 1, 84); (881, 2, 2, (-1));
   (887, 1, 1, (-1)); (891, 3, 1, 130); (940, 1, 1, (-38));
   (941, 3, 1, (-37)); (945, 17, 1, (-32)); (962, 1, 1, (-31));
   (963, 9, 1, (-32)); (972, 1, 1, (-64)); (973, 2, 1, (-63));
   (976, 1, 1, (-62)); (977, 1, 1, (-57)); (981, 1, 1, (-47));
   (982, 1, 1, (-54)); (983, 1, 1, (-8)); (985, 12, 2, (-1));
   (1008, 1, 1, (-86)); (1009, 1, 1, (-80)); (1010, 1, 1, 7);
   (1011, 1, 1, (-116)); (1013, 1, 1, (-96)); (1016, 1, 1, (-1));
   (1019, 1, 1, (-1)); (1072, 32, 1, (-32)); (1104, 16, 1, (-80));
   (1121, 17, 2, (-1)); (1163, 27, 2, (-1)); (1218, 7, 2, (-1));
   (1231, 1, 1, (-15)); (1233, 48, 2, (-1)); (1377, 38, 1, (-48));
   (4304, 43, 1, 3008); (4349, 3, 1, 3008); (5112, 6, 1, (-8));
   (7296, 1, 1, (-6254)); (7297, 1, 1, (-6253)); (7298, 1, 1, (-6244));
   (7299, 2, 1, (-6242)); (7301, 1, 1, (-6243)); (7302, 1, 1, (-6236));
   (7303, 1, 1, (-6181)); (7304, 1, 1, 35266); (7545, 1, 1, 35332);
   (7549, 1, 1, 3814); (7566, 1, 1, 35384); (7681, 75, 2, (-1));
   (7835, 1, 1, (-59)); (7841, 48, 2, (-1)); (7936, 8, 1, 8);
   (7952, 6, 1, 8); (7968, 8, 1, 8); (7984, 8, 1, 8); (8000, 6, 1, 8);
   (8017, 4, 2, 8); (8032, 8, 1, 8); (8048, 2, 1, 74); (8050, 4, 1, 86);
   (8054, 2, 1, 100); (8056, 2, 1, 128); (8058, 2, 1, 112);
   (8060, 2, 1, 126); (8112, 2, 1, 8); (8126, 1, 1, (-7205));
   (8144, 2, 1, 8); (8160, 2, 1, 8); (8165, 1, 1, 7); (8526, 1, 1, (-28));
   (8560, 16, 1, (-16)); (8580, 1, 1, (-1)); (9424, 26, 1, (-26));
   (11312, 48, 1, (-48)); (11361, 1, 1, (-1)); (11365, 1, 1, (-10795));
   (11366, 1, 1, (-10792)); (11368, 3, 2, (-1)); (11379, 1, 1, (-1));
   (11382, 1, 1, (-1)); (11393, 50, 2, (-1)); (11500, 2, 2, (-1));
   (11507, 1, 1, (-1)); (11520, 38, 1, (-7264)); (11559, 1, 1, (-7264));
   (11565, 1, 1, (-7264)); (42561, 23, 2, (-1)); (42625, 14, 2, (-1));
   (42787, 7, 2, (-1)); (42803, 31, 2, (-1)); (42874, 2, 2, (-1));
   (42879, 5, 2, (-1)); (42892, 1, 1, (-1)); (42897, 2, 2, (-1));
   (42900, 1, 1, 48); (42903, 10, 2, (-1)); (42933, 8, 2, (-1));
   (42952, 2, 2, (-1)); (42961, 1, 1, (-1)); (42967, 2, 2, (-1));
   (42998, 1, 1, (-1)); (43859, 1, 1, (-928)); (43888, 80, 1, (-38864));
   (65345, 26, 1, (-32)); (66600, 40, 1, (-40)); (66776, 36, 1, (-40));
   (66967, 19, 2, (-39)); (66968, 5, 2, (-39)); (66980, 7, 2, (-39));
   (66996, 3, 2, (-39)); (67004, 1, 1, (-39)); (68800, 51, 1, (-64));
   (71872, 32, 1, (-32)); (93792, 32, 1, (-32)); (125218, 34, 1, (-34))
  ]%Z.

Definition upper_special : list (Z * list Z) :=
  [
   (223, [83; 83]); (329, [700; 78]); (496, [74; 780]);
   (912, [921; 776; 769]); (944, [933; 776; 769]); (1415, [1333; 1362]);
   (7830, [72; 817]); (7831, [84; 776]); (7832, [87; 778]);
   (7833, [89; 778]); (7834, [65; 702]); (8016, [933; 787]);
   (8018, [933; 787; 768]); (8020, [933; 787; 769]);
   (8022, [933; 787; 834]); (8064, [7944; 921]); (8065, [7945; 921]);
   (8066, [7946; 921]); (8067, [7947; 921]); (8068, [7948; 921]);
   (8069, [7949; 921]); (8070, [7950; 921]); (8071, [7951; 921]);
   (8072, [7944; 921]); (8073, [7945; 921]); (8074, [7946; 921]);
   (8075, [7947; 921]); (8076, [7948; 921]); (8077, [7949; 921]);
   (8078, [7950; 921]); (8079, [7951; 921]); (8080, [7976; 921]);
   (8081, [7977; 921]); (8082, [7978; 921]); (8083, [7979; 921]);
   (8084, [7980; 921]); (8085, [7981; 921]); (8086, [7982; 921]);
   (8087, [7983; 921]); (8088, [7976; 921]); (8089, [7977; 921]);
   (8090, [7978; 921]); (8091, [7979; 921]); (8092, [7980; 921]);
   (8093, [7981; 921]); (8094, [7982; 921]); (8095, [7983; 921]);
   (8096, [8040; 921]); (8097, [8041; 921]); (8098, [8042; 921]);
   (8099, [8043; 921]); (8100, [8044; 921]); (8101, [8045; 921]);
   (8102, [8046; 921]); (8103, [8047; 921]); (8104, [8040; 921]);
   (8105, [8041; 921]); (8106, [8042; 921]); (8107, [8043; 921]);
   (8108, [8044; 921]); (8109, [8045; 921]); (8110, [8046; 921]);
   (8111, [8047; 921]); (8114, [8122; 921]); (8115, [913; 921]);
   (8116, [902; 921]); (8118, [913; 834]); (8119, [913; 834; 921]);
   (8124, [913; 921]); (8130, [8138; 921]); (8131, [919; 921]);
   (8132, [905; 921]); (8134, [919; 834]); (8135, [919; 834; 921]);
   (8140, [919; 921]); (8146, [921; 776; 768]); (8147, [921; 776; 769]);
   (8150, [921; 834]); (8151, [921; 776; 834]); (8162, [933; 776; 768]);
   (8163, [933; 776; 769]); (8164, [929; 787]); (8166, [933; 834]);
   (8167, [933; 776; 834]); (8178, [8186; 921]); (8179, [937; 921]);
   (8180, [911; 921]); (8182, [937; 834]); (8183, [937; 834; 921]);
   (8188, [937; 921]); (64256, [70; 70]); (64257, [70; 73]);
   (64258, [70; 76]); (64259, [70; 70; 73]); (64260, [70; 70; 76]);
   (64261, [83; 84]); (64262, [83; 84]); (64275, [1348; 1350]);
   (64276, [1348; 1333]); (64277, [1348; 1339]); (64278, [1358; 1350]);
   (64279, [1348; 1341])
  ]%Z.

Fixpoint run_points (first : Z) (count : nat) (stride : Z) : list Z :=
  match count with
  | O => []
  | S count' => first :: run_points (first + stride)%Z count' stride
  end.

Definition expand (r : Z * Z * Z * Z) : list (Z * list Z) :=
  let '(first, count, stride, shift) := r in
  map (fun cp => (cp, [(cp + shift)%Z]))
    (run_points first (Z.to_nat count) stride).

Definition upper_points : list (Z * list Z) :=
  (flat_map expand upper_runs ++ upper_special)%list.

(** The same table on encoded characters. *)
Definition upper_table : list (string * string) :=
  Eval vm_compute in
    map (fun kv => (encode_point (fst kv), encode (snd kv))) upper_points.

Fixpoint assoc (key : string) (table : list (string * string))
  : option string :=
  match table with
  | [] => None
  | (k, v) :: table' => if String.eqb k key then Some v else assoc key table'
  end.

Definition upper_char (c : string) : string :=
  match assoc c upper_table with
  | Some u => u
  | None => c
  end.

(** [s.upper()]. *)
Definition upper (s : string) : string := join (map upper_char (chars s)).

(** *** [str.strip]

    The characters [str.isspace] holds of, which [strip()] removes: the
    controls 9 to 13 and 28 to 31, the space, U+0085, U+00A0, U+1680,
    U+2000 to U+200A, U+2028, U+2029, U+202F, U+205F and U+3000. *)
Definition white_space : list Z :=
  [9; 10; 11; 12; 13; 28; 29; 30; 31; 32; 133; 160; 5760;
   8192; 8193; 8194; 8195; 8196; 8197; 8198; 8199; 8200; 8201; 8202;
   8232; 8233; 8239; 8287; 12288]%Z.

Definition white_space_chars : list string :=
  Eval vm_compute in map encode_point white_space.

Definition isspace (c : string) : bool :=
  existsb (String.eqb c) white_space_chars.

Fixpoint lstrip_chars (cs : list string) : list string :=
  match cs with
  | [] => []
  | c :: cs' => if isspace c then lstrip_chars cs' else cs
  end.

Fixpoint rstrip_chars (cs : list string) : list string :=
  match cs with
  | [] => []
  | c :: cs' =>
      match rstrip_chars cs' with
      | [] => if isspace c then [] else [c]
      | r => c :: r
      end
  end.

(** [s.strip()]: white space removed at both ends. *)
Definition strip (s : string) : string :=
  join (rstrip_chars (lstrip_chars (chars s))).

(** [sub in s]. *)
Fixpoint contains (sub s : string) : bool :=
  prefix sub s
  || match s with
     | EmptyString => false
     | String _ s' => contains sub s'
     end.

(** [str(n)] for an [int]. *)
Definition str_int (n : Z) : string := NilZero.string_of_int (Z.to_int n).

(** [bool(s)]: a string is true when it is not empty. *)
Definition truthy (s : string) : bool :=
  match s with EmptyString => false | _ => true end.

(** A list of characters that does not begin, or end, with white space. *)
Definition clean_head (cs : list string) : Prop :=
  match cs with
  | [] => True
  | c :: _ => isspace c = false
  end.

Fixpoint clean_last (cs : list string) : Prop :=
  match cs with
  | [] => True
  | [c] => isspace c = false
  | _ :: cs' => clean_last cs'
  end.

(** No letter [a] to [z] occurs. *)
Definition no_ascii_lower (s : string) : bool :=
  every (fun b => negb (is_ascii_lower b)) s.

End PyStr.

(* ------------------------------------------------------------------ *)
(** ** Python floats *)

Module PyFloat.

#[local] Open Scope Z_scope.

(** [x < y] and [x <= y] on binary64 numbers: false as soon as one side
    is a NaN. *)
Definition lt (x y : float) : bool := PrimFloat.ltb x y.
Definition le (x y : float) : bool := PrimFloat.leb x y.

(** The integer nearest to [num / den], ties going to the even one. *)
Definition round_half_even (num den : Z) : Z :=
  let q := num / den in
  let r := num mod den in
  match 2 * r ?= den with
  | Lt => q
  | Gt => q + 1
  | Eq => if Z.even q then q else q + 1
  end.

(** [round(x, 2)]: the exact value of [x] is rounded to two decimals
    (half to even), and the decimal obtained is converted back to the
    nearest binary64 number; infinities and NaN round to themselves. *)
Definition round2 (x : float) : float :=
  match Prim2SF x with
  | S754_finite s m e =>
      let num := Z.pos m * 100 * 2 ^ (Z.max e 0) in
      let den := 2 ^ (Z.max (- e) 0) in
      match round_half_even num den with
      | Z.pos n =>
          SF2Prim (SFdiv prec emax (S754_finite s n 0)
                                   (S754_finite false 100 0))
      | _ => SF2Prim (S754_zero s)
      end
  | _ => x
  end.

(** The binary64 number nearest to [num / den] ([num], [den] positive). *)
Definition of_ratio (num den : positive) : float :=
  SF2Prim (SFdiv prec emax (S754_finite false num 0) (S754_finite false den 0)).

(** The binary64 number nearest to [d * 10 ^ p]. *)
Definition of_decimal (d : positive) (p : Z) : float :=
  of_ratio (d * Z.to_pos (10 ^ Z.max p 0)) (Z.to_pos (10 ^ Z.max (- p) 0)).

(** [num / den] compared with [10 ^ e]. *)
Definition cmp_pow10 (num den e : Z) : comparison :=
  if 0 <=? e then num ?= den * 10 ^ e else num * 10 ^ (- e) ?= den.

Fixpoint raise_exp (fuel : nat) (num den e : Z) : Z :=
  match fuel with
  | O => e
  | S fuel' =>
      match cmp_pow10 num den (e + 1) with
      | Lt => e
      | _ => raise_exp fuel' num den (e + 1)
      end
  end.

Fixpoint lower_exp (fuel : nat) (num den e : Z) : Z :=
  match fuel with
  | O => e
  | S fuel' =>
      match cmp_pow10 num den e with
      | Lt => lower_exp fuel' num den (e - 1)
      | _ => e
      end
  end.

(** The decimal exponent [e] of [num / den]: [10^e <= num/den < 10^(e+1)]. *)
Definition dec_exponent (num den : Z) : Z :=
  let guess := (Z.log2 num - Z.log2 den) * 30103 / 100000 in
  raise_exp 4 num den (lower_exp 4 num den guess).

Fixpoint strip_zeros (fuel : nat) (d p : Z) : Z * Z :=
  match fuel with
  | O => (d, p)
  | S fuel' =>
      if (d mod 10 =? 0) && (0 <? d) then strip_zeros fuel' (d / 10) (p + 1)
      else (d, p)
  end.

(** The decimal with [k] significant digits that reads back as [x], if
    there is one: of the two [k]-digit neighbours of [x], the one that
    converts to [x], the nearer when both do. *)
Definition digits_at (x : float) (num den e : Z) (k : Z) : option (Z * Z) :=
  let p := e - (k - 1) in
  let n := num * 10 ^ Z.max (- p) 0 in
  let d := den * 10 ^ Z.max p 0 in
  let lo := n / d in
  let r := n mod d in
  let back v := PrimFloat.eqb (of_decimal (Z.to_pos v) p) x in
  if r =? 0 then Some (lo, p)
  else
    match back lo, back (lo + 1) with
    | true, true => Some (if 2 * r <=? d then lo else lo + 1, p)
    | true, false => Some (lo, p)
    | false, true => Some (lo + 1, p)
    | false, false => None
    end.

Fixpoint shortest (fuel : nat) (x : float) (num den e : Z) (k : Z) : Z * Z :=
  match fuel with
  | O => (num / den, 0)
  | S fuel' =>
      match digits_at x num den e k with
      | Some dp => dp
      | None => shortest fuel' x num den e (k + 1)
      end
  end.

Fixpoint zeros (n : nat) : string :=
  match n with
  | O => ""
  | S n' => "0" ++ zeros n'
  end.

(** The digits [ds] with the decimal point after [decpt] of them, as
    [repr] lays a float out. *)
Definition layout (ds : string) (decpt : Z) : string :=
  let n := Z.of_nat (String.length ds) in
  if (decpt <=? -4) || (16 <? decpt) then
    let e := decpt - 1 in
    let mant :=
      match ds with
      | String c EmptyString => String c EmptyString
      | String c rest => String c ("." ++ rest)
      | EmptyString => EmptyString
      end in
    let digits := PyStr.str_int (Z.abs e) in
    mant ++ "e" ++ (if e <? 0 then "-" else "+")
         ++ (if Z.abs e <? 10 then "0" else "") ++ digits
  else if decpt <=? 0 then
    "0." ++ zeros (Z.to_nat (- decpt)) ++ ds
  else if n <=? decpt then
    ds ++ zeros (Z.to_nat (decpt - n)) ++ ".0"
  else
    substring 0 (Z.to_nat decpt) ds ++ "."
    ++ substring (Z.to_nat decpt) (Z.to_nat (n - decpt)) ds.

(** [repr(x)], which is also [str(x)] and what an f-string prints. *)
Definition repr (x : float) : string :=
  match Prim2SF x with
  | S754_zero s => if s then "-0.0" else "0.0"
  | S754_infinity s => if s then "-inf" else "inf"
  | S754_nan => "nan"
  | S754_finite s m e =>
      let num := Z.pos m * 2 ^ Z.max e 0 in
      let den := 2 ^ Z.max (- e) 0 in
      let '(d, p) :=
        shortest 17 (PrimFloat.abs x) num den (dec_exponent num den) 1 in
      let '(d, p) := strip_zeros 400 d p in
      let ds := PyStr.str_int d in
      (if s then "-" else "") ++ layout ds (Z.of_nat (String.length ds) + p)
  end.

(** [float(n)] for an [int]. *)
Definition of_int (n : Z) : float :=
  match n with
  | Z0 => 0%float
  | Z.pos p => of_ratio p 1
  | Z.neg p => PrimFloat.opp (of_ratio p 1)
  end.

End PyFloat.

(* ------------------------------------------------------------------ *)
(** ** Messages and tool calls *)

Module Msg.

(** An argument of a tool call, as the model's JSON gives it. *)
Inductive Arg : Type :=
| ArgStr (s : string)
| ArgInt (n : Z)
| ArgFloat (x : float).

Record ToolCall : Type := {
  tc_name : string;
  tc_args : list (string * Arg);
  tc_id : string;
}.

(** The model's answer: text, and the tools it asks for. *)
Record AIMessage : Type := {
  ai_content : string;
  tool_calls : list ToolCall;
}.

Inductive Message : Type :=
| System (content : string)
| Human (content : string)
| AI (response : AIMessage)
| ToolMessage (content : string) (tool_call_id : string).

Definition content (m : Message) : string :=
  match m with
  | System c | Human c | ToolMessage c _ => c
  | AI r => ai_content r
  end.

Fixpoint lookup {A : Type} (key : string) (l : list (string * A)) : option A :=
  match l with
  | [] => None
  | (k, v) :: l' => if String.eqb k key then Some v else lookup key l'
  end.

End Msg.

(* ------------------------------------------------------------------ *)
(** ** Programs with external calls

    A tool or a node is a program over the calls that leave the
    application.  A call that can raise answers with a [PyResult]; the
    program decides, as the source does with [try]/[except], whether the
    exception is turned into text or propagates.  The source's handlers
    are [except Exception]: they catch what derives from [Exception] and
    let pass what derives from [BaseException] only ([SystemExit],
    [KeyboardInterrupt], [GeneratorExit]); the calls made inside such a
    handler answer with a [Guarded], which tells the two apart. *)

Module Eff.

Import Msg.

Inductive PyResult (A : Type) : Type :=
| Returned (a : A)
| Raises (error : string).
Arguments Returned {A} a.
Arguments Raises {A} error.

(** The answer to a call made inside [try: ... except Exception]. *)
Inductive Guarded (A : Type) : Type :=
| Returns (a : A)
| RaisesException (error : string)       (* an [Exception]: caught *)
| RaisesBaseException (error : string).  (* [SystemExit] and the like *)
Arguments Returns {A} a.
Arguments RaisesException {A} error.
Arguments RaisesBaseException {A} error.

(** The JSON object a model returns for a structured-output request,
    before the schema is applied: each field is present or not. *)
Record RawObject : Type := {
  raw_score : option float;
  raw_feedback : option string;
}.

Inductive Call : Type -> Type :=
| Invoke (prompt : string) : Call (PyResult string)
    (* llm.invoke(prompt).content *)
| InvokeStructured (prompt : string) : Call (PyResult RawObject)
    (* llm_judge.with_structured_output(...).invoke(prompt), unvalidated *)
| Chat (messages : list Message) : Call (PyResult AIMessage)
    (* llm.bind_tools(tools).invoke(messages) *)
| Eval (source : string) : Call (Guarded string)
    (* str(eval(source)) *)
| Search (query : string) : Call (PyResult string)
    (* DuckDuckGoSearchRun().run(query) *)
| Now : Call string
    (* datetime.now().strftime("%Y-%m-%d %H:%M:%S") *)
| History (symbol period : string) : Call (Guarded (list float))
    (* yf.Ticker(symbol).history(period=period)["Close"] *)
| Interrupt (question : string) : Call string.
    (* langgraph.types.interrupt(question) *)

(** [Throw] raises an [Exception], [Abort] an exception that no
    [except Exception] catches. *)
Inductive Prog (A : Type) : Type :=
| Ret (a : A)
| Throw (error : string)
| Abort (error : string)
| Do {X : Type} (c : Call X) (k : X -> Prog A).
Arguments Ret {A} a.
Arguments Throw {A} error.
Arguments Abort {A} error.
Arguments Do {A X} c k.

Fixpoint bind {A B : Type} (p : Prog A) (f : A -> Prog B) : Prog B :=
  match p with
  | Ret a => f a
  | Throw e => Throw e
  | Abort e => Abort e
  | Do c k => Do c (fun x => bind (k x) f)
  end.

(** A call that cannot raise, and one whose exception propagates. *)
Definition call {X : Type} (c : Call X) : Prog X := Do c Ret.

Definition attempt {X : Type} (c : Call (PyResult X)) : Prog X :=
  Do c (fun r => match r with Returned x => Ret x | Raises e => Throw e end).

(** A call made inside a handler: what it raises keeps its class. *)
Definition guarded {X : Type} (c : Call (Guarded X)) : Prog X :=
  Do c (fun r => match r with
                 | Returns x => Ret x
                 | RaisesException e => Throw e
                 | RaisesBaseException e => Abort e
                 end).

(** [try: body / except Exception as e: handler(str(e))]: an [Abort]
    passes through.  No [try] of the source encloses an [interrupt]; a
    suspension is left to the engine. *)
Fixpoint try_except {A : Type} (body : Prog A) (handler : string -> Prog A)
  : Prog A :=
  match body with
  | Ret a => Ret a
  | Throw e => handler e
  | Abort e => Abort e
  | Do c k => Do c (fun x => try_except (k x) handler)
  end.

Declare Scope prog_scope.
Delimit Scope prog_scope with prog.
Notation "x <- p ;; q" := (bind p (fun x => q))
  (at level 61, p at next level, right associativity) : prog_scope.
Notation "'try' p 'except' e => h" := (try_except p (fun e => h))
  (at level 10, p at level 100, e name, h at level 200) : prog_scope.

(** *** Running a program *)

(** The world answers the [n]-th call made since the run began. *)
Definition Oracle : Type := nat -> forall X : Type, Call X -> X.

(** A call that was made, with its position in the run. *)
Inductive Event : Type :=
| Called {X : Type} (n : nat) (c : Call X).

Inductive Outcome (A : Type) : Type :=
| Done (a : A)
| Pending (question : string)
| Crashed (error : string).
Arguments Done {A} a.
Arguments Pending {A} question.
Arguments Crashed {A} error.

Record Ran (A : Type) : Type := {
  outcome : Outcome A;
  clock : nat;              (* calls answered so far *)
  unused : list string;     (* resume answers not consumed *)
  events : list Event;      (* the calls made, in order *)
}.
Arguments outcome {A} r.
Arguments clock {A} r.
Arguments unused {A} r.
Arguments events {A} r.

(** Modelled from the spec: suspension and resumption (the framework's
    [interrupt] and [Command(resume=...)], absent from the repository).
    Section 4.3: a step may request suspension with a question; the
    engine ceases execution and returns the question; on resume the
    answer is injected in place of the pending return value.  So
    [interrupt] returns the next resume answer when there is one and
    suspends the program otherwise; every other call goes to the world. *)
Fixpoint exec {A : Type} (world : Oracle) (p : Prog A)
    (resume : list string) (n : nat) : Ran A :=
  match p with
  | Ret a =>
      {| outcome := Done a; clock := n; unused := resume; events := [] |}
  | Throw e =>
      {| outcome := Crashed e; clock := n; unused := resume; events := [] |}
  | Abort e =>
      {| outcome := Crashed e; clock := n; unused := resume; events := [] |}
  | @Do _ X c k =>
      match c in Call X0 return (X0 -> Prog A) -> Ran A with
      | Interrupt q => fun k' =>
          match resume with
          | [] =>
              {| outcome := Pending q; clock := n; unused := [];
                 events := [Called n (Interrupt q)] |}
          | answer :: rest =>
              let r := exec world (k' answer) rest n in
              {| outcome := outcome r; clock := clock r; unused := unused r;
                 events := Called n (Interrupt q) :: events r |}
          end
      | c0 => fun k' =>
          let r := exec world (k' (world n _ c0)) resume (S n) in
          {| outcome := outcome r; clock := clock r; unused := unused r;
             events := Called n c0 :: events r |}
      end k
  end.

(** The run of a program followed, when it is done, by the run of the
    program that continues from its result. *)
Definition and_then {A B : Type} (r : Ran A)
    (next : A -> list string -> nat -> Ran B) : Ran B :=
  match outcome r with
  | Done a =>
      let r' := next a (unused r) (clock r) in
      {| outcome := outcome r'; clock := clock r'; unused := unused r';
         events := (events r ++ events r')%list |}
  | Pending q =>
      {| outcome := Pending q; clock := clock r; unused := unused r;
         events := events r |}
  | Crashed e =>
      {| outcome := Crashed e; clock := clock r; unused := unused r;
         events := events r |}
  end.

End Eff.

(* ------------------------------------------------------------------ *)
(** ** The workflow graph engine *)

Module Engine.

Import Eff.

Definition START : string := "__start__".
Definition END : string := "__end__".

Section Graph.

(** The workflow state the graph is declared over. *)
Context {S : Type}.

Definition Node : Type := S -> Prog S.

(** A conditional edge: the router, which can raise ([None]), and the
    optional map from its labels to node names. *)
Record Branch : Type := {
  source : string;
  path : S -> option string;
  path_map : option (list (string * string));
}.

Record StateGraph : Type := {
  nodes : list (string * Node);
  edges : list (string * string);
  branches : list Branch;
}.

(** [StateGraph(...)], [add_node], [add_edge], [add_conditional_edges]. *)
Definition new_graph : StateGraph :=
  {| nodes := []; edges := []; branches := [] |}.

Definition add_node (name : string) (body : Node) (g : StateGraph)
  : StateGraph :=
  {| nodes := (nodes g ++ [(name, body)])%list;
     edges := edges g;
     branches := branches g |}.

Definition add_edge (start_key end_key : string) (g : StateGraph)
  : StateGraph :=
  {| nodes := nodes g;
     edges := (edges g ++ [(start_key, end_key)])%list;
     branches := branches g |}.

Definition add_conditional_edges (src : string)
    (router : S -> option string)
    (labels : option (list (string * string))) (g : StateGraph)
  : StateGraph :=
  {| nodes := nodes g;
     edges := edges g;
     branches :=
       (branches g
        ++ [{| source := src; path := router; path_map := labels |}])%list
  |}.

(** Modelled from the spec: the graph execution engine (the framework's
    [compile()] and [invoke()], absent from the repository).  Section
    4.3: after a step runs, either an unconditional edge fires or a
    router inspects the state and names the next step or the terminal
    marker; steps run one after the other, each on the state the one
    before produced, until the terminal marker is reached or a step
    requests suspension; on resume the saved state is restored and
    execution continues at the suspended step with the answer in place
    of the pending value, the steps already completed not being run
    again.  An edge to [END] triggers nothing. *)
Definition static_targets (g : StateGraph) (node : string) : list string :=
  map snd (filter (fun e => String.eqb (fst e) node) (edges g)).

(** Modelled from the spec: a router's label is the name of the next
    step, or is looked up in the map the conditional edge declares. *)
Definition branch_target (b : Branch) (st : S) : option string :=
  match path b st with
  | None => None
  | Some label =>
      match path_map b with
      | None => Some label
      | Some labels => Msg.lookup label labels
      end
  end.

(** Modelled from the spec: the targets of the conditional edges that
    leave a node. *)
Fixpoint branch_targets (bs : list Branch) (node : string) (st : S)
  : option (list string) :=
  match bs with
  | [] => Some []
  | b :: bs' =>
      if String.eqb (source b) node then
        match branch_target b st, branch_targets bs' node st with
        | Some t, Some ts => Some (t :: ts)
        | _, _ => None
        end
      else branch_targets bs' node st
  end.

(** Modelled from the spec: the terminal marker is no step; a step is
    triggered once. *)
Definition live (targets : list string) : list string :=
  nodup string_dec (filter (fun t => negb (String.eqb t END)) targets).

(** Modelled from the spec: the steps that follow a node in a state, by
    its unconditional and its conditional edges. *)
Definition successors (g : StateGraph) (node : string) (st : S)
  : option (list string) :=
  match branch_targets (branches g) node st with
  | None => None
  | Some ts => Some (live (static_targets g node ++ ts)%list)
  end.

(** What is saved at a suspension: the state the suspended step
    started from, the steps still to run, the suspended one first, and
    the answers that step had been given before it asked again. *)
Record Checkpoint : Type := {
  saved : S;
  pending : list string;
  answered : list string;
}.

Inductive RunResult : Type :=
| Completed (st : S)
| AwaitingInput (question : string) (ckpt : Checkpoint)
| Errored (error : string)
| OutOfFuel.

(** A step that was started: the node and the state it was given. *)
Record Step : Type := {
  step_node : string;
  step_input : S;
}.

Record Run : Type := {
  result : RunResult;
  time : nat;            (* external calls answered so far *)
  steps : list Step;     (* the steps started, in order *)
}.

Definition after (s : Step) (r : Run) : Run :=
  {| result := result r; time := time r; steps := s :: steps r |}.

Definition stop (s : Step) (res : RunResult) (n : nat) : Run :=
  {| result := res; time := n; steps := [s] |}.

(** Modelled from the spec: the engine's loop (section 4.3, as quoted
    above): the first step of the frontier runs on the current state; when
    it is done its successors join the frontier; when it suspends, the
    state it started from and the frontier are saved; when it raises, the
    run fails.  [fuel] bounds the number of steps started; it is the
    measure of the recursion, and [invoke_within] below makes the step
    limit of the framework of it. *)
Fixpoint run (world : Oracle) (g : StateGraph) (fuel : nat)
    (frontier : list string) (resume : list string) (n : nat) (st : S)
  : Run :=
  match frontier with
  | [] => {| result := Completed st; time := n; steps := [] |}
  | node :: rest =>
      match fuel with
      | O => {| result := OutOfFuel; time := n; steps := [] |}
      | Datatypes.S fuel' =>
          let s := {| step_node := node; step_input := st |} in
          match Msg.lookup node (nodes g) with
          | None => stop s (Errored ("unknown node: " ++ node)) n
          | Some body =>
              let r := exec world (body st) resume n in
              match outcome r with
              | Done st' =>
                  match successors g node st' with
                  | None => stop s (Errored ("routing failed: " ++ node))
                              (clock r)
                  | Some next =>
                      after s (run world g fuel' (rest ++ next)%list
                                 (unused r) (clock r) st')
                  end
              | Pending q =>
                  stop s (AwaitingInput q
                            {| saved := st; pending := frontier;
                               answered := resume |})
                    (clock r)
              | Crashed e => stop s (Errored e) (clock r)
              end
          end
      end
  end.

(** Modelled from the spec: [app.invoke(input)]; the run starts at the
    successors of [START]. *)
Definition invoke (world : Oracle) (g : StateGraph) (fuel : nat)
    (n : nat) (input : S) : Run :=
  run world g fuel (live (static_targets g START)) [] n input.

(** Modelled from the spec: [app.invoke(input)] as the sources call it,
    without a config.  Section 4.3 describes no limit on the steps of a
    run; the framework has one, which the description above leaves out
    and which is modelled here from the framework: [recursion_limit], 25
    unless the caller configures another.  A run may start [limit] steps,
    and ends normally only if it is over before the last of them is
    started; otherwise the steps up to the [limit]-th are run and the
    call raises [GraphRecursionError].  (In the graphs of the repository
    every super-step of the framework runs one node, so steps are counted
    here.) *)
Definition recursion_limit : nat := 25.

(** The text of the error, cut after its first sentence. *)
Definition GraphRecursionError (limit : nat) : string :=
  "GraphRecursionError: Recursion limit of "
  ++ PyStr.str_int (Z.of_nat limit)
  ++ " reached without hitting a stop condition.".

Definition out_of_steps (limit : nat) (r : Run) : Run :=
  {| result := Errored (GraphRecursionError limit);
     time := time r; steps := steps r |}.

Definition invoke_within (world : Oracle) (g : StateGraph) (limit : nat)
    (n : nat) (input : S) : Run :=
  let r := invoke world g limit n input in
  match result r with
  | Completed _ =>
      if (List.length (steps r) <? limit)%nat then r
      else out_of_steps limit r
  | OutOfFuel => out_of_steps limit r
  | _ => r
  end.

(** Modelled from the spec: [app.invoke(Command(resume=answer))] on a
    suspended run; the saved state is restored and the run continues at
    the suspended step, which is started again: the requests it had
    made before are given the answers they had, and the pending one the
    new answer. *)
Definition resume_with (world : Oracle) (g : StateGraph) (fuel : nat)
    (n : nat) (ckpt : Checkpoint) (answer : string) : Run :=
  run world g fuel (pending ckpt) (answered ckpt ++ [answer])%list n
    (saved ckpt).


End Graph.

Arguments StateGraph S : clear implicits.
Arguments Node S : clear implicits.
Arguments Branch S : clear implicits.
Arguments Checkpoint S : clear implicits.
Arguments RunResult S : clear implicits.
Arguments Step S : clear implicits.
Arguments Run S : clear implicits.

End Engine.

(* ------------------------------------------------------------------ *)
(** ** Prebuilt parts of the conversational graphs *)

Module Prebuilt.

Import Msg Eff Engine.
#[local] Open Scope prog_scope.

(** [class ChatState(TypedDict)] and [class AgentState(TypedDict)]: the
    message history, with the [add_messages] reducer. *)
Record MessagesState : Type := {
  messages : list Message;
}.

(** Modelled from the spec: the [add_messages] reducer (the framework's);
    section 3: the ordering of messages is append-only, so what a node
    returns is appended to the history. *)
Definition add_messages (left right : list Message) : list Message :=
  (left ++ right)%list.

Fixpoint last_message (ms : list Message) : option Message :=
  match ms with
  | [] => None
  | [m] => Some m
  | _ :: ms' => last_message ms'
  end.

(** A registered tool: its name, and its body applied to the arguments
    of a call (the schema the [@tool] decorator derives from the
    signature). *)
Record Tool : Type := {
  tool_name : string;
  tool_run : list (string * Arg) -> Prog string;
}.

Definition arg_str (args : list (string * Arg)) (name : string) : Prog string :=
  match lookup name args with
  | Some (ArgStr s) => Ret s
  | _ => Throw ("validation error for argument " ++ name)
  end.

Definition arg_str_default (args : list (string * Arg)) (name default : string)
  : Prog string :=
  match lookup name args with
  | None => Ret default
  | Some (ArgStr s) => Ret s
  | Some _ => Throw ("validation error for argument " ++ name)
  end.

Definition arg_int (args : list (string * Arg)) (name : string) : Prog Z :=
  match lookup name args with
  | Some (ArgInt n) => Ret n
  | _ => Throw ("validation error for argument " ++ name)
  end.

Definition arg_float (args : list (string * Arg)) (name : string) : Prog float :=
  match lookup name args with
  | Some (ArgFloat x) => Ret x
  | Some (ArgInt n) => Ret (PyFloat.of_int n)
  | _ => Throw ("validation error for argument " ++ name)
  end.

Fixpoint find_tool (kit : list Tool) (name : string) : option Tool :=
  match kit with
  | [] => None
  | t :: kit' => if String.eqb (tool_name t) name then Some t
                 else find_tool kit' name
  end.

(** Modelled from the spec: the tool-execution step (the framework's
    [ToolNode], absent from the repository).  Section 4.3: it runs each
    requested tool and appends its result as a tool message; section 7: a
    failure inside a tool is converted to error text returned as the
    tool's result; section 9: an unknown name produces an error, never a
    lookup failure. *)
Definition run_tool_call (kit : list Tool) (tc : ToolCall) : Prog Message :=
  match find_tool kit (tc_name tc) with
  | None =>
      Ret (ToolMessage ("Error: " ++ tc_name tc ++ " is not a valid tool.")
             (tc_id tc))
  | Some t =>
      text <- (try tool_run t (tc_args tc) except e => Ret ("Error: " ++ e)) ;;
      Ret (ToolMessage text (tc_id tc))
  end.

(** Modelled from the spec: the requested tools run one after the
    other, in the order of the calls. *)
Fixpoint run_tool_calls (kit : list Tool) (calls : list ToolCall)
  : Prog (list Message) :=
  match calls with
  | [] => Ret []
  | tc :: calls' =>
      m <- run_tool_call kit tc ;;
      ms <- run_tool_calls kit calls' ;;
      Ret (m :: ms)
  end.

(** Modelled from the spec: [ToolNode(tools=tools)], the step itself; it
    serves the tool calls of the last message, the model's response. *)
Definition ToolNode (kit : list Tool) (state : MessagesState)
  : Prog MessagesState :=
  match last_message (messages state) with
  | Some (AI response) =>
      results <- run_tool_calls kit (tool_calls response) ;;
      Ret {| messages := add_messages (messages state) results |}
  | _ => Throw "No AIMessage found in input"
  end.

(** Modelled from the spec: the tool-dispatch routing (the framework's
    [tools_condition], absent from the repository).  Section 4.3: after
    the agent step runs, inspect whether the model's response includes one
    or more tool calls; if yes, route to the tool-execution step; if no
    tool calls are present, route to the terminal marker. *)
Definition tools_condition (state : MessagesState) : option string :=
  match last_message (messages state) with
  | None => None
  | Some (AI response) =>
      match tool_calls response with
      | [] => Some END
      | _ :: _ => Some "tools"
      end
  | Some _ => Some END
  end.

(** The shape the agent nodes of the two graphs share: the model is
    asked, and its response is appended to the history. *)
Definition agent_node (asked : MessagesState -> list Message)
  : Node MessagesState :=
  fun state =>
    response <- attempt (Chat (asked state)) ;;
    Ret {| messages := add_messages (messages state) [AI response] |}.

(** The history ends with a response of the model that asks for no tool. *)
Definition final_answer (state : MessagesState) : bool :=
  match last_message (messages state) with
  | Some (AI response) =>
      match tool_calls response with
      | [] => true
      | _ :: _ => false
      end
  | _ => false
  end.

(** The history ends with a response of the model that asks for tools. *)
Definition tools_due (state : MessagesState) : bool :=
  match last_message (messages state) with
  | Some (AI response) =>
      match tool_calls response with
      | [] => false
      | _ :: _ => true
      end
  | _ => false
  end.

Definition history_length (state : MessagesState) : nat :=
  List.length (messages state).

End Prebuilt.

(* ------------------------------------------------------------------ *)
(** ** Chatbot/main.py *)

Module Chatbot.

Import Msg Eff Engine Prebuilt.
#[local] Open Scope prog_scope.

Definition search_web (query : string) : Prog string :=
  result <- attempt (Search query) ;;
  Ret result.

Definition get_date_time : Prog string :=
  call Now.

Definition calculator_tool (expression : string) : Prog string :=
  try (result <- guarded (Eval expression) ;;
       Ret result)
  except e => Ret ("Error in calculation: " ++ e).

Definition tools : list Tool :=
  [ {| tool_name := "search_web";
       tool_run := fun args => query <- arg_str args "query" ;;
                               search_web query |};
    {| tool_name := "get_date_time";
       tool_run := fun _ => get_date_time |};
    {| tool_name := "calculator_tool";
       tool_run := fun args => expression <- arg_str args "expression" ;;
                               calculator_tool expression |} ].

Definition ChatState : Type := MessagesState.

Definition chat_node (state : ChatState) : Prog ChatState :=
  response <- attempt (Chat (messages state)) ;;
  Ret {| messages := add_messages (messages state) [AI response] |}.

Definition graph : StateGraph ChatState :=
  add_edge "chat_node" END
    (add_edge "tools" "chat_node"
       (add_conditional_edges "chat_node" tools_condition None
          (add_edge START "chat_node"
             (add_node "tools" (ToolNode tools)
                (add_node "chat_node" chat_node new_graph))))).




Definition is_error_text (text : string) : bool :=
  prefix "Error in calculation: " text.

End Chatbot.

(* ------------------------------------------------------------------ *)
(** ** Feedback-Driven_Blog_Agent/main.py (and app.py, which declares
       the same state, schema, nodes, router and graph) *)

Module BlogAgent.

Import Eff Engine.
#[local] Open Scope prog_scope.

(** [class BlogEvaluation(BaseModel)]:
    [score: float = Field(..., ge=0.0, le=10.0)] and
    [feedback: str = Field(...)]. *)
Module BlogEvaluation.

Record t : Type := {
  score : float;
  feedback : string;
}.

Definition ge : float := 0%float.
Definition le : float := 10%float.

(** Modelled from the spec: the validation of a structured result (done
    by the schema library, absent from the repository).  Section 4.1: if
    a schema is given, the result must validate against it (numeric
    fields within declared bounds, required string fields present) or the
    call fails with a [SchemaValidationError]. *)
Definition validate (raw : RawObject) : PyResult t :=
  match raw_score raw, raw_feedback raw with
  | Some s, Some f =>
      if PyFloat.le ge s && PyFloat.le s le
      then Returned {| score := s; feedback := f |}
      else Raises "SchemaValidationError: score"
  | None, _ => Raises "SchemaValidationError: score"
  | _, None => Raises "SchemaValidationError: feedback"
  end.

End BlogEvaluation.

(** [class BlogState(TypedDict)]; a key is absent until a node sets it. *)
Record BlogState : Type := {
  topic : option string;
  outline : option string;
  final_blog : option string;
  blog_score : option float;
  feedback : option string;
}.

(** [state[key]], which raises [KeyError] on an absent key. *)
Definition getitem {A : Type} (key : string) (field : option A) : Prog A :=
  match field with
  | Some v => Ret v
  | None => Throw ("KeyError: " ++ key)
  end.

(** [state.get(key, default)]. *)
Definition get {A : Type} (field : option A) (default : A) : A :=
  match field with
  | Some v => v
  | None => default
  end.

Definition set_outline (v : string) (state : BlogState) : BlogState :=
  {| topic := topic state; outline := Some v;
     final_blog := final_blog state; blog_score := blog_score state;
     feedback := feedback state |}.

Definition set_final_blog (v : string) (state : BlogState) : BlogState :=
  {| topic := topic state; outline := outline state;
     final_blog := Some v; blog_score := blog_score state;
     feedback := feedback state |}.

Definition set_blog_score (v : float) (state : BlogState) : BlogState :=
  {| topic := topic state; outline := outline state;
     final_blog := final_blog state; blog_score := Some v;
     feedback := feedback state |}.

Definition set_feedback (v : string) (state : BlogState) : BlogState :=
  {| topic := topic state; outline := outline state;
     final_blog := final_blog state; blog_score := blog_score state;
     feedback := Some v |}.

Definition nl : string := String "010"%char EmptyString.
Definition dq : string := String "034"%char EmptyString.

Definition create_outline (state : BlogState) : Prog BlogState :=
  topic <- getitem "topic" (topic state) ;;
  let prompt := "Create a detailed blog outline on: " ++ topic in
  content <- attempt (Invoke prompt) ;;
  Ret (set_outline content state).

Definition create_blog (state : BlogState) : Prog BlogState :=
  outline <- getitem "outline" (outline state) ;;
  let feedback := get (feedback state) "" in
  let prompt :=
    if PyStr.truthy feedback then
      nl ++ "Improve the blog using this feedback:" ++ nl ++ nl
      ++ "Feedback:" ++ nl ++ feedback ++ nl ++ nl
      ++ "Blog outline:" ++ nl ++ outline ++ nl ++ nl
      ++ "Rewrite the blog better." ++ nl
    else
      nl ++ "Write a detailed blog based on this outline:" ++ nl ++ nl
      ++ outline ++ nl in
  content <- attempt (Invoke prompt) ;;
  Ret (set_final_blog content state).

(** [llm_judge.with_structured_output(BlogEvaluation).invoke(prompt)]. *)
Definition judge (prompt : string) : Prog BlogEvaluation.t :=
  raw <- attempt (InvokeStructured prompt) ;;
  match BlogEvaluation.validate raw with
  | Returned result => Ret result
  | Raises e => Throw e
  end.

Definition score_blog (state : BlogState) : Prog BlogState :=
  outline <- getitem "outline" (outline state) ;;
  final_blog <- getitem "final_blog" (final_blog state) ;;
  let prompt :=
    nl ++ "Evaluate the blog based on how well it follows the outline."
    ++ nl ++ nl ++ "Outline:" ++ nl ++ outline ++ nl ++ nl
    ++ "Blog:" ++ nl ++ final_blog ++ nl ++ nl
    ++ "Return JSON only:" ++ nl
    ++ "{" ++ dq ++ "score" ++ dq ++ ": number between 0 and 10, "
    ++ dq ++ "feedback" ++ dq ++ ": " ++ dq ++ "how to improve" ++ dq ++ "}"
    ++ nl in
  result <- judge prompt ;;
  Ret (set_feedback (BlogEvaluation.feedback result)
         (set_blog_score (BlogEvaluation.score result) state)).

(** The router: [state["blog_score"] < 7.0]. *)
Definition blog_optimizer (state : BlogState) : option string :=
  match blog_score state with
  | None => None
  | Some s => Some (if PyFloat.lt s 7 then "optimize blog" else "end")
  end.

Definition path_map : list (string * string) :=
  [("optimize blog", "blog_node"); ("end", END)].

Definition graph : StateGraph BlogState :=
  add_conditional_edges "score_node" blog_optimizer (Some path_map)
    (add_edge "blog_node" "score_node"
       (add_edge "outline_node" "blog_node"
          (add_edge START "outline_node"
             (add_node "score_node" score_blog
                (add_node "blog_node" create_blog
                   (add_node "outline_node" create_outline new_graph)))))).

(** [app.invoke({"topic": topic})]. *)
Definition initial (topic_text : string) : BlogState :=
  {| topic := Some topic_text; outline := None; final_blog := None;
     blog_score := None; feedback := None |}.

Definition app (world : Oracle) (fuel : nat) (topic_text : string)
  : Run BlogState :=
  invoke world graph fuel 0 (initial topic_text).

(** [app.invoke({"topic": topic})] as [main.py] and [app.py] call it:
    without a config, so within the default limit of the framework. *)
Definition invoke_app (world : Oracle) (topic_text : string)
  : Run BlogState :=
  invoke_within world graph recursion_limit 0 (initial topic_text).

(** How many times a node was started in a run. *)
Definition started (node : string) (steps : list (Step BlogState)) : nat :=
  List.length (filter (fun s => String.eqb (step_node s) node) steps).

(** What the judge's [n]-th answer of the world amounts to once the
    schema has been applied. *)
Definition verdict (world : Oracle) (n : nat) (prompt : string)
  : PyResult BlogEvaluation.t :=
  match world n _ (InvokeStructured prompt) with
  | Returned raw => BlogEvaluation.validate raw
  | Raises e => Raises e
  end.



(** The bounds of the schema, as a test on a score. *)
Definition in_bounds (s : float) : bool :=
  PyFloat.le BlogEvaluation.ge s && PyFloat.le s BlogEvaluation.le.

End BlogAgent.

(* ------------------------------------------------------------------ *)
(** ** stock_market_agent/app.py *)

Module StockAgent.

Import Msg Eff Engine Prebuilt.
#[local] Open Scope prog_scope.

(** What [get_stock_price] returns: a [float], or a [str] on failure. *)
Inductive FloatOrStr : Type :=
| AsFloat (x : float)
| AsStr (s : string).

(** [history["Close"].iloc[-1]]; there is none when [history.empty]. *)
Fixpoint last_close (closes : list float) : option float :=
  match closes with
  | [] => None
  | [x] => Some x
  | _ :: closes' => last_close closes'
  end.

Definition get_stock_price (ticker_symbol period : string) : Prog FloatOrStr :=
  let symbol := PyStr.strip (PyStr.upper ticker_symbol) in
  try (history <- guarded (History symbol period) ;;
       match last_close history with
       | None =>
           Ret (AsStr ("Error: No data found for symbol '" ++ symbol
                       ++ "'. Check if the ticker is correct."))
       | Some current_price =>
           Ret (AsFloat (PyFloat.round2 current_price))
       end)
  except e => Ret (AsStr ("An error occurred: " ++ e)).

Definition buy_stocks (ticker_symbol : string) (quantity : Z)
    (total_price : float) : Prog string :=
  if (quantity <=? 0)%Z then
    Ret "❌ Error: Quantity must be positive"
  else if PyFloat.le total_price 0 then
    Ret "❌ Error: Total price must be positive"
  else
    decision <- call (Interrupt
      ("Do you want to buy " ++ PyStr.str_int quantity ++ " shares of "
       ++ ticker_symbol ++ " for $" ++ PyFloat.repr total_price
       ++ "? (yes/no)")) ;;
    if String.eqb (PyStr.lower decision) "yes" then
      Ret ("✅ You bought " ++ PyStr.str_int quantity ++ " shares of "
           ++ ticker_symbol ++ " for $" ++ PyFloat.repr total_price ++ ".")
    else
      Ret "❌ Transaction cancelled.".

Definition sell_stocks (ticker_symbol : string) (quantity : Z)
    (total_price : float) : Prog string :=
  if (quantity <=? 0)%Z then
    Ret "❌ Error: Quantity must be positive"
  else if PyFloat.le total_price 0 then
    Ret "❌ Error: Total price must be positive"
  else
    decision <- call (Interrupt
      ("Do you want to sell " ++ PyStr.str_int quantity ++ " shares of "
       ++ ticker_symbol ++ " for $" ++ PyFloat.repr total_price
       ++ "? (yes/no)")) ;;
    if String.eqb (PyStr.lower decision) "yes" then
      Ret ("✅ You sold " ++ PyStr.str_int quantity ++ " shares of "
           ++ ticker_symbol ++ " for $" ++ PyFloat.repr total_price ++ ".")
    else
      Ret "❌ Transaction cancelled.".

Definition get_current_datetime : Prog string :=
  call Now.

(** The texts the two trading tools produce, as the statements below
    refer to them. *)
Definition ask (verb ticker_symbol : string) (quantity : Z)
    (total_price : float) : string :=
  "Do you want to " ++ verb ++ " " ++ PyStr.str_int quantity ++ " shares of "
  ++ ticker_symbol ++ " for $" ++ PyFloat.repr total_price ++ "? (yes/no)".

Definition done_text (verb ticker_symbol : string) (quantity : Z)
    (total_price : float) : string :=
  "✅ You " ++ verb ++ " " ++ PyStr.str_int quantity ++ " shares of "
  ++ ticker_symbol ++ " for $" ++ PyFloat.repr total_price ++ ".".

Definition cancelled : string := "❌ Transaction cancelled.".

Definition is_error_text (text : string) : bool :=
  prefix "❌ Error: " text.

(** What a trading tool does once quantity and price have passed the two
    guards: it asks, and answers according to the decision. *)
Definition after_guards (verb past : string) (ticker_symbol : string)
    (quantity : Z) (total_price : float) : Prog string :=
  Do (Interrupt (ask verb ticker_symbol quantity total_price))
     (fun decision =>
        if String.eqb (PyStr.lower decision) "yes"
        then Ret (done_text past ticker_symbol quantity total_price)
        else Ret cancelled).

(** [str(result)], the content of the tool message. *)
Definition str_result (r : FloatOrStr) : string :=
  match r with
  | AsFloat x => PyFloat.repr x
  | AsStr s => s
  end.

Definition tools : list Tool :=
  [ {| tool_name := "get_stock_price";
       tool_run := fun args =>
         ticker_symbol <- arg_str args "ticker_symbol" ;;
         period <- arg_str_default args "period" "1d" ;;
         r <- get_stock_price ticker_symbol period ;;
         Ret (str_result r) |};
    {| tool_name := "buy_stocks";
       tool_run := fun args =>
         ticker_symbol <- arg_str args "ticker_symbol" ;;
         quantity <- arg_int args "quantity" ;;
         total_price <- arg_float args "total_price" ;;
         buy_stocks ticker_symbol quantity total_price |};
    {| tool_name := "sell_stocks";
       tool_run := fun args =>
         ticker_symbol <- arg_str args "ticker_symbol" ;;
         quantity <- arg_int args "quantity" ;;
         total_price <- arg_float args "total_price" ;;
         sell_stocks ticker_symbol quantity total_price |};
    {| tool_name := "get_current_datetime";
       tool_run := fun _ => get_current_datetime |} ].

Definition AgentState : Type := MessagesState.

Definition nl : string := String "010"%char EmptyString.

Definition system_prompt : Message :=
  System
    (nl
     ++ "        You are a stock market trading agent. Your goal is to help users make informed decisions about buying and selling stocks."
     ++ nl
     ++ "        Answer the user queries using the available tools to get stock prices, buy stocks, sell stocks, and get the current date and time."
     ++ nl
     ++ "        Be accurate and concise in your responses."
     ++ nl ++ "        ").

Definition agent (state : AgentState) : Prog AgentState :=
  response <- attempt (Chat (system_prompt :: messages state)) ;;
  Ret {| messages := add_messages (messages state) [AI response] |}.

Definition graph : StateGraph AgentState :=
  add_edge "tools" "agent"
    (add_conditional_edges "agent" tools_condition None
       (add_edge START "agent"
          (add_node "tools" (ToolNode tools)
             (add_node "agent" agent new_graph)))).

(** [app.invoke({"messages": [user message]}, config)]: the message is
    appended to the history the checkpointer holds for the thread. *)
Definition send (world : Oracle) (fuel n : nat) (history : list Message)
    (user_input : string) : Run AgentState :=
  invoke world graph fuel n
    {| messages := add_messages history [Human user_input] |}.

(** The two buttons: [Command(resume="yes")] and [Command(resume="no")]. *)
Definition confirm (world : Oracle) (fuel n : nat)
    (ckpt : Checkpoint AgentState) (answer : string) : Run AgentState :=
  resume_with world graph fuel n ckpt answer.

End StockAgent.

(* ------------------------------------------------------------------ *)
(** ** Sample worlds

    Concrete answers of the outside world, for the scenarios on which
    the functions are run below. *)

Module Samples.

Import Msg Eff Engine Prebuilt.

(** A world in which every service is down. *)
Definition unavailable {X : Type} (c : Call X) : X :=
  match c in Call X0 return X0 with
  | Invoke _ => Raises "ModelUnavailableError"
  | InvokeStructured _ => Raises "ModelUnavailableError"
  | Chat _ => Raises "ModelUnavailableError"
  | Eval _ => RaisesException "invalid syntax (<string>, line 1)"
  | Search _ => Raises "search backend unavailable"
  | Now => "2025-01-01 00:00:00"
  | History _ _ => RaisesException "connection refused"
  | Interrupt _ => ""
  end.

Definition down : Oracle := fun _ X c => unavailable c.

(** A Python interpreter that knows two expressions: [abs(-3)] is [3],
    and [__import__('sys').exit(3)] raises [SystemExit(3)]. *)
Definition interpreter : Oracle :=
  fun _ X c =>
    match c in Call X0 return X0 with
    | Eval source =>
        if String.eqb source "abs(-3)" then Returns "3"
        else if String.eqb source "__import__('sys').exit(3)"
        then RaisesBaseException "3"
        else RaisesException "invalid syntax (<string>, line 1)"
    | c0 => unavailable c0
    end.

(** A blog model whose judge gives 5.5 with "add more examples" the
    first time and 8.0 afterwards (the scenario of section 8). *)
Definition cats_vs_dogs : Oracle :=
  fun n X c =>
    match c in Call X0 return X0 with
    | Invoke prompt => Returned ("text for: " ++ prompt)
    | InvokeStructured _ =>
        if (n <=? 2)%nat
        then Returned {| raw_score := Some 5.5%float;
                         raw_feedback := Some "add more examples" |}
        else Returned {| raw_score := Some 8%float;
                         raw_feedback := Some "good" |}
    | c0 => unavailable c0
    end.

(** A blog model whose judge never gives more than 5.0. *)
Definition stubborn : Oracle :=
  fun _ X c =>
    match c in Call X0 return X0 with
    | Invoke prompt => Returned "draft"
    | InvokeStructured _ =>
        Returned {| raw_score := Some 5%float;
                    raw_feedback := Some "add more examples" |}
    | c0 => unavailable c0
    end.

(** A blog model whose judge gives 5.0 eleven times and 8.0 from the
    twelfth evaluation on (the call numbered 24). *)
Definition late : Oracle :=
  fun n X c =>
    match c in Call X0 return X0 with
    | Invoke prompt => Returned "draft"
    | InvokeStructured _ =>
        if (n <? 24)%nat
        then Returned {| raw_score := Some 5%float;
                         raw_feedback := Some "add more examples" |}
        else Returned {| raw_score := Some 8%float;
                         raw_feedback := Some "good" |}
    | c0 => unavailable c0
    end.

(** A judge that answers with a score of 11. *)
Definition generous : Oracle :=
  fun _ X c =>
    match c in Call X0 return X0 with
    | Invoke prompt => Returned "draft"
    | InvokeStructured _ =>
        Returned {| raw_score := Some 11%float;
                    raw_feedback := Some "perfect" |}
    | c0 => unavailable c0
    end.

(** A market whose last close of AAPL is 101.0625, and which knows no
    other symbol. *)
Definition market : Oracle :=
  fun _ X c =>
    match c in Call X0 return X0 with
    | History symbol _ =>
        if String.eqb symbol "AAPL"
        then Returns [100.5%float; 101.0625%float]
        else Returns []
    | c0 => unavailable c0
    end.

(** A market whose provider is interrupted from the keyboard. *)
Definition interrupted : Oracle :=
  fun _ X c =>
    match c in Call X0 return X0 with
    | History _ _ => RaisesBaseException "KeyboardInterrupt"
    | c0 => unavailable c0
    end.

Definition buy_call : ToolCall :=
  {| tc_name := "buy_stocks";
     tc_args := [("ticker_symbol", ArgStr "AAPL"); ("quantity", ArgInt 10);
                 ("total_price", ArgFloat 1500.5%float)];
     tc_id := "call_1" |}.

Definition calc_call : ToolCall :=
  {| tc_name := "calculator_tool";
     tc_args := [("expression", ArgStr "abs(-3)")];
     tc_id := "call_1" |}.

(** A trading assistant: asked anything, it first requests the purchase
    of 10 AAPL shares for 1500.5, and once a tool message has come back
    it answers in plain text. *)
Definition broker : Oracle :=
  fun _ X c =>
    match c in Call X0 return X0 with
    | Chat messages =>
        match last_message messages with
        | Some (ToolMessage text _) =>
            Returned {| ai_content := text; tool_calls := [] |}
        | _ => Returned {| ai_content := ""; tool_calls := [buy_call] |}
        end
    | c0 => market 0 _ c0
    end.

Definition sell_call : ToolCall :=
  {| tc_name := "sell_stocks";
     tc_args := [("ticker_symbol", ArgStr "TSLA"); ("quantity", ArgInt 2);
                 ("total_price", ArgFloat 800%float)];
     tc_id := "call_2" |}.

(** A trading assistant that requests a purchase and a sale in one
    response. *)
Definition two_orders : Oracle :=
  fun _ X c =>
    match c in Call X0 return X0 with
    | Chat messages =>
        match last_message messages with
        | Some (ToolMessage text _) =>
            Returned {| ai_content := text; tool_calls := [] |}
        | _ => Returned {| ai_content := EmptyString;
                           tool_calls := [buy_call; sell_call] |}
        end
    | c0 => market 0 _ c0
    end.

(** A chat model that asks for one calculation, then answers. *)
Definition assistant : Oracle :=
  fun _ X c =>
    match c in Call X0 return X0 with
    | Chat messages =>
        match last_message messages with
        | Some (ToolMessage text _) =>
            Returned {| ai_content := "The result is " ++ text;
                        tool_calls := [] |}
        | _ => Returned {| ai_content := ""; tool_calls := [calc_call] |}
        end
    | c0 => interpreter 0 _ c0
    end.

End Samples.

(* ------------------------------------------------------------------ *)
(** ** Shapes of step lists and of histories, for the statements *)

Module Shape.

(** How many of the steps started were steps of a given node. *)
Definition count_node {S : Type} (node : string)
    (steps : list (Engine.Step S)) : nat :=
  List.length
    (filter (fun s => String.eqb (Engine.step_node s) node) steps).

(** A message a run produces: a response of the model or the result of
    a tool. *)
Definition is_reply (m : Msg.Message) : bool :=
  match m with
  | Msg.AI _ | Msg.ToolMessage _ _ => true
  | _ => false
  end.

(** [new] is [old] followed by replies only. *)
Definition grown_by_replies (old new : list Msg.Message) : Prop :=
  exists added, new = (old ++ added)%list /\ forallb is_reply added = true.

End Shape.

(* ------------------------------------------------------------------ *)
(** ** Feedback-Driven_Blog_Agent/app.py: the quality report *)

Module BlogReport.

(** [score >= bound]. *)
Definition ge (x y : float) : bool := PyFloat.le y x.

(** [delta="Excellent" if score >= 8 else "Good" if score >= 7
    else "Needs Improvement"]. *)
Definition delta (score : float) : string :=
  if ge score 8 then "Excellent"
  else if ge score 7 then "Good"
  else "Needs Improvement".

(** The score indicator: [st.success], [st.info] or [st.warning]. *)
Inductive Banner : Type :=
| success (text : string)
| info (text : string)
| warning (text : string).

Definition indicator (score : float) : Banner :=
  if ge score 8 then success "🌟 High Quality Blog"
  else if ge score 7 then info "✅ Good Quality Blog"
  else warning "⚠️ Acceptable Quality".

End BlogReport.

(* ------------------------------------------------------------------ *)
(** ** Chatbot/main.py: the threads of the checkpoint database *)

Module ChatbotThreads.

(** A checkpoint as [checkpointer.list(None)] yields it; only
    [checkpoint.config['configurable']['thread_id']] is read. *)
Record CheckpointTuple : Type := {
  thread_id : string;
  checkpoint_id : string;
}.

(** [all_threads.add(...)] on a set kept as a list without repetition. *)
Definition add (x : string) (all_threads : list string) : list string :=
  ListSet.set_add string_dec x all_threads.

(** [get_threads_in_db()], on the checkpoints the database holds. *)
Definition get_threads_in_db (checkpoints : list CheckpointTuple)
  : list string :=
  fold_left (fun all_threads checkpoint => add (thread_id checkpoint) all_threads)
    checkpoints [].

End ChatbotThreads.

(* ------------------------------------------------------------------ *)
(** ** stock_market_agent/app.py: the session of the page *)

Module StockUI.

Import Msg Eff.

(** What the page hands to [app.invoke]: a user message, or
    [Command(resume=answer)]. *)
Inductive AppInput : Type :=
| UserMessage (content : string)
| Resume (answer : string).

(** What [app.invoke] returns: the messages of the state and, when the
    run was suspended, the entry [__interrupt__]. *)
Record Response : Type := {
  res_messages : list Message;
  res_interrupt : list string;
}.

(** The compiled graph as the page sees it: the answer to the [n]-th
    invocation, which may raise. *)
Definition App : Type := nat -> string -> AppInput -> PyResult Response.

(** An entry of [chat_history]: [{"type": ..., "content": ...}]. *)
Record Entry : Type := {
  entry_type : string;
  entry_content : string;
}.

(** [st.session_state], with the invocations made so far. *)
Record Session : Type := {
  chat_history : list Entry;
  awaiting_decision : bool;
  pending_response : option Response;
  thread : string;
  invoked : list AppInput;
}.

Definition initial : Session :=
  {| chat_history := []; awaiting_decision := false;
     pending_response := None; thread := "thread_1"; invoked := [] |}.

Inductive Widget : Type :=
| ClearChat
| Yes
| No
| ChatInput (user_input : string).

(** [response['messages'][-1].content]. *)
Definition last_content (response : Response) : PyResult string :=
  match Prebuilt.last_message (res_messages response) with
  | Some m => Returned (content m)
  | None => Raises "IndexError: list index out of range"
  end.

Definition append (e : Entry) (s : Session) : Session :=
  {| chat_history := (chat_history s ++ [e])%list;
     awaiting_decision := awaiting_decision s;
     pending_response := pending_response s;
     thread := thread s; invoked := invoked s |}.

Definition sent (input : AppInput) (s : Session) : Session :=
  {| chat_history := chat_history s;
     awaiting_decision := awaiting_decision s;
     pending_response := pending_response s;
     thread := thread s; invoked := (invoked s ++ [input])%list |}.

Definition set_decision (awaiting : bool) (pending : option Response)
    (s : Session) : Session :=
  {| chat_history := chat_history s;
     awaiting_decision := awaiting;
     pending_response := pending;
     thread := thread s; invoked := invoked s |}.

(** The button [Clear Chat]. *)
Definition clear_chat (s : Session) : Session :=
  {| chat_history := []; awaiting_decision := false;
     pending_response := None; thread := thread s; invoked := invoked s |}.

(** The buttons [Yes] and [No]; an exception ends the script where it is
    raised, with the session as it is then. *)
Definition decide (app : App) (answer : string) (s : Session) : Session :=
  let s1 := sent (Resume answer) s in
  match app (List.length (invoked s)) (thread s) (Resume answer) with
  | Raises _ => s1
  | Returned response =>
      match last_content response with
      | Raises _ => s1
      | Returned text =>
          set_decision false None
            (append {| entry_type := "agent"; entry_content := text |} s1)
      end
  end.

(** The chat input. *)
Definition submit (app : App) (user_input : string) (s : Session) : Session :=
  let s1 := sent (UserMessage user_input)
              (append {| entry_type := "user"; entry_content := user_input |}
                 s) in
  match app (List.length (invoked s)) (thread s) (UserMessage user_input) with
  | Raises _ => s1
  | Returned response =>
      match res_interrupt response with
      | _ :: _ =>
          match last_content response with
          | Raises _ => s1
          | Returned agent_msg =>
              set_decision true (Some response)
                (append {| entry_type := "agent"; entry_content := agent_msg |}
                   s1)
          end
      | [] =>
          match last_content response with
          | Raises _ => s1
          | Returned agent_msg =>
              append {| entry_type := "agent"; entry_content := agent_msg |} s1
          end
      end
  end.

(** The two buttons are rendered when
    [awaiting_decision and pending_response]. *)
Definition buttons_shown (s : Session) : bool :=
  awaiting_decision s
  && match pending_response s with Some _ => true | None => false end.

(** One run of the script, for the widget the user acted on; the chat
    input is disabled while [awaiting_decision], and an empty input is
    no input. *)
Definition rerun (app : App) (s : Session) (w : Widget) : Session :=
  match w with
  | ClearChat => clear_chat s
  | Yes => if buttons_shown s then decide app "yes" s else s
  | No => if buttons_shown s then decide app "no" s else s
  | ChatInput user_input =>
      if awaiting_decision s then s
      else if PyStr.truthy user_input then submit app user_input s
      else s
  end.

Definition page (app : App) (widgets : list Widget) : Session :=
  fold_left (rerun app) widgets initial.

Definition is_resume (input : AppInput) : bool :=
  match input with
  | Resume _ => true
  | UserMessage _ => false
  end.

(** Among the invocations [made], the latest user message was answered
    by [response], and only decisions were sent since. *)
Definition answered_by (app : App) (made : list AppInput)
    (response : Response) : Prop :=
  exists before user_input decisions,
    made = (before ++ UserMessage user_input :: decisions)%list
    /\ forallb is_resume decisions = true
    /\ app (List.length before) "thread_1" (UserMessage user_input)
       = Returned response.

(** The latest user message among [made] was answered by a suspended
    run. *)
Definition suspended_after (app : App) (made : list AppInput) : Prop :=
  exists response,
    answered_by app made response /\ res_interrupt response <> [].

(** A graph that suspends every user message and completes on every
    decision. *)
Definition cautious : App := fun _ _ input =>
  match input with
  | UserMessage _ =>
      Returned {| res_messages := [AI {| ai_content := EmptyString;
                                         tool_calls := [] |}];
                  res_interrupt := ["Do you want to buy?"] |}
  | Resume _ =>
      Returned {| res_messages := [ToolMessage "done" "call_1"];
                  res_interrupt := [] |}
  end.

End StockUI.

(* ================================================================== *)
(** * Properties *)

(* ------------------------------------------------------------------ *)
(** ** Strings *)

Module PyStrFacts.

Import PyStr.

(** *** The lower case of a letter *)

Ltac all_chars c :=
  destruct c as [[] [] [] [] [] [] [] []]; reflexivity.

Lemma char_lower_idem (c : ascii) : char_lower (char_lower c) = char_lower c.
Proof. all_chars c. Qed.

(** *** Substrings *)

Lemma prefix_app (p s : string) : prefix p (p ++ s) = true.
Proof.
  induction p as [|c p IH]; simpl.
  - now destruct s.
  - destruct (ascii_dec c c) as [_|N]; [exact IH | now destruct N].
Qed.

Lemma contains_unfold (sub s : string) :
  contains sub s
  = prefix sub s
    || match s with
       | EmptyString => false
       | String _ s' => contains sub s'
       end.
Proof. destruct s; reflexivity. Qed.

Lemma contains_here (sub s : string) : contains sub (sub ++ s) = true.
Proof. now rewrite contains_unfold, prefix_app. Qed.

Lemma contains_app (a sub b : string) : contains sub (a ++ sub ++ b) = true.
Proof.
  induction a as [|c a IH].
  - exact (contains_here sub b).
  - change ((String c a) ++ sub ++ b) with (String c (a ++ sub ++ b)).
    rewrite contains_unfold, IH. apply orb_true_r.
Qed.

(** [contains] is exactly "occurs somewhere in": the converse of
    [contains_app]. *)
Lemma prefix_inv (p s : string) :
  prefix p s = true -> exists b, s = p ++ b.
Proof.
  revert s. induction p as [|c p IH]; intros s H.
  - now exists s.
  - destruct s as [|d s]; simpl in H; [discriminate|].
    destruct (ascii_dec c d) as [->|]; [|discriminate].
    destruct (IH _ H) as [b ->]. now exists b.
Qed.

Lemma contains_inv (sub s : string) :
  contains sub s = true -> exists a b, s = a ++ sub ++ b.
Proof.
  induction s as [|c s IH]; rewrite contains_unfold; intros H.
  - rewrite orb_false_r in H. destruct (prefix_inv _ _ H) as [b E].
    now exists "", b.
  - apply orb_true_iff in H as [H|H].
    + destruct (prefix_inv _ _ H) as [b ->]. now exists "", b.
    + destruct (IH H) as (a & b & ->). now exists (String c a), b.
Qed.

Lemma contains_cons (sub : string) (c : ascii) (s : string) :
  contains sub s = true -> contains sub (String c s) = true.
Proof. intros H. rewrite contains_unfold, H. apply orb_true_r. Qed.

Lemma append_assoc (a b c : string) : a ++ b ++ c = (a ++ b) ++ c.
Proof.
  induction a as [|x a IH]; [reflexivity|].
  cbn [append]. now rewrite IH.
Qed.

Lemma append_empty_r (a : string) : a ++ "" = a.
Proof. induction a as [|x a IH]; [reflexivity|]. cbn [append]. now rewrite IH. Qed.

Lemma contains_end (a sub : string) : contains sub (a ++ sub) = true.
Proof.
  rewrite <- (append_empty_r sub) at 2. apply contains_app.
Qed.

Lemma contains_left (sub x b : string) :
  contains sub x = true -> contains sub (x ++ b) = true.
Proof.
  intros H. destruct (contains_inv _ _ H) as (a & c & ->).
  rewrite <- !append_assoc. apply contains_app.
Qed.

(** *** The answers that lowercase to [yes] *)

Lemma char_lower_inv (c d : ascii) :
  is_ascii_lower d = true -> char_lower c = d ->
  c = d \/ c = ascii_of_nat (nat_of_ascii d - 32).
Proof.
  intros Hd <-. revert Hd.
  destruct c as [[] [] [] [] [] [] [] []]; cbn; intros H;
    first [discriminate H | now left | now right].
Qed.

Lemma lower_yes (a : string) :
  lower a = "yes"
  <-> In a ["yes"; "yeS"; "yEs"; "yES"; "Yes"; "YeS"; "YEs"; "YES"].
Proof.
  split.
  - destruct a as [|c1 [|c2 [|c3 [|c4 a]]]]; try discriminate.
    unfold lower. cbn [map_chars]. intros [= H1 H2 H3].
    apply char_lower_inv in H1, H2, H3; try reflexivity.
    cbn in H1, H2, H3.
    destruct H1 as [-> | ->], H2 as [-> | ->], H3 as [-> | ->]; cbn; tauto.
  - cbn. intros H. repeat destruct H as [<- | H]; try reflexivity.
    contradiction.
Qed.

End PyStrFacts.

(* ------------------------------------------------------------------ *)
(** ** Characters, upper case and white space *)

Module PyStrChars.

Import PyStr.

Lemma append_nil_r (a : string) : a ++ EmptyString = a.
Proof. induction a as [|x a IH]; [reflexivity|]. cbn [append]. now rewrite IH. Qed.

Lemma append_assoc' (a b c : string) : (a ++ b) ++ c = a ++ b ++ c.
Proof.
  induction a as [|x a IH]; [reflexivity|]. cbn [append]. now rewrite IH.
Qed.

Lemma join_app (a b : list string) : join (a ++ b)%list = join a ++ join b.
Proof.
  unfold join. induction a as [|x a IH]; [reflexivity|].
  cbn [app fold_right]. now rewrite IH, append_assoc'.
Qed.

(** A character at the head of a string is its first character. *)
Lemma chars_char (c rest : string) :
  is_char c = true -> chars (c ++ rest) = c :: chars rest.
Proof.
  destruct c as [|b0 c]; [discriminate|].
  unfold is_char. intros H. apply andb_true_iff in H as [W E].
  apply Nat.eqb_eq in W.
  destruct c as [|b1 [|b2 [|b3 [|b4 c]]]]; cbn [String.length] in W;
    cbn [every] in E; cbn [append chars]; rewrite W.
  - destruct rest; reflexivity.
  - apply andb_true_iff in E as [E1 _]. now rewrite E1.
  - apply andb_true_iff in E as [E1 E]. apply andb_true_iff in E as [E2 _].
    now rewrite E1, E2.
  - apply andb_true_iff in E as [E1 E]. apply andb_true_iff in E as [E2 E].
    apply andb_true_iff in E as [E3 _]. now rewrite E1, E2, E3.
  - exfalso. unfold width in W.
    repeat match type of W with
           | (if ?b then _ else _) = _ => destruct b; try discriminate
           end.
Qed.

Lemma chars_join (cs : list string) :
  forallb is_char cs = true -> chars (join cs) = cs.
Proof.
  induction cs as [|c cs IH]; [reflexivity|].
  cbn [forallb join fold_right]. intros H.
  apply andb_true_iff in H as [Hc H].
  fold (join cs). now rewrite (chars_char _ _ Hc), IH.
Qed.

(** A string is its characters, one after the other. *)
Lemma join_chars_bounded :
  forall n s, String.length s <= n -> join (chars s) = s.
Proof.
  induction n as [|n IH]; intros s H.
  - destruct s; [reflexivity | cbn in H; lia].
  - destruct s as [|b0 s1]; [reflexivity|].
    cbn [chars].
    destruct (width b0) as [|[|[|[|[|w]]]]];
      destruct s1 as [|b1 [|b2 [|b3 s4]]];
      repeat match goal with
             | |- context [if ?b then _ else _] => destruct b
             end;
      cbn [join fold_right append];
      rewrite ?IH by (cbn [String.length] in *; lia);
      reflexivity.
Qed.

Lemma join_chars (s : string) : join (chars s) = s.
Proof. exact (join_chars_bounded (String.length s) s (le_n _)). Qed.

Lemma chars_of_char (c : string) : is_char c = true -> chars c = [c].
Proof.
  intros H. rewrite <- (append_nil_r c) at 1. now rewrite chars_char.
Qed.

(** The characters of strings put end to end. *)
Lemma chars_join_utf8 (parts : list string) :
  forallb utf8 parts = true ->
  chars (join parts) = flat_map chars parts.
Proof.
  intros H.
  assert (J : join parts = join (flat_map chars parts)).
  { clear H. induction parts as [|x parts IH]; [reflexivity|].
    cbn [flat_map join fold_right]. fold (join parts).
    now rewrite join_app, join_chars, IH. }
  rewrite J. apply chars_join. clear J.
  induction parts as [|x parts IH]; [reflexivity|].
  cbn [forallb flat_map] in *. apply andb_true_iff in H as [Hx H].
  rewrite forallb_app. unfold utf8 in Hx. rewrite Hx. now apply IH.
Qed.

(** *** The case table *)

Lemma assoc_in (key : string) (table : list (string * string)) v :
  assoc key table = Some v -> In (key, v) table.
Proof.
  induction table as [|[k w] table IH]; [discriminate|].
  cbn [assoc]. destruct (String.eqb k key) eqn:E.
  - apply String.eqb_eq in E. intros [= ->]. left. now rewrite E.
  - intros H. right. now apply IH.
Qed.

#[local] Abbreviation upper_case c :=
  (match assoc c upper_table with None => true | Some _ => false end).

(** Every upper case in the table is made of characters that have no
    other upper case than themselves. *)
Lemma upper_table_images :
  forallb (fun kv => utf8 (snd kv)
                     && forallb (fun d => upper_case d) (chars (snd kv)))
    upper_table = true.
Proof. vm_compute. reflexivity. Qed.

Lemma upper_char_image (c : string) :
  is_char c = true ->
  utf8 (upper_char c) = true
  /\ forall d, In d (chars (upper_char c)) -> upper_char d = d.
Proof.
  intros Hc. unfold upper_char at 1 2.
  destruct (assoc c upper_table) as [v|] eqn:E.
  - apply assoc_in in E.
    pose proof (proj1 (forallb_forall _ _) upper_table_images _ E) as H.
    cbn [snd] in H. apply andb_true_iff in H as [Hu Hd].
    split; [exact Hu|]. intros d Hin.
    pose proof (proj1 (forallb_forall _ _) Hd _ Hin) as F.
    cbn beta in F. unfold upper_char.
    destruct (assoc d upper_table); [discriminate | reflexivity].
  - rewrite (chars_of_char _ Hc). unfold utf8.
    rewrite (chars_of_char _ Hc). cbn [forallb]. rewrite Hc. split; [reflexivity|].
    intros d [<-|[]]. unfold upper_char. now rewrite E.
Qed.

(** The characters of [s.upper()] are upper cases of characters of [s]:
    none of them has another upper case than itself. *)
Lemma chars_upper (s : string) :
  utf8 s = true ->
  forallb is_char (chars (upper s)) = true
  /\ forall d, In d (chars (upper s)) -> upper_char d = d.
Proof.
  unfold utf8, upper. intros H.
  assert (U : forallb utf8 (map upper_char (chars s)) = true).
  { apply forallb_forall. intros u Hu. apply in_map_iff in Hu as (c & <- & Hc).
    apply upper_char_image. exact (proj1 (forallb_forall _ _) H _ Hc). }
  rewrite (chars_join_utf8 _ U). split.
  - apply forallb_forall. intros d Hd.
    apply in_flat_map in Hd as (u & Hu & Hd).
    pose proof (proj1 (forallb_forall _ _) U _ Hu) as Hutf.
    exact (proj1 (forallb_forall _ _) Hutf _ Hd).
  - intros d Hd. apply in_flat_map in Hd as (u & Hu & Hd).
    apply in_map_iff in Hu as (c & <- & Hc).
    apply (upper_char_image c); [|exact Hd].
    exact (proj1 (forallb_forall _ _) H _ Hc).
Qed.

Lemma map_fixed {A : Type} (f : A -> A) (l : list A) :
  (forall x, In x l -> f x = x) -> map f l = l.
Proof.
  induction l as [|x l IH]; [reflexivity|]. intros H. cbn [map].
  rewrite (H x (or_introl eq_refl)), IH; [reflexivity|].
  intros y Hy. apply H. now right.
Qed.

(** *** White space at the ends *)

Lemma lstrip_chars_incl (cs : list string) :
  forall c, In c (lstrip_chars cs) -> In c cs.
Proof.
  induction cs as [|x cs IH]; [easy|]. cbn [lstrip_chars].
  destruct (isspace x); intros c H; [right; now apply IH | exact H].
Qed.

Lemma rstrip_chars_incl (cs : list string) :
  forall c, In c (rstrip_chars cs) -> In c cs.
Proof.
  induction cs as [|x cs IH]; [easy|]. cbn [rstrip_chars].
  destruct (rstrip_chars cs) as [|d r].
  - destruct (isspace x); intros c H; [easy|].
    destruct H as [<-|[]]. now left.
  - intros c [<-|H]; [now left | right; now apply IH].
Qed.

Lemma lstrip_chars_head (cs : list string) :
  clean_head (lstrip_chars cs).
Proof.
  induction cs as [|c cs IH]; cbn [lstrip_chars]; [exact I|].
  destruct (isspace c) eqn:E; [exact IH | exact E].
Qed.

Lemma lstrip_chars_clean (cs : list string) :
  clean_head cs -> lstrip_chars cs = cs.
Proof. destruct cs as [|c cs]; cbn; [reflexivity|]. now intros ->. Qed.

Lemma rstrip_chars_head (cs : list string) :
  clean_head cs -> clean_head (rstrip_chars cs).
Proof.
  destruct cs as [|c cs]; cbn [rstrip_chars clean_head]; [exact (fun H => H)|].
  intros E. destruct (rstrip_chars cs); cbn [clean_head]; [rewrite E|]; exact E.
Qed.

Lemma rstrip_chars_last (cs : list string) :
  clean_last (rstrip_chars cs).
Proof.
  induction cs as [|x cs IH]; cbn [rstrip_chars]; [exact I|].
  destruct (rstrip_chars cs) as [|d r].
  - destruct (isspace x) eqn:E; [exact I | exact E].
  - exact IH.
Qed.

Lemma rstrip_chars_idem (cs : list string) :
  rstrip_chars (rstrip_chars cs) = rstrip_chars cs.
Proof.
  induction cs as [|c cs IH]; cbn [rstrip_chars]; [reflexivity|].
  destruct (rstrip_chars cs) as [|d r] eqn:E.
  - destruct (isspace c) eqn:Ec; cbn [rstrip_chars]; [reflexivity | now rewrite Ec].
  - change (rstrip_chars (c :: d :: r))
      with (match rstrip_chars (d :: r) with
            | [] => if isspace c then [] else [c]
            | x => c :: x
            end).
    now rewrite IH.
Qed.

Lemma strip_chars_idem (cs : list string) :
  rstrip_chars (lstrip_chars (rstrip_chars (lstrip_chars cs)))
  = rstrip_chars (lstrip_chars cs).
Proof.
  rewrite (lstrip_chars_clean (rstrip_chars (lstrip_chars cs))).
  - apply rstrip_chars_idem.
  - apply rstrip_chars_head, lstrip_chars_head.
Qed.

(** *** The normal form of a ticker *)

(** The characters of [s.upper().strip()]. *)
Lemma chars_normal (s : string) :
  utf8 s = true ->
  chars (strip (upper s)) = rstrip_chars (lstrip_chars (chars (upper s)))
  /\ forall d, In d (chars (strip (upper s))) -> upper_char d = d.
Proof.
  intros H. destruct (chars_upper s H) as [Hc Hf].
  assert (E : chars (strip (upper s))
              = rstrip_chars (lstrip_chars (chars (upper s)))).
  { unfold strip. apply chars_join, forallb_forall. intros c Hin.
    apply rstrip_chars_incl, lstrip_chars_incl in Hin.
    exact (proj1 (forallb_forall _ _) Hc _ Hin). }
  split; [exact E|]. rewrite E. intros d Hin.
  apply Hf. now apply lstrip_chars_incl, rstrip_chars_incl.
Qed.

Lemma upper_normal (s : string) :
  utf8 s = true -> upper (strip (upper s)) = strip (upper s).
Proof.
  intros H. destruct (chars_normal s H) as [_ Hf].
  unfold upper at 1. rewrite (map_fixed _ _ Hf). apply join_chars.
Qed.

Lemma strip_normal (s : string) :
  utf8 s = true -> strip (strip (upper s)) = strip (upper s).
Proof.
  intros H. destruct (chars_normal s H) as [E _].
  unfold strip at 1. rewrite E, strip_chars_idem. reflexivity.
Qed.

(** [s.upper().strip()] of [s.upper().strip()] is itself. *)
Lemma normal_idem (s : string) :
  utf8 s = true ->
  strip (upper (strip (upper s))) = strip (upper s).
Proof. intros H. now rewrite (upper_normal s H), (strip_normal s H). Qed.

Lemma utf8_normal (s : string) :
  utf8 s = true -> utf8 (strip (upper s)) = true.
Proof.
  intros H. destruct (chars_upper s H) as [Hc _].
  unfold utf8. rewrite (proj1 (chars_normal s H)).
  apply forallb_forall. intros c Hin.
  apply rstrip_chars_incl, lstrip_chars_incl in Hin.
  exact (proj1 (forallb_forall _ _) Hc _ Hin).
Qed.

(** *** No letter [a] to [z] is left *)

Lemma every_app (p : ascii -> bool) (a b : string) :
  every p (a ++ b) = every p a && every p b.
Proof.
  induction a as [|x a IH]; [reflexivity|].
  cbn [append every]. now rewrite IH, andb_assoc.
Qed.

Lemma every_join (p : ascii -> bool) (cs : list string) :
  (forall c, In c cs -> every p c = true) -> every p (join cs) = true.
Proof.
  induction cs as [|c cs IH]; [reflexivity|]. intros H.
  cbn [join fold_right]. fold (join cs).
  rewrite every_app, (H c (or_introl eq_refl)), IH; [reflexivity|].
  intros d Hd. apply H. now right.
Qed.

Lemma lower_byte_has_upper (b : ascii) :
  is_ascii_lower b = true ->
  String.eqb (upper_char (String b EmptyString)) (String b EmptyString)
  = false.
Proof.
  destruct b as [[] [] [] [] [] [] [] []]; vm_compute;
    intros H; (reflexivity || discriminate H).
Qed.

Lemma high_byte_not_lower (b : ascii) :
  continuation b || Nat.leb 2 (width b) = true -> is_ascii_lower b = false.
Proof.
  destruct b as [[] [] [] [] [] [] [] []]; vm_compute;
    intros H; (reflexivity || discriminate H).
Qed.

Lemma every_continuation (rest : string) :
  every continuation rest = true ->
  every (fun b => negb (is_ascii_lower b)) rest = true.
Proof.
  induction rest as [|b rest IH]; [reflexivity|]. cbn [every].
  intros H. apply andb_true_iff in H as [Hb H].
  rewrite (high_byte_not_lower b), IH; [reflexivity | exact H |].
  now rewrite Hb.
Qed.

Lemma fixed_char_no_lower (d : string) :
  is_char d = true -> upper_char d = d -> no_ascii_lower d = true.
Proof.
  destruct d as [|b0 rest]; [discriminate|].
  unfold is_char, no_ascii_lower. intros H F.
  apply andb_true_iff in H as [W E]. apply Nat.eqb_eq in W.
  cbn [every]. rewrite (every_continuation _ E), andb_true_r.
  destruct rest as [|b1 rest].
  - destruct (is_ascii_lower b0) eqn:L; [|reflexivity].
    apply lower_byte_has_upper in L. rewrite F, String.eqb_refl in L.
    discriminate.
  - rewrite (high_byte_not_lower b0); [reflexivity|].
    rewrite W. cbn. apply orb_true_r.
Qed.

Lemma normal_no_lower (s : string) :
  utf8 s = true -> no_ascii_lower (strip (upper s)) = true.
Proof.
  intros H. rewrite <- (join_chars (strip (upper s))).
  apply every_join. intros d Hd. apply fixed_char_no_lower.
  - exact (proj1 (forallb_forall _ _) (utf8_normal s H) _ Hd).
  - exact (proj2 (chars_normal s H) _ Hd).
Qed.

Lemma normal_clean (s : string) :
  utf8 s = true ->
  clean_head (chars (strip (upper s)))
  /\ clean_last (chars (strip (upper s))).
Proof.
  intros H. rewrite (proj1 (chars_normal s H)). split.
  - apply rstrip_chars_head, lstrip_chars_head.
  - apply rstrip_chars_last.
Qed.

End PyStrChars.

(* ------------------------------------------------------------------ *)
(** ** Floats *)

Module PyFloatFacts.

Import PyFloat.

(** A positive number is not [<= 0]. *)
Lemma lt_zero_not_le (p : float) : lt 0 p = true -> le p 0 = false.
Proof.
  unfold lt, le. rewrite ltb_spec, leb_spec. unfold SFltb, SFleb.
  change (Prim2SF 0) with (S754_zero false).
  destruct (Prim2SF p) as [s|s| |s m e]; simpl; try discriminate;
    destruct s; simpl; try discriminate; reflexivity.
Qed.

(** With the comparison to [0] decided either way, or not at all (NaN). *)
Lemma le_zero_not_lt (p : float) : le p 0 = true -> lt 0 p = false.
Proof.
  intros H. destruct (lt 0 p) eqn:E; [|reflexivity].
  apply lt_zero_not_le in E. congruence.
Qed.

Example round2_cents : round2 101.0625 = (10106 / 100)%float.
Proof. reflexivity. Qed.

Example round2_tie : round2 0.125 = (12 / 100)%float.
Proof. reflexivity. Qed.

Example round2_nan : PrimFloat.is_nan (round2 nan) = true.
Proof. reflexivity. Qed.

End PyFloatFacts.


(* ------------------------------------------------------------------ *)
(** ** Running programs *)

Module EffFacts.

Import Msg Eff.

Lemma ran_eta {A : Type} (r : Ran A) :
  {| outcome := outcome r; clock := clock r; unused := unused r;
     events := events r |} = r.
Proof. now destruct r. Qed.

(** [exec] of a sequence is the sequence of the [exec]s. *)
Lemma exec_bind {A B : Type} (world : Oracle) (p : Prog A) (f : A -> Prog B) :
  forall resume n,
    exec world (bind p f) resume n
    = and_then (exec world p resume n) (fun a => exec world (f a)).
Proof.
  induction p as [a|e|e|X c k IH]; intros resume n.
  - unfold and_then; cbn. symmetry; apply ran_eta.
  - reflexivity.
  - reflexivity.
  - destruct c; cbn;
      try (rewrite IH; unfold and_then; cbn;
           match goal with
           | |- context [outcome ?r] => destruct (outcome r); reflexivity
           end).
    destruct resume as [|answer rest]; [reflexivity|].
    rewrite IH; unfold and_then; cbn.
    match goal with
    | |- context [outcome ?r] => destruct (outcome r); reflexivity
    end.
Qed.

End EffFacts.

(* ------------------------------------------------------------------ *)
(** ** The tools of the stock agent *)

Module StockToolFacts.

Import Msg Eff PyStr StockAgent.
Import PyStrFacts PyFloatFacts.

Arguments PyStr.str_int : simpl never.
Arguments PyFloat.repr : simpl never.

Lemma buy_stocks_valid (t : string) (q : Z) (p : float) :
  (0 < q)%Z -> PyFloat.lt 0 p = true ->
  buy_stocks t q p = after_guards "buy" "bought" t q p.
Proof.
  intros Hq Hp. unfold buy_stocks.
  destruct (Z.leb_spec q 0) as [H|_]; [lia|].
  rewrite (lt_zero_not_le p Hp). reflexivity.
Qed.

Lemma sell_stocks_valid (t : string) (q : Z) (p : float) :
  (0 < q)%Z -> PyFloat.lt 0 p = true ->
  sell_stocks t q p = after_guards "sell" "sold" t q p.
Proof.
  intros Hq Hp. unfold sell_stocks.
  destruct (Z.leb_spec q 0) as [H|_]; [lia|].
  rewrite (lt_zero_not_le p Hp). reflexivity.
Qed.

Lemma buy_stocks_invalid (t : string) (q : Z) (p : float) :
  (q <= 0)%Z \/ PyFloat.le p 0 = true ->
  exists text, buy_stocks t q p = Ret text /\ is_error_text text = true.
Proof.
  intros H. unfold buy_stocks.
  destruct (Z.leb_spec q 0) as [_|Hq].
  - eexists; split; reflexivity.
  - destruct H as [H|H]; [lia|]. rewrite H. eexists; split; reflexivity.
Qed.

Lemma sell_stocks_invalid (t : string) (q : Z) (p : float) :
  (q <= 0)%Z \/ PyFloat.le p 0 = true ->
  exists text, sell_stocks t q p = Ret text /\ is_error_text text = true.
Proof.
  intros H. unfold sell_stocks.
  destruct (Z.leb_spec q 0) as [_|Hq].
  - eexists; split; reflexivity.
  - destruct H as [H|H]; [lia|]. rewrite H. eexists; split; reflexivity.
Qed.

(** The question and the confirmation name the ticker, the quantity and
    the price. *)
Ltac find_part :=
  repeat first [ apply contains_end | apply contains_left ].

Lemma ask_contains (verb t : string) (q : Z) (p : float) :
  contains t (ask verb t q p) = true
  /\ contains (str_int q) (ask verb t q p) = true
  /\ contains (PyFloat.repr p) (ask verb t q p) = true.
Proof.
  unfold ask. rewrite !append_assoc. repeat split; find_part.
Qed.

Lemma done_text_contains (verb t : string) (q : Z) (p : float) :
  contains t (done_text verb t q p) = true
  /\ contains (str_int q) (done_text verb t q p) = true
  /\ contains (PyFloat.repr p) (done_text verb t q p) = true.
Proof.
  unfold done_text. rewrite !append_assoc. repeat split; find_part.
Qed.

Lemma done_text_not_cancelled (verb t : string) (q : Z) (p : float) :
  done_text verb t q p <> cancelled.
Proof. unfold done_text, cancelled. cbn. congruence. Qed.

Lemma exec_after_guards_pending (world : Oracle) verb past t q p n :
  exec world (after_guards verb past t q p) [] n
  = {| outcome := Pending (ask verb t q p); clock := n; unused := [];
       events := [Called n (Interrupt (ask verb t q p))] |}.
Proof. reflexivity. Qed.

Lemma exec_after_guards_answer (world : Oracle) verb past t q p n answer rest :
  exec world (after_guards verb past t q p) (answer :: rest) n
  = {| outcome := Done (if String.eqb (lower answer) "yes"
                        then done_text past t q p else cancelled);
       clock := n; unused := rest;
       events := [Called n (Interrupt (ask verb t q p))] |}.
Proof.
  cbn. destruct (String.eqb (lower answer) "yes"); reflexivity.
Qed.

End StockToolFacts.

(* ------------------------------------------------------------------ *)
(** ** One step of a run *)

Module EngineFacts.

Import Eff Engine.

Lemma run_node {S : Type} (world : Oracle) (g : StateGraph S)
    (node : string) (body : Node S) fuel resume n (st : S) :
  Msg.lookup node (nodes g) = Some body ->
  run world g (Datatypes.S fuel) [node] resume n st
  = let s := {| step_node := node; step_input := st |} in
    let r := exec world (body st) resume n in
    match outcome r with
    | Done st1 =>
        match successors g node st1 with
        | None => stop s (Errored ("routing failed: " ++ node)) (clock r)
        | Some next =>
            after s (run world g fuel next (unused r) (clock r) st1)
        end
    | Pending q =>
        stop s (AwaitingInput q {| saved := st; pending := [node];
                                   answered := resume |})
          (clock r)
    | Crashed e => stop s (Errored e) (clock r)
    end.
Proof. intros H. cbn [run]. rewrite H. reflexivity. Qed.

Lemma run_done {S : Type} (world : Oracle) (g : StateGraph S)
    fuel resume n (st : S) :
  run world g fuel [] resume n st
  = {| result := Completed st; time := n; steps := [] |}.
Proof. destruct fuel; reflexivity. Qed.

Lemma run_out_of_fuel {S : Type} (world : Oracle) (g : StateGraph S)
    node rest resume n (st : S) :
  run world g 0 (node :: rest) resume n st
  = {| result := OutOfFuel; time := n; steps := [] |}.
Proof. reflexivity. Qed.





End EngineFacts.

(* ------------------------------------------------------------------ *)
(** ** The conversational loop: agent, tools, agent, ... *)

Module ConversationFacts.

Import Msg Eff Engine Prebuilt EffFacts.

Lemma last_message_app (ms : list Message) (m : Message) :
  last_message (ms ++ [m])%list = Some m.
Proof.
  induction ms as [|x ms IH]; [reflexivity|].
  cbn [app last_message]. rewrite IH.
  destruct ms; reflexivity.
Qed.

Lemma exec_agent_node (world : Oracle) asked st resume n :
  exec world (agent_node asked st) resume n
  = match world n _ (Chat (asked st)) with
    | Returned r =>
        {| outcome := Done {| messages := (messages st ++ [AI r])%list |};
           clock := S n; unused := resume;
           events := [Called n (Chat (asked st))] |}
    | Raises e =>
        {| outcome := Crashed e; clock := S n; unused := resume;
           events := [Called n (Chat (asked st))] |}
    end.
Proof.
  unfold agent_node. cbn. destruct (world n _ (Chat (asked st))); reflexivity.
Qed.

(** The tool step answers every requested call with one message. *)
Lemma run_tool_calls_length (world : Oracle) (kit : list Tool) :
  forall calls resume n ms,
    outcome (exec world (run_tool_calls kit calls) resume n) = Done ms ->
    List.length ms = List.length calls.
Proof.
  induction calls as [|tc calls IH]; intros resume n ms H.
  - cbn in H. now injection H as <-.
  - cbn [run_tool_calls] in H. rewrite exec_bind in H. unfold and_then in H.
    destruct (outcome (exec world (run_tool_call kit tc) resume n))
      as [m|q|e]; cbn in H; try discriminate.
    rewrite exec_bind in H. unfold and_then in H.
    destruct (outcome (exec world (run_tool_calls kit calls) _ _))
      as [ms'|q|e] eqn:E; cbn in H; try discriminate.
    injection H as <-. cbn. f_equal. exact (IH _ _ _ E).
Qed.

Lemma exec_ToolNode_done (world : Oracle) (kit : list Tool) st resume n st1 :
  outcome (exec world (ToolNode kit st) resume n) = Done st1 ->
  exists r results,
    last_message (messages st) = Some (AI r)
    /\ messages st1 = (messages st ++ results)%list
    /\ List.length results = List.length (tool_calls r).
Proof.
  unfold ToolNode. intros H.
  destruct (last_message (messages st)) as [[c|c|r|c i]|]; try discriminate.
  rewrite exec_bind in H. unfold and_then in H.
  destruct (outcome (exec world (run_tool_calls kit (tool_calls r)) resume n))
    as [ms|q|e] eqn:E; cbn in H; try discriminate.
  injection H as <-. exists r, ms. repeat split.
  exact (run_tool_calls_length _ _ _ _ _ _ E).
Qed.

Section Loop.

Variable world : Oracle.
Variable g : StateGraph MessagesState.
Variable agent_name : string.
Variable asked : MessagesState -> list Message.
Variable kit : list Tool.

Hypothesis agent_declared :
  lookup agent_name (nodes g) = Some (agent_node asked).
Hypothesis tools_declared :
  lookup "tools" (nodes g) = Some (ToolNode kit).
Hypothesis agent_routing :
  forall st, successors g agent_name st
             = match tools_condition st with
               | None => None
               | Some t => Some (live [t])
               end.
Hypothesis tools_routing :
  forall st, successors g "tools" st = Some [agent_name].

#[local] Abbreviation agent_step st :=
  {| step_node := agent_name; step_input := st |}.
#[local] Abbreviation tools_step st :=
  {| step_node := "tools"; step_input := st |}.

(** One step of the agent: the model's response is appended, and the run
    goes on to the tools when the response asks for some, and ends
    otherwise. *)
Lemma run_agent fuel resume n st :
  run world g (S fuel) [agent_name] resume n st
  = match world n _ (Chat (asked st)) with
    | Raises e => stop (agent_step st) (Errored e) (S n)
    | Returned r =>
        after (agent_step st)
          (run world g fuel
             (match tool_calls r with [] => [] | _ :: _ => ["tools"] end)
             resume (S n) {| messages := (messages st ++ [AI r])%list |})
    end.
Proof.
  cbn [run]. rewrite agent_declared, exec_agent_node.
  destruct (world n _ (Chat (asked st))) as [r|e]; cbn; [|reflexivity].
  rewrite agent_routing. unfold tools_condition. cbn [messages].
  rewrite last_message_app. destruct (tool_calls r); reflexivity.
Qed.

(** One step of the tools: back to the agent, unless a tool suspends. *)
Lemma run_tools fuel resume n st :
  run world g (S fuel) ["tools"] resume n st
  = let r := exec world (ToolNode kit st) resume n in
    match outcome r with
    | Done st1 =>
        after (tools_step st)
          (run world g fuel [agent_name] (unused r) (clock r) st1)
    | Pending q =>
        stop (tools_step st)
          (AwaitingInput q {| saved := st; pending := ["tools"];
                              answered := resume |}) (clock r)
    | Crashed e => stop (tools_step st) (Errored e) (clock r)
    end.
Proof.
  cbn [run]. rewrite tools_declared. cbn zeta.
  destruct (outcome (exec world (ToolNode kit st) resume n)); try reflexivity.
  now rewrite tools_routing.
Qed.

(** A run that reaches the terminal marker ends on an answer of the
    model that asks for no tool. *)
Lemma completed_final_answer :
  forall fuel frontier resume n st st',
    frontier = [agent_name] \/ frontier = ["tools"] ->
    result (run world g fuel frontier resume n st) = Completed st' ->
    final_answer st' = true.
Proof.
  induction fuel as [|fuel IH]; intros frontier resume n st st' Hf H.
  - destruct Hf as [-> | ->]; discriminate.
  - destruct Hf as [-> | ->].
    + rewrite run_agent in H.
      destruct (world n _ (Chat (asked st))) as [r|e]; [|discriminate].
      cbn [after result] in H.
      destruct (tool_calls r) as [|tc tcs] eqn:E.
      * destruct fuel; cbn in H; injection H as <-;
          unfold final_answer; cbn [messages];
          now rewrite last_message_app, E.
      * eapply IH; [right; reflexivity | exact H].
    + rewrite run_tools in H. cbn zeta in H.
      destruct (outcome (exec world (ToolNode kit st) resume n));
        try discriminate.
      cbn [after result] in H.
      eapply IH; [left; reflexivity | exact H].
Qed.

(** The history only grows along a run. *)
Lemma steps_not_shorter :
  forall fuel frontier resume n st,
    frontier = [agent_name] \/ frontier = ["tools"] ->
    Forall (fun s => history_length st <= history_length (step_input s))
      (steps (run world g fuel frontier resume n st)).
Proof.
  induction fuel as [|fuel IH]; intros frontier resume n st Hf.
  - destruct Hf as [-> | ->]; constructor.
  - destruct Hf as [-> | ->].
    + rewrite run_agent.
      destruct (world n _ (Chat (asked st))) as [r|e].
      * cbn [after steps]. constructor; [cbn; lia|].
        destruct (tool_calls r).
        -- destruct fuel; constructor.
        -- eapply Forall_impl; [|apply IH; right; reflexivity].
           intros s Hs. unfold history_length in *. cbn [messages] in Hs.
           rewrite length_app in Hs. lia.
      * repeat constructor.
    + rewrite run_tools. cbn zeta.
      destruct (outcome (exec world (ToolNode kit st) resume n))
        as [st1|q|e] eqn:E; try (repeat constructor; fail).
      cbn [after steps]. constructor; [cbn; lia|].
      destruct (exec_ToolNode_done _ _ _ _ _ _ E) as (r & results & _ & Hm & _).
      eapply Forall_impl; [|apply IH; left; reflexivity].
      intros s Hs. unfold history_length in *. rewrite Hm, length_app in Hs.
      lia.
Qed.

(** A suspended run stopped in the tool step: that step is the last one
    started, it is the one the checkpoint names, and every step before it
    ran on a strictly shorter history than the one saved. *)
Lemma suspended_shape :
  forall fuel frontier resume n st q ckpt,
    frontier = [agent_name] \/ (frontier = ["tools"] /\ tools_due st = true) ->
    result (run world g fuel frontier resume n st) = AwaitingInput q ckpt ->
    exists completed,
      steps (run world g fuel frontier resume n st)
      = (completed ++ [tools_step (saved ckpt)])%list
      /\ pending ckpt = ["tools"]
      /\ history_length st <= history_length (saved ckpt)
      /\ Forall (fun s => history_length (step_input s)
                          < history_length (saved ckpt)) completed.
Proof.
  induction fuel as [|fuel IH]; intros frontier resume n st q ckpt Hf H.
  - destruct Hf as [-> | [-> _]]; discriminate.
  - destruct Hf as [-> | [-> Hdue]].
    + rewrite run_agent in *.
      destruct (world n _ (Chat (asked st))) as [r|e]; [|discriminate].
      cbn [after result steps] in *.
      destruct (tool_calls r) as [|tc tcs] eqn:E.
      * destruct fuel; discriminate.
      * destruct (IH ["tools"] resume (S n)
                    {| messages := (messages st ++ [AI r])%list |} q ckpt)
          as (completed & Hs & Hp & Hl & Hc).
        -- right. split; [reflexivity|]. unfold tools_due. cbn [messages].
           now rewrite last_message_app, E.
        -- exact H.
        -- unfold history_length in Hl. cbn [messages] in Hl.
           rewrite length_app in Hl. cbn in Hl.
           exists (agent_step st :: completed). rewrite Hs.
           repeat split; [exact Hp | unfold history_length; lia |].
           constructor; [cbn; unfold history_length; lia | exact Hc].
    + rewrite run_tools in *. cbn zeta in *.
      destruct (outcome (exec world (ToolNode kit st) resume n))
        as [st1|q1|e] eqn:E; [| |discriminate].
      * cbn [after result steps] in *.
        destruct (exec_ToolNode_done _ _ _ _ _ _ E)
          as (r & results & Hlast & Hm & Hlen).
        assert (Hgrow : history_length st < history_length st1).
        { unfold tools_due in Hdue. rewrite Hlast in Hdue.
          unfold history_length. rewrite Hm, length_app, Hlen.
          destruct (tool_calls r); [discriminate | cbn; lia]. }
        destruct (IH [agent_name] (unused (exec world (ToolNode kit st) resume n))
                    (clock (exec world (ToolNode kit st) resume n)) st1 q ckpt)
          as (completed & Hs & Hp & Hl & Hc);
          [left; reflexivity | exact H |].
        exists (tools_step st :: completed). rewrite Hs.
        repeat split; [exact Hp | lia |].
        constructor; [cbn; lia | exact Hc].
      * cbn in H. injection H as <- <-. exists []. cbn.
        repeat split; [lia | constructor].
Qed.

End Loop.

End ConversationFacts.

(* ------------------------------------------------------------------ *)
(** ** The refinement loop of the blog agent *)

Module BlogFacts.

Import Eff Engine BlogAgent EffFacts EngineFacts.

#[local] Abbreviation scored ev st :=
  (set_feedback (BlogEvaluation.feedback ev)
     (set_blog_score (BlogEvaluation.score ev) st)).

Lemma validate_in_bounds (raw : RawObject) (ev : BlogEvaluation.t) :
  BlogEvaluation.validate raw = Returned ev ->
  raw_score raw = Some (BlogEvaluation.score ev)
  /\ in_bounds (BlogEvaluation.score ev) = true.
Proof.
  unfold BlogEvaluation.validate, in_bounds.
  destruct (raw_score raw) as [s|]; [|discriminate].
  destruct (raw_feedback raw) as [f|]; [|discriminate].
  destruct (PyFloat.le BlogEvaluation.ge s && PyFloat.le s BlogEvaluation.le)
    eqn:E; [|discriminate].
  intros [= <-]. now split.
Qed.

Lemma validate_out_of_bounds (raw : RawObject) (s : float) :
  raw_score raw = Some s -> in_bounds s = false ->
  exists e, BlogEvaluation.validate raw = Raises e.
Proof.
  unfold BlogEvaluation.validate, in_bounds. intros -> E.
  destruct (raw_feedback raw); [rewrite E|]; eexists; reflexivity.
Qed.

(** *** The three nodes *)

Lemma exec_create_outline (world : Oracle) (st : BlogState) (t : string) :
  topic st = Some t ->
  exists prompt, forall resume n,
    exec world (create_outline st) resume n
    = match world n _ (Invoke prompt) with
      | Returned text =>
          {| outcome := Done (set_outline text st); clock := S n;
             unused := resume; events := [Called n (Invoke prompt)] |}
      | Raises e =>
          {| outcome := Crashed e; clock := S n; unused := resume;
             events := [Called n (Invoke prompt)] |}
      end.
Proof.
  intros H. unfold create_outline. rewrite H. cbn.
  match goal with
  | |- context [Invoke ?p] => exists p
  end.
  intros resume n.
  match goal with
  | |- context [world n _ ?c] => destruct (world n _ c); reflexivity
  end.
Qed.

Lemma exec_create_blog (world : Oracle) (st : BlogState) (o : string) :
  outline st = Some o ->
  exists prompt, forall resume n,
    exec world (create_blog st) resume n
    = match world n _ (Invoke prompt) with
      | Returned text =>
          {| outcome := Done (set_final_blog text st); clock := S n;
             unused := resume; events := [Called n (Invoke prompt)] |}
      | Raises e =>
          {| outcome := Crashed e; clock := S n; unused := resume;
             events := [Called n (Invoke prompt)] |}
      end.
Proof.
  intros H. unfold create_blog. rewrite H. cbn.
  match goal with
  | |- context [Invoke ?p] => exists p
  end.
  intros resume n.
  match goal with
  | |- context [world n _ ?c] => destruct (world n _ c); reflexivity
  end.
Qed.

Lemma exec_score_blog (world : Oracle) (st : BlogState) (o b : string) :
  outline st = Some o -> final_blog st = Some b ->
  exists prompt, forall resume n,
    exec world (score_blog st) resume n
    = match verdict world n prompt with
      | Returned ev =>
          {| outcome := Done (scored ev st); clock := S n;
             unused := resume;
             events := [Called n (InvokeStructured prompt)] |}
      | Raises e =>
          {| outcome := Crashed e; clock := S n; unused := resume;
             events := [Called n (InvokeStructured prompt)] |}
      end.
Proof.
  intros Ho Hb. unfold score_blog, judge, verdict. rewrite Ho, Hb. cbn.
  match goal with
  | |- context [InvokeStructured ?p] => exists p
  end.
  intros resume n.
  match goal with
  | |- context [world n _ ?c] => destruct (world n _ c) as [raw|e]
  end; [|reflexivity].
  cbn. destruct (BlogEvaluation.validate raw); reflexivity.
Qed.

(** Without its inputs a node raises [KeyError] before any call. *)
Lemma exec_score_blog_done (world : Oracle) (st st' : BlogState) resume n :
  outcome (exec world (score_blog st) resume n) = Done st' ->
  exists prompt ev,
    verdict world n prompt = Returned ev
    /\ st' = scored ev st
    /\ events (exec world (score_blog st) resume n)
       = [Called n (InvokeStructured prompt)].
Proof.
  destruct (outline st) as [o|] eqn:Ho;
    [|unfold score_blog; rewrite Ho; discriminate].
  destruct (final_blog st) as [b|] eqn:Hb;
    [|unfold score_blog; rewrite Ho, Hb; discriminate].
  destruct (exec_score_blog world st o b Ho Hb) as [prompt E].
  rewrite E. destruct (verdict world n prompt) as [ev|e] eqn:V;
    [|discriminate].
  cbn. intros [= <-]. exists prompt, ev. now rewrite V.
Qed.

Lemma exec_create_outline_done (world : Oracle) (st st' : BlogState) resume n :
  outcome (exec world (create_outline st) resume n) = Done st' ->
  exists text, st' = set_outline text st.
Proof.
  destruct (topic st) as [t|] eqn:Ht;
    [|unfold create_outline; rewrite Ht; discriminate].
  destruct (exec_create_outline world st t Ht) as [prompt E]. rewrite E.
  destruct (world n _ (Invoke prompt)) as [text|e]; [|discriminate].
  cbn. intros [= <-]. now exists text.
Qed.

Lemma exec_create_blog_done (world : Oracle) (st st' : BlogState) resume n :
  outcome (exec world (create_blog st) resume n) = Done st' ->
  exists text, st' = set_final_blog text st.
Proof.
  destruct (outline st) as [o|] eqn:Ho;
    [|unfold create_blog; rewrite Ho; discriminate].
  destruct (exec_create_blog world st o Ho) as [prompt E]. rewrite E.
  destruct (world n _ (Invoke prompt)) as [text|e]; [|discriminate].
  cbn. intros [= <-]. now exists text.
Qed.

(** *** The edges *)

Lemma node_outline : Msg.lookup "outline_node" (nodes graph) = Some create_outline.
Proof. reflexivity. Qed.

Lemma node_blog : Msg.lookup "blog_node" (nodes graph) = Some create_blog.
Proof. reflexivity. Qed.

Lemma node_score : Msg.lookup "score_node" (nodes graph) = Some score_blog.
Proof. reflexivity. Qed.

Lemma next_outline (st : BlogState) :
  successors graph "outline_node" st = Some ["blog_node"].
Proof. reflexivity. Qed.

Lemma next_blog (st : BlogState) :
  successors graph "blog_node" st = Some ["score_node"].
Proof. reflexivity. Qed.

Lemma next_score (st : BlogState) :
  successors graph "score_node" st
  = match blog_score st with
    | None => None
    | Some s => Some (if PyFloat.lt s 7 then ["blog_node"] else [])
    end.
Proof.
  unfold successors. cbn. unfold branch_target, blog_optimizer. cbn.
  destruct (blog_score st) as [s|]; [|reflexivity].
  unfold PyFloat.lt. destruct (PrimFloat.ltb s 7); reflexivity.
Qed.

Lemma start_node : live (static_targets graph START) = ["outline_node"].
Proof. reflexivity. Qed.

(** *** Runs of the graph *)

Section Loop.

Variable world : Oracle.

#[local] Abbreviation at_node name st :=
  {| step_node := name; step_input := st |}.

(** A run that reaches the terminal marker ends on a validated score
    that is not below 7.0. *)
Lemma completed_scored :
  forall fuel node resume n st st',
    In node ["outline_node"; "blog_node"; "score_node"] ->
    result (run world graph fuel [node] resume n st) = Completed st' ->
    exists s, blog_score st' = Some s
              /\ in_bounds s = true /\ PyFloat.lt s 7 = false.
Proof.
  induction fuel as [|fuel IH]; intros node resume n st st' Hn H;
    [discriminate|].
  destruct Hn as [<-|[<-|[<-|[]]]].
  - rewrite (run_node _ _ _ _ _ _ _ _ node_outline) in H. cbn zeta in H.
    destruct (outcome (exec world (create_outline st) resume n));
      try discriminate.
    rewrite next_outline in H. cbn [after result] in H.
    eapply IH; [|exact H]. cbn; tauto.
  - rewrite (run_node _ _ _ _ _ _ _ _ node_blog) in H. cbn zeta in H.
    destruct (outcome (exec world (create_blog st) resume n));
      try discriminate.
    rewrite next_blog in H. cbn [after result] in H.
    eapply IH; [|exact H]. cbn; tauto.
  - rewrite (run_node _ _ _ _ _ _ _ _ node_score) in H. cbn zeta in H.
    destruct (outcome (exec world (score_blog st) resume n)) as [st1|q|e]
      eqn:E; try discriminate.
    destruct (exec_score_blog_done _ _ _ _ _ E) as (prompt & ev & V & -> & _).
    rewrite next_score in H. cbn [blog_score set_feedback set_blog_score] in H.
    unfold verdict in V.
    destruct (world n _ (InvokeStructured prompt)) as [raw|]; [|discriminate].
    destruct (validate_in_bounds _ _ V) as [_ Hb].
    destruct (PyFloat.lt (BlogEvaluation.score ev) 7) eqn:L.
    + cbn [after result] in H. eapply IH; [|exact H]. cbn; tauto.
    + cbn [after result] in H. rewrite run_done in H. injection H as <-.
      exists (BlogEvaluation.score ev). now repeat split.
Qed.

Hypothesis drafts : forall n p, exists text, world n _ (Invoke p) = Returned text.







End Loop.

End BlogFacts.

(* ------------------------------------------------------------------ *)
(** ** The calculator of the chatbot *)

Module ChatbotSpec.

Import Msg Eff Chatbot.



End ChatbotSpec.

(* ------------------------------------------------------------------ *)
(** ** The router and the loop of the blog agent *)

Module BlogSpec.

Import Eff Engine BlogAgent EffFacts EngineFacts BlogFacts.

(** C2, as stated, fails: for the score 5.5, which is below 7.0, the
    router does not return the label [optimize]. *)
Lemma blog_optimizer_label :
  PyFloat.lt 5.5 7 = true
  /\ blog_optimizer (set_blog_score 5.5 (initial "Cats vs Dogs"))
     <> Some "optimize".
Proof. split; [reflexivity | cbn; discriminate]. Qed.

(** C2 (amended): for every score [s], [blog_optimizer] applied to a
    state with [blog_score = s] returns the label ["optimize blog"], which
    the graph maps to the draft step, if and only if [s < 7.0], and
    returns ["end"], which the graph maps to the terminal marker,
    otherwise; at [s = 7.0] it returns ["end"]. *)
Theorem blog_optimizer_routes :
  forall (st : BlogState) (s : float),
    (blog_optimizer (set_blog_score s st) = Some "optimize blog"
     <-> PyFloat.lt s 7 = true)
    /\ (blog_optimizer (set_blog_score s st) = Some "end"
        <-> PyFloat.lt s 7 = false)
    /\ blog_optimizer (set_blog_score 7 st) = Some "end"
    /\ successors graph "score_node" (set_blog_score s st)
       = Some (if PyFloat.lt s 7 then ["blog_node"] else []).
Proof.
  intros st s. rewrite next_score. unfold blog_optimizer.
  cbn [blog_score set_blog_score].
  destruct (PyFloat.lt s 7); repeat split;
    try reflexivity; try discriminate; intros _; reflexivity.
Qed.

(** C8: after every execution of the scoring step that finishes, the
    score in the state is the one of a structured result that passed the
    validation of the schema, a float between 0 and 10; a structured
    result whose score is outside these bounds fails the validation, so it
    is never written; and a run that reaches the terminal marker ends with
    a score between 0 and 10. *)
Theorem score_blog_within_bounds :
  forall (world : Oracle) (st : BlogState) (resume : list string) (n : nat),
    (forall raw s,
        raw_score raw = Some s -> in_bounds s = false ->
        exists e, BlogEvaluation.validate raw = Raises e)
    /\ (forall st',
          outcome (exec world (score_blog st) resume n) = Done st' ->
          exists prompt raw s,
            world n _ (InvokeStructured prompt) = Returned raw
            /\ raw_score raw = Some s
            /\ blog_score st' = Some s
            /\ PyFloat.le 0 s = true /\ PyFloat.le s 10 = true)
    /\ (forall fuel topic_text st',
          result (app world fuel topic_text) = Completed st' ->
          exists s, blog_score st' = Some s
                    /\ PyFloat.le 0 s = true /\ PyFloat.le s 10 = true).
Proof.
  intros world st resume n. repeat split.
  - intros raw s. apply validate_out_of_bounds.
  - intros st' H.
    destruct (exec_score_blog_done _ _ _ _ _ H) as (prompt & ev & V & -> & _).
    unfold verdict in V.
    destruct (world n _ (InvokeStructured prompt)) as [raw|] eqn:E;
      [|discriminate].
    destruct (validate_in_bounds _ _ V) as [Hs Hb].
    apply andb_true_iff in Hb as [H0 H10].
    exists prompt, raw, (BlogEvaluation.score ev). now repeat split.
  - intros fuel topic_text st' H. unfold app, invoke in H.
    rewrite start_node in H.
    destruct (completed_scored world fuel "outline_node" [] 0 _ st'
                (or_introl eq_refl) H) as (s & Hs & Hb & _).
    apply andb_true_iff in Hb as [H0 H10]. now exists s.
Qed.

(** The second evaluation of the scenario: the score 8.0 is written. *)
Lemma score_blog_within_bounds_witness :
  exists s,
    blog_score
      (set_feedback "good"
         (set_blog_score 8 (set_final_blog "draft"
                              (set_outline "outline" (initial "Cats vs Dogs")))))
    = Some s
    /\ PyFloat.le 0 s = true /\ PyFloat.le s 10 = true.
Proof.
  destruct (proj1 (proj2 (score_blog_within_bounds Samples.cats_vs_dogs
              (set_final_blog "draft"
                 (set_outline "outline" (initial "Cats vs Dogs"))) [] 4))
              _ eq_refl)
    as (prompt & raw & s & _ & _ & Hs & H0 & H10).
  exists s. repeat split; assumption.
Defined.

End BlogSpec.

(* ------------------------------------------------------------------ *)
(** ** The tools of the stock agent, and its suspended runs *)

Module StockSpec.

Import Msg Eff Engine Prebuilt PyStr StockAgent.
Import PyStrFacts PyStrChars PyFloatFacts EffFacts EngineFacts.
Import ConversationFacts StockToolFacts.

(** C5: with a quantity or a total price that is not positive,
    [buy_stocks] and [sell_stocks] return an error text at once: the
    program makes no call at all, so no confirmation is requested. *)
Theorem invalid_order_rejected :
  forall (world : Oracle) (t : string) (q : Z) (p : float)
         (resume : list string) (n : nat),
    (q <= 0)%Z \/ PyFloat.le p 0 = true ->
    (exists text,
        buy_stocks t q p = Ret text
        /\ is_error_text text = true
        /\ exec world (buy_stocks t q p) resume n
           = {| outcome := Done text; clock := n; unused := resume;
                events := [] |})
    /\ (exists text,
          sell_stocks t q p = Ret text
          /\ is_error_text text = true
          /\ exec world (sell_stocks t q p) resume n
             = {| outcome := Done text; clock := n; unused := resume;
                  events := [] |}).
Proof.
  intros world t q p resume n H. split.
  - destruct (buy_stocks_invalid t q p H) as (text & E & Herr).
    exists text. rewrite E. now repeat split.
  - destruct (sell_stocks_invalid t q p H) as (text & E & Herr).
    exists text. rewrite E. now repeat split.
Qed.

Lemma invalid_order_rejected_witness :
  exists text,
    buy_stocks "AAPL" 0 1500.5 = Ret text /\ is_error_text text = true
    /\ exec Samples.market (buy_stocks "AAPL" 0 1500.5) [] 0
       = {| outcome := Done text; clock := 0; unused := []; events := [] |}.
Proof.
  apply (proj1 (invalid_order_rejected Samples.market "AAPL" 0 1500.5 [] 0
                  (or_introl (Z.le_refl 0)))).
Defined.

(** C9: a suspended [buy_stocks] or [sell_stocks] confirms the
    transaction if and only if the answer, lowercased, is [yes] (so [YES]
    and [Yes] confirm: the confirming answers are the eight spellings of
    [yes] in upper and lower case), and every other answer, the empty one
    and [no] included, gives the cancellation message. *)
Theorem decision_is_case_insensitive_yes :
  forall (world : Oracle) (t : string) (q : Z) (p : float) (n : nat)
         (answer : string),
    (0 < q)%Z -> PyFloat.lt 0 p = true ->
    (outcome (exec world (buy_stocks t q p) [answer] n)
     = Done (done_text "bought" t q p) <-> lower answer = "yes")
    /\ (lower answer <> "yes" ->
        outcome (exec world (buy_stocks t q p) [answer] n) = Done cancelled)
    /\ (outcome (exec world (sell_stocks t q p) [answer] n)
        = Done (done_text "sold" t q p) <-> lower answer = "yes")
    /\ (lower answer <> "yes" ->
        outcome (exec world (sell_stocks t q p) [answer] n) = Done cancelled)
    /\ (lower answer = "yes"
        <-> In answer
              ["yes"; "yeS"; "yEs"; "yES"; "Yes"; "YeS"; "YEs"; "YES"])
    /\ lower "" <> "yes" /\ lower "no" <> "yes".
Proof.
  intros world t q p n answer Hq Hp.
  pose proof (lower_yes answer) as Hyes.
  rewrite (buy_stocks_valid t q p Hq Hp), (sell_stocks_valid t q p Hq Hp).
  rewrite !exec_after_guards_answer. cbn [outcome].
  destruct (String.eqb_spec (lower answer) "yes") as [E|E].
  - repeat split; try reflexivity; try discriminate; try contradiction;
      try apply Hyes; intros _; exact E.
  - repeat split; try reflexivity; try discriminate; try contradiction;
      try apply Hyes;
      intros H; injection H as H; now apply done_text_not_cancelled in H.
Qed.

Lemma decision_is_case_insensitive_yes_witness :
  outcome (exec Samples.market (buy_stocks "AAPL" 10 1500.5) ["YES"] 0)
  = Done (done_text "bought" "AAPL" 10 1500.5).
Proof.
  apply (proj1 (decision_is_case_insensitive_yes Samples.market "AAPL" 10
                  1500.5 0 "YES" eq_refl eq_refl)).
  reflexivity.
Defined.

(** C6, as stated, fails: the last close of the history is 101.0625, and
    that is not what the tool returns (it returns 101.06). *)
Lemma get_stock_price_rounds :
  Samples.market 0 _ (History "AAPL" "1d")
  = Returns [100.5%float; 101.0625%float]
  /\ outcome (exec Samples.market (get_stock_price "aapl" "1d") [] 0)
     <> Done (AsFloat 101.0625).
Proof.
  split; [reflexivity|]. intros H.
  apply (f_equal (fun o => match o with
                           | Done (AsFloat x) => PrimFloat.eqb x 101.0625
                           | _ => false
                           end)) in H.
  vm_compute in H. discriminate.
Qed.

(** C6 (amended): for every ticker symbol and period, [get_stock_price]
    asks for the history of the symbol [t.upper().strip()] and returns
    its last closing price rounded to two decimals, as a float, when data
    exists; the error string [Error: No data found for symbol ...] when
    the history is empty; and the error string [An error occurred: ...]
    when the retrieval raises an exception derived from [Exception].  An
    exception that is not ([KeyboardInterrupt], [SystemExit]) is not
    converted: the tool raises it. *)
Theorem get_stock_price_result :
  forall (world : Oracle) (t period : string) (resume : list string)
         (n : nat),
    let symbol := strip (upper t) in
    outcome (exec world (get_stock_price t period) resume n)
    = match world n _ (History symbol period) with
      | Returns closes =>
          match last_close closes with
          | Some current_price =>
              Done (AsFloat (PyFloat.round2 current_price))
          | None =>
              Done (AsStr ("Error: No data found for symbol '" ++ symbol
                           ++ "'. Check if the ticker is correct."))
          end
      | RaisesException e => Done (AsStr ("An error occurred: " ++ e))
      | RaisesBaseException e => Crashed e
      end.
Proof.
  intros world t period resume n. cbn.
  destruct (world n _ (History (strip (upper t)) period)) as [closes|e|e];
    [|reflexivity|reflexivity].
  cbn. destruct (last_close closes); reflexivity.
Qed.

(** C10: [get_stock_price] gives the same result for a ticker [t] and
    for its normalised form [t.upper().strip()], whatever characters [t]
    is made of: the program is the same, and so is its run in every
    world. *)
Theorem get_stock_price_normalises :
  forall (world : Oracle) (t period : string) (resume : list string)
         (n : nat),
    utf8 t = true ->
    get_stock_price t period = get_stock_price (strip (upper t)) period
    /\ exec world (get_stock_price t period) resume n
       = exec world (get_stock_price (strip (upper t)) period) resume n.
Proof.
  intros world t period resume n Ht.
  assert (E : get_stock_price t period
              = get_stock_price (strip (upper t)) period).
  { unfold get_stock_price. now rewrite (normal_idem t Ht). }
  split; [exact E | now rewrite <- E].
Qed.

(** The ticker [ aapl] followed by a no-break space (U+00A0) and the
    ticker [AAPL] are looked up alike. *)
Lemma get_stock_price_normalises_witness :
  strip (upper (" aapl" ++ encode_point 160)) = "AAPL"
  /\ exec Samples.market
       (get_stock_price (" aapl" ++ encode_point 160) "1d") [] 0
     = exec Samples.market (get_stock_price "AAPL" "1d") [] 0.
Proof.
  split; [reflexivity|].
  exact (proj2 (get_stock_price_normalises Samples.market
                  (" aapl" ++ encode_point 160) "1d" [] 0 eq_refl)).
Defined.

End StockSpec.

(* ------------------------------------------------------------------ *)
(** ** The two conversational graphs *)

Module GraphFacts.

Import Msg Eff Engine Prebuilt.

Lemma chatbot_agent_declared :
  lookup "chat_node" (nodes Chatbot.graph) = Some (agent_node messages).
Proof. reflexivity. Qed.

Lemma chatbot_tools_declared :
  lookup "tools" (nodes Chatbot.graph) = Some (ToolNode Chatbot.tools).
Proof. reflexivity. Qed.

(** The edge from [chat_node] to [END] that the chatbot declares besides
    the conditional edge triggers nothing. *)
Lemma chatbot_agent_routing (st : MessagesState) :
  successors Chatbot.graph "chat_node" st
  = match tools_condition st with
    | None => None
    | Some t => Some (live [t])
    end.
Proof.
  unfold successors. cbn. unfold branch_target. cbn.
  destruct (tools_condition st); reflexivity.
Qed.

Lemma chatbot_tools_routing (st : MessagesState) :
  successors Chatbot.graph "tools" st = Some ["chat_node"].
Proof. reflexivity. Qed.

Lemma chatbot_start :
  live (static_targets Chatbot.graph START) = ["chat_node"].
Proof. reflexivity. Qed.

Lemma stock_agent_declared :
  lookup "agent" (nodes StockAgent.graph)
  = Some (agent_node (fun st => StockAgent.system_prompt :: messages st)).
Proof. reflexivity. Qed.

Lemma stock_tools_declared :
  lookup "tools" (nodes StockAgent.graph) = Some (ToolNode StockAgent.tools).
Proof. reflexivity. Qed.

Lemma stock_agent_routing (st : MessagesState) :
  successors StockAgent.graph "agent" st
  = match tools_condition st with
    | None => None
    | Some t => Some (live [t])
    end.
Proof.
  unfold successors. cbn. unfold branch_target. cbn.
  destruct (tools_condition st); reflexivity.
Qed.

Lemma stock_tools_routing (st : MessagesState) :
  successors StockAgent.graph "tools" st = Some ["agent"].
Proof. reflexivity. Qed.

Lemma stock_start :
  live (static_targets StockAgent.graph START) = ["agent"].
Proof. reflexivity. Qed.

(** After a response of the model, the router looks at its tool calls. *)
Lemma tools_condition_after (st : MessagesState) (r : AIMessage) :
  last_message (messages st) = Some (AI r) ->
  tools_condition st = Some (if tools_due st then "tools" else END)
  /\ final_answer st = negb (tools_due st).
Proof.
  intros H. unfold tools_condition, tools_due, final_answer. rewrite H.
  destruct (tool_calls r); split; reflexivity.
Qed.

End GraphFacts.

(* ------------------------------------------------------------------ *)
(** ** Suspension and resumption of a trade *)

Module SuspensionSpec.

Import Msg Eff Engine Prebuilt PyStr StockAgent.
Import EffFacts EngineFacts ConversationFacts StockToolFacts GraphFacts.

#[local] Abbreviation tools_step st :=
  {| step_node := "tools"; step_input := st |}.

Lemma confirmed_steps (world : Oracle) fuel n ckpt answer :
  pending ckpt = ["tools"] ->
  exists rest,
    steps (confirm world (S fuel) n ckpt answer)
    = tools_step (saved ckpt) :: rest.
Proof.
  intros Hp. unfold confirm, resume_with. rewrite Hp.
  rewrite (run_tools world StockAgent.graph "agent" StockAgent.tools
             stock_tools_declared stock_tools_routing).
  cbn zeta.
  destruct (outcome (exec world (ToolNode StockAgent.tools (saved ckpt))
                       (answered ckpt ++ [answer])%list n));
    eexists; reflexivity.
Qed.

Lemma completed_not_resumed (world : Oracle) fuel n ckpt answer
    (completed : list (Step AgentState)) :
  pending ckpt = ["tools"] ->
  Forall (fun s => history_length (step_input s)
                   < history_length (saved ckpt)) completed ->
  forall s, In s completed ->
            ~ In s (steps (confirm world fuel n ckpt answer)).
Proof.
  intros Hp Hc s Hs Hin.
  change (In s (steps (run world StockAgent.graph fuel (pending ckpt)
                         (answered ckpt ++ [answer])%list n (saved ckpt))))
    in Hin.
  rewrite Hp in Hin.
  pose proof (steps_not_shorter world StockAgent.graph "agent" _
                StockAgent.tools stock_agent_declared stock_tools_declared
                stock_agent_routing stock_tools_routing fuel ["tools"]
                (answered ckpt ++ [answer])%list n (saved ckpt)
                (or_intror eq_refl)) as Hm.
  rewrite Forall_forall in Hm, Hc.
  specialize (Hm s Hin). specialize (Hc s Hs). lia.
Qed.

(** C4: with a positive quantity and a positive total price,
    [buy_stocks] suspends with a question that contains the ticker, the
    quantity and the price; resumed with [yes] it returns a confirmation
    that contains the same three, and resumed with [no] the cancellation
    message; and so does [sell_stocks].  When a run of the graph is
    suspended, resuming it starts at the suspended tool step, on the
    saved state, and runs none of the steps completed before. *)
Theorem trade_confirmation_round_trip :
  forall (world : Oracle) (t : string) (q : Z) (p : float) (n : nat),
    (0 < q)%Z -> PyFloat.lt 0 p = true ->
    (forall tool verb past,
        (tool, verb, past) = (buy_stocks, "buy", "bought")
        \/ (tool, verb, past) = (sell_stocks, "sell", "sold") ->
        (exists question,
            outcome (exec world (tool t q p) [] n) = Pending question
            /\ question = ask verb t q p
            /\ contains t question = true
            /\ contains (str_int q) question = true
            /\ contains (PyFloat.repr p) question = true)
        /\ (exists text,
              outcome (exec world (tool t q p) ["yes"] n) = Done text
              /\ text = done_text past t q p
              /\ contains t text = true
              /\ contains (str_int q) text = true
              /\ contains (PyFloat.repr p) text = true)
        /\ outcome (exec world (tool t q p) ["no"] n) = Done cancelled)
    /\ (forall fuel history user_input question ckpt,
          result (send world fuel n history user_input)
          = AwaitingInput question ckpt ->
          exists completed,
            steps (send world fuel n history user_input)
            = (completed ++ [tools_step (saved ckpt)])%list
            /\ pending ckpt = ["tools"]
            /\ forall fuel' n' answer,
                 (exists rest,
                     steps (confirm world (S fuel') n' ckpt answer)
                     = tools_step (saved ckpt) :: rest)
                 /\ forall s, In s completed ->
                      ~ In s (steps (confirm world fuel' n' ckpt answer))).
Proof.
  intros world t q p n Hq Hp. split.
  - intros tool verb past Htool.
    assert (E : tool t q p = after_guards verb past t q p).
    { destruct Htool as [[= -> -> ->] | [= -> -> ->]];
        [now apply buy_stocks_valid | now apply sell_stocks_valid]. }
    rewrite E, exec_after_guards_pending, !exec_after_guards_answer.
    cbn [outcome].
    destruct (ask_contains verb t q p) as (A1 & A2 & A3).
    destruct (done_text_contains past t q p) as (D1 & D2 & D3).
    split; [|split].
    + exists (ask verb t q p). now repeat split.
    + exists (done_text past t q p). now repeat split.
    + reflexivity.
  - intros fuel history user_input question ckpt H.
    unfold send, invoke in *. rewrite stock_start in *.
    destruct (suspended_shape world StockAgent.graph "agent" _
                StockAgent.tools stock_agent_declared stock_tools_declared
                stock_agent_routing stock_tools_routing fuel ["agent"] [] n
                _ question ckpt (or_introl eq_refl) H)
      as (completed & Hs & Hpend & _ & Hc).
    exists completed. repeat split; try assumption.
    + now apply confirmed_steps.
    + now apply completed_not_resumed.
Qed.

(** The purchase of 10 AAPL shares for 1500.5, answered with [no]. *)
Lemma trade_confirmation_round_trip_witness :
  outcome (exec Samples.broker (buy_stocks "AAPL" 10 1500.5) ["no"] 0)
  = Done cancelled.
Proof.
  apply (proj1 (trade_confirmation_round_trip Samples.broker "AAPL" 10 1500.5
                  0 eq_refl eq_refl) buy_stocks "buy" "bought"
           (or_introl eq_refl)).
Defined.

End SuspensionSpec.

(* ------------------------------------------------------------------ *)
(** ** Tool dispatch *)

Module DispatchSpec.

Import Msg Eff Engine Prebuilt.
Import EffFacts EngineFacts ConversationFacts GraphFacts.

(** C7: in both conversational graphs, after the agent step produced a
    response, the run goes to the tool step when the response contains
    tool calls, and from there unconditionally back to the agent step;
    when the response contains no tool call the run goes to the terminal
    marker and is complete.  So every run that ends, ends on a response
    of the agent that has no tool calls. *)
Theorem tool_dispatch_routing :
  forall (world : Oracle) (st : MessagesState),
    (forall r,
        last_message (messages st) = Some (AI r) ->
        tools_condition st = Some (if tools_due st then "tools" else END)
        /\ successors Chatbot.graph "chat_node" st
           = Some (if tools_due st then ["tools"] else [])
        /\ successors StockAgent.graph "agent" st
           = Some (if tools_due st then ["tools"] else []))
    /\ successors Chatbot.graph "tools" st = Some ["chat_node"]
    /\ successors StockAgent.graph "tools" st = Some ["agent"]
    /\ (forall fuel n r,
          world n _ (Chat (messages st)) = Returned r ->
          tool_calls r = [] ->
          result (invoke world Chatbot.graph (S fuel) n st)
          = Completed {| messages := (messages st ++ [AI r])%list |})
    /\ (forall fuel n r,
          world n _ (Chat (StockAgent.system_prompt :: messages st))
          = Returned r ->
          tool_calls r = [] ->
          result (invoke world StockAgent.graph (S fuel) n st)
          = Completed {| messages := (messages st ++ [AI r])%list |})
    /\ (forall fuel n st',
          result (invoke world Chatbot.graph fuel n st) = Completed st' ->
          final_answer st' = true)
    /\ (forall fuel n st',
          result (invoke world StockAgent.graph fuel n st) = Completed st' ->
          final_answer st' = true).
Proof.
  intros world st. repeat split.
  - now apply (tools_condition_after st r).
  - rewrite chatbot_agent_routing.
    destruct (tools_condition_after st r H) as [-> _].
    destruct (tools_due st); reflexivity.
  - rewrite stock_agent_routing.
    destruct (tools_condition_after st r H) as [-> _].
    destruct (tools_due st); reflexivity.
  - intros fuel n r Hr Hcalls. unfold invoke. rewrite chatbot_start.
    rewrite (run_agent world Chatbot.graph "chat_node" messages
               chatbot_agent_declared chatbot_agent_routing).
    rewrite Hr, Hcalls. cbn [after result]. now rewrite run_done.
  - intros fuel n r Hr Hcalls. unfold invoke. rewrite stock_start.
    rewrite (run_agent world StockAgent.graph "agent" _
               stock_agent_declared stock_agent_routing).
    rewrite Hr, Hcalls. cbn [after result]. now rewrite run_done.
  - intros fuel n st' H. unfold invoke in H. rewrite chatbot_start in H.
    exact (completed_final_answer world Chatbot.graph "chat_node" messages
             Chatbot.tools chatbot_agent_declared chatbot_tools_declared
             chatbot_agent_routing chatbot_tools_routing fuel ["chat_node"]
             [] n st st' (or_introl eq_refl) H).
  - intros fuel n st' H. unfold invoke in H. rewrite stock_start in H.
    exact (completed_final_answer world StockAgent.graph "agent" _
             StockAgent.tools stock_agent_declared stock_tools_declared
             stock_agent_routing stock_tools_routing fuel ["agent"]
             [] n st st' (or_introl eq_refl) H).
Qed.

(** A question answered with one calculation: agent, tools, agent. *)
Lemma tool_dispatch_routing_witness :
  final_answer
    {| messages :=
         [Human "what is abs(-3)?";
          AI {| ai_content := ""; tool_calls := [Samples.calc_call] |};
          ToolMessage "3" "call_1";
          AI {| ai_content := "The result is 3"; tool_calls := [] |}] |}
  = true.
Proof.
  apply (proj1 (proj2 (proj2 (proj2 (proj2 (proj2
           (tool_dispatch_routing Samples.assistant
              {| messages := [Human "what is abs(-3)?"] |}))))))
           3 0).
  reflexivity.
Defined.

End DispatchSpec.

(* ------------------------------------------------------------------ *)
(** ** Scenarios *)

Module Scenarios.

Import Msg Eff Engine Prebuilt.

Example repr_samples :
  map PyFloat.repr [1500.5; 0.1; 8; 101.0625; 10000000000000000]%float
  = ["1500.5"; "0.1"; "8.0"; "101.0625"; "1e+16"].
Proof. vm_compute. reflexivity. Qed.

Example normalised_ticker : PyStr.strip (PyStr.upper "  aapl ") = "AAPL".
Proof. reflexivity. Qed.

(** Upper case and white space are those of Unicode: [ß] becomes [SS],
    [é] becomes [É], and the no-break space U+00A0, the next-line
    control U+0085 and the separators 28 to 31 are stripped. *)
Example normalised_unicode_ticker :
  PyStr.upper "straße" = "STRASSE"
  /\ PyStr.upper "é" = "É"
  /\ PyStr.encode_point 233 = "é"
  /\ PyStr.strip (PyStr.upper ("aapl" ++ PyStr.encode_point 160)) = "AAPL"
  /\ PyStr.strip (PyStr.encode [133; 28; 97; 32; 98; 31; 8232]%Z) = "a b"
  /\ PyStr.chars "aé€" = ["a"; "é"; "€"].
Proof. vm_compute. repeat split. Qed.

Example calculator_error :
  outcome (exec Samples.interpreter (Chatbot.calculator_tool "2 +") [] 0)
  = Done "Error in calculation: invalid syntax (<string>, line 1)".
Proof. reflexivity. Qed.

(** [SystemExit] is no [Exception]: the calculator does not catch it. *)
Example calculator_exit :
  outcome (exec Samples.interpreter
             (Chatbot.calculator_tool "__import__('sys').exit(3)") [] 0)
  = Crashed "3".
Proof. reflexivity. Qed.

Example price_of_unknown_symbol :
  outcome (exec Samples.market (StockAgent.get_stock_price "zzzz" "1d") [] 0)
  = Done (StockAgent.AsStr
            "Error: No data found for symbol 'ZZZZ'. Check if the ticker is correct.").
Proof. reflexivity. Qed.

Example price_when_the_provider_fails :
  outcome (exec Samples.down (StockAgent.get_stock_price "AAPL" "1d") [] 0)
  = Done (StockAgent.AsStr "An error occurred: connection refused").
Proof. reflexivity. Qed.

(** [KeyboardInterrupt] is no [Exception]: the tool does not turn it
    into text. *)
Example price_when_interrupted :
  outcome (exec Samples.interrupted
             (StockAgent.get_stock_price "AAPL" "1d") [] 0)
  = Crashed "KeyboardInterrupt".
Proof. reflexivity. Qed.

(** A ticker that ends with a no-break space is the same symbol. *)
Example price_of_padded_ticker :
  match outcome (exec Samples.market
                   (StockAgent.get_stock_price
                      ("aapl" ++ PyStr.encode_point 160) "1d") [] 0) with
  | Done (StockAgent.AsFloat x) => PrimFloat.eqb x 101.06 = true
  | _ => False
  end.
Proof. vm_compute. reflexivity. Qed.

Example buy_question :
  outcome (exec Samples.market (StockAgent.buy_stocks "AAPL" 10 1500.5) [] 0)
  = Pending "Do you want to buy 10 shares of AAPL for $1500.5? (yes/no)".
Proof. vm_compute. reflexivity. Qed.

Example sell_confirmed :
  outcome (exec Samples.market (StockAgent.sell_stocks "AAPL" 10 1500.5)
             ["Yes"] 0)
  = Done "✅ You sold 10 shares of AAPL for $1500.5.".
Proof. vm_compute. reflexivity. Qed.

(** The model of section 8: the draft is rewritten once, with the
    feedback in the prompt, and the final state has the score 8.0. *)
Example cats_vs_dogs_run :
  match result (BlogAgent.app Samples.cats_vs_dogs 5 "Cats vs Dogs") with
  | Completed st =>
      BlogAgent.blog_score st = Some 8%float
      /\ BlogAgent.feedback st = Some "good"
      /\ match BlogAgent.final_blog st with
         | Some draft => PyStr.contains "add more examples" draft = true
         | None => False
         end
  | _ => False
  end.
Proof. vm_compute. repeat split. Qed.

(** The same model as the sources run it: two drafts, within the limit. *)
Example cats_vs_dogs_invoke :
  let r := BlogAgent.invoke_app Samples.cats_vs_dogs "Cats vs Dogs" in
  BlogAgent.started "blog_node" (steps r) = 2
  /\ match result r with
     | Completed st => BlogAgent.blog_score st = Some 8%float
     | _ => False
     end.
Proof. vm_compute. split; reflexivity. Qed.

(** A judge that never gives 7.0: the run is ended by the limit after
    the outline, twelve drafts and twelve evaluations. *)
Example stubborn_invoke :
  let r := BlogAgent.invoke_app Samples.stubborn "Cats vs Dogs" in
  result r = Errored (GraphRecursionError 25)
  /\ map step_node (firstn 5 (steps r))
     = ["outline_node"; "blog_node"; "score_node"; "blog_node"; "score_node"]
  /\ List.length (steps r) = 25
  /\ BlogAgent.started "blog_node" (steps r) = 12
  /\ BlogAgent.started "score_node" (steps r) = 12
  /\ GraphRecursionError 25
     = "GraphRecursionError: Recursion limit of 25 reached without hitting a stop condition.".
Proof. vm_compute. repeat split. Qed.

(** A score of 8.0 at the twelfth evaluation comes with the 25th step:
    too late for the limit, though the loop itself would end there. *)
Example late_invoke :
  result (BlogAgent.invoke_app Samples.late "Cats vs Dogs")
  = Errored (GraphRecursionError 25)
  /\ match result (BlogAgent.app Samples.late 25 "Cats vs Dogs") with
     | Completed st => BlogAgent.blog_score st = Some 8%float
     | _ => False
     end.
Proof. vm_compute. split; reflexivity. Qed.

Example out_of_bounds_score_aborts :
  result (BlogAgent.app Samples.generous 5 "Cats vs Dogs")
  = Errored "SchemaValidationError: score".
Proof. reflexivity. Qed.

(** The purchase is requested, the run is suspended in the tool step,
    and it is resumed with [yes]: the tool message carries the
    confirmation and the model answers with it. *)
Example broker_round_trip :
  match result (StockAgent.send Samples.broker 5 0 [] "buy apple") with
  | AwaitingInput question ckpt =>
      question = "Do you want to buy 10 shares of AAPL for $1500.5? (yes/no)"
      /\ result (StockAgent.confirm Samples.broker 5 1 ckpt "yes")
         = Completed
             {| messages :=
                  [Human "buy apple";
                   AI {| ai_content := ""; tool_calls := [Samples.buy_call] |};
                   ToolMessage "✅ You bought 10 shares of AAPL for $1500.5."
                     "call_1";
                   AI {| ai_content :=
                           "✅ You bought 10 shares of AAPL for $1500.5.";
                         tool_calls := [] |}] |}
      /\ map step_node
           (steps (StockAgent.confirm Samples.broker 5 1 ckpt "yes"))
         = ["tools"; "agent"]
  | _ => False
  end.
Proof. vm_compute. repeat split. Qed.

(** Two orders in one response: the tool step asks about the first, is
    started again with [yes] and asks about the second, and is started
    again with [yes] and [no]: the purchase is made, the sale is not. *)
Example two_confirmations :
  match result (StockAgent.send Samples.two_orders 5 0 [] "rebalance") with
  | AwaitingInput first ckpt =>
      first = "Do you want to buy 10 shares of AAPL for $1500.5? (yes/no)"
      /\ match result (StockAgent.confirm Samples.two_orders 5 1 ckpt "yes")
         with
         | AwaitingInput second ckpt' =>
             second
             = "Do you want to sell 2 shares of TSLA for $800.0? (yes/no)"
             /\ answered ckpt' = ["yes"]
             /\ match result (StockAgent.confirm Samples.two_orders 5 1 ckpt'
                                "no") with
                | Completed st =>
                    map content (firstn 2 (skipn 2 (messages st)))
                    = ["✅ You bought 10 shares of AAPL for $1500.5.";
                       "❌ Transaction cancelled."]
                | _ => False
                end
         | _ => False
         end
  | _ => False
  end.
Proof. vm_compute. repeat split. Qed.

End Scenarios.

(* ------------------------------------------------------------------ *)
(** ** More on the nodes and the runs of the blog agent *)

Module BlogNodeFacts.

Import Eff Engine BlogAgent EffFacts EngineFacts BlogFacts.
Import PyStr PyStrFacts.

#[local] Abbreviation scored ev st :=
  (set_feedback (BlogEvaluation.feedback ev)
     (set_blog_score (BlogEvaluation.score ev) st)).

#[local] Abbreviation crashed A e n resume :=
  ({| outcome := @Crashed A e; clock := n; unused := resume; events := [] |}).

#[local] Abbreviation draft_prompt o fb :=
  (if truthy fb then
     nl ++ "Improve the blog using this feedback:" ++ nl ++ nl
     ++ "Feedback:" ++ nl ++ fb ++ nl ++ nl
     ++ "Blog outline:" ++ nl ++ o ++ nl ++ nl
     ++ "Rewrite the blog better." ++ nl
   else
     nl ++ "Write a detailed blog based on this outline:" ++ nl ++ nl
     ++ o ++ nl).

(** The draft step makes one call, with the prompt [create_blog] builds. *)
Lemma exec_create_blog_prompt (world : Oracle) (st : BlogState) (o : string)
    resume n :
  outline st = Some o ->
  exec world (create_blog st) resume n
  = let prompt := draft_prompt o (get (feedback st) "") in
    match world n _ (Invoke prompt) with
    | Returned text =>
        {| outcome := Done (set_final_blog text st); clock := S n;
           unused := resume; events := [Called n (Invoke prompt)] |}
    | Raises e =>
        {| outcome := Crashed e; clock := S n; unused := resume;
           events := [Called n (Invoke prompt)] |}
    end.
Proof.
  intros Ho. unfold create_blog. rewrite Ho. cbn [getitem bind]. cbn zeta.
  set (prompt := draft_prompt o (get (feedback st) "")).
  cbn. destruct (world n _ (Invoke prompt)); reflexivity.
Qed.

Lemma draft_prompt_contents (o fb : string) :
  contains o (draft_prompt o fb) = true
  /\ (truthy fb = true ->
      contains fb (draft_prompt o fb) = true
      /\ prefix (nl ++ "Improve the blog using this feedback:")
           (draft_prompt o fb) = true)
  /\ (truthy fb = false ->
      draft_prompt o fb
      = nl ++ "Write a detailed blog based on this outline:"
        ++ nl ++ nl ++ o ++ nl).
Proof.
  destruct (truthy fb); repeat split; try discriminate; try reflexivity;
    rewrite !append_assoc;
    repeat first [apply contains_end | apply contains_left].
Qed.

Lemma missing_key_raises (world : Oracle) (st : BlogState) resume n :
  (topic st = None ->
   exec world (create_outline st) resume n
   = crashed BlogState "KeyError: topic" n resume)
  /\ (outline st = None ->
      exec world (create_blog st) resume n
      = crashed BlogState "KeyError: outline" n resume)
  /\ (outline st = None ->
      exec world (score_blog st) resume n
      = crashed BlogState "KeyError: outline" n resume)
  /\ (outline st <> None -> final_blog st = None ->
      exec world (score_blog st) resume n
      = crashed BlogState "KeyError: final_blog" n resume).
Proof.
  repeat split.
  - intros H. unfold create_outline. now rewrite H.
  - intros H. unfold create_blog. now rewrite H.
  - intros H. unfold score_blog. now rewrite H.
  - intros Ho Hb. unfold score_blog. rewrite Hb.
    destruct (outline st); [reflexivity | contradiction].
Qed.

(** *** A proof rule for the runs of the graph

    A property of the state each node is started on, preserved by what
    the nodes write, holds of every step of every run. *)

Section Invariant.

Variable world : Oracle.
Variable I : string -> BlogState -> Prop.
Variable F : BlogState -> Prop.

Hypothesis outline_step :
  forall st text,
    I "outline_node" st -> I "blog_node" (set_outline text st).
Hypothesis blog_step :
  forall st text,
    I "blog_node" st -> I "score_node" (set_final_blog text st).
Hypothesis score_step_low :
  forall st ev,
    I "score_node" st ->
    in_bounds (BlogEvaluation.score ev) = true ->
    PyFloat.lt (BlogEvaluation.score ev) 7 = true ->
    I "blog_node" (scored ev st).
Hypothesis score_step_high :
  forall st ev,
    I "score_node" st ->
    in_bounds (BlogEvaluation.score ev) = true ->
    PyFloat.lt (BlogEvaluation.score ev) 7 = false ->
    F (scored ev st).

Lemma run_invariant :
  forall fuel node resume n st,
    In node ["outline_node"; "blog_node"; "score_node"] ->
    I node st ->
    let r := run world graph fuel [node] resume n st in
    Forall (fun s => I (step_node s) (step_input s)) (steps r)
    /\ (forall st', result r = Completed st' -> F st').
Proof.
  induction fuel as [|fuel IH]; intros node resume n st Hn HI; cbn zeta.
  - split; [constructor | discriminate].
  - destruct Hn as [<-|[<-|[<-|[]]]].
    + rewrite (run_node _ _ _ _ _ _ _ _ node_outline). cbn zeta.
      destruct (outcome (exec world (create_outline st) resume n))
        as [st1|q|e] eqn:E;
        try (split; [repeat constructor; exact HI | discriminate]).
      destruct (exec_create_outline_done _ _ _ _ _ E) as [text ->].
      rewrite next_outline. cbn [after result steps].
      destruct (IH "blog_node" (unused (exec world (create_outline st) resume n))
                  (clock (exec world (create_outline st) resume n))
                  (set_outline text st)) as [Hs Hf];
        [cbn; tauto | now apply outline_step |].
      split; [constructor; [exact HI | exact Hs] | exact Hf].
    + rewrite (run_node _ _ _ _ _ _ _ _ node_blog). cbn zeta.
      destruct (outcome (exec world (create_blog st) resume n))
        as [st1|q|e] eqn:E;
        try (split; [repeat constructor; exact HI | discriminate]).
      destruct (exec_create_blog_done _ _ _ _ _ E) as [text ->].
      rewrite next_blog. cbn [after result steps].
      destruct (IH "score_node" (unused (exec world (create_blog st) resume n))
                  (clock (exec world (create_blog st) resume n))
                  (set_final_blog text st)) as [Hs Hf];
        [cbn; tauto | now apply blog_step |].
      split; [constructor; [exact HI | exact Hs] | exact Hf].
    + rewrite (run_node _ _ _ _ _ _ _ _ node_score). cbn zeta.
      destruct (outcome (exec world (score_blog st) resume n))
        as [st1|q|e] eqn:E;
        try (split; [repeat constructor; exact HI | discriminate]).
      destruct (exec_score_blog_done _ _ _ _ _ E) as (prompt & ev & V & -> & _).
      unfold verdict in V.
      destruct (world n _ (InvokeStructured prompt)) as [raw|]; [|discriminate].
      destruct (validate_in_bounds _ _ V) as [_ Hb].
      rewrite next_score. cbn [blog_score set_feedback set_blog_score].
      destruct (PyFloat.lt (BlogEvaluation.score ev) 7) eqn:L.
      * cbn [after result steps].
        destruct (IH "blog_node" (unused (exec world (score_blog st) resume n))
                    (clock (exec world (score_blog st) resume n))
                    (scored ev st)) as [Hs Hf];
          [cbn; tauto | now apply score_step_low |].
        split; [constructor; [exact HI | exact Hs] | exact Hf].
      * cbn [after result steps]. rewrite run_done. cbn [steps result].
        split; [repeat constructor; exact HI |].
        intros st' [= <-]. now apply score_step_high.
Qed.

End Invariant.

End BlogNodeFacts.

(* ------------------------------------------------------------------ *)
(** ** Order on the floats that are numbers *)

Module PyFloatOrder.

Lemma SFcompare_antisym (a b : spec_float) :
  SFcompare b a = option_map CompOpp (SFcompare a b).
Proof.
  destruct a as [sa|sa| |sa ma ea], b as [sb|sb| |sb mb eb]; cbn;
    try reflexivity;
    try (destruct sa; reflexivity); try (destruct sb; reflexivity);
    try (destruct sa, sb; reflexivity).
  destruct sa, sb; cbn; try reflexivity.
  - rewrite (Z.compare_antisym ea eb).
    destruct (ea ?= eb)%Z eqn:E; cbn; try reflexivity.
    f_equal. rewrite CompOpp_involutive.
    exact (Pos.compare_cont_antisym mb ma Eq).
  - rewrite (Z.compare_antisym ea eb).
    destruct (ea ?= eb)%Z eqn:E; cbn; try reflexivity.
    f_equal. symmetry. exact (Pos.compare_cont_antisym ma mb Eq).
Qed.

(** A float that compares with itself is a number (no NaN); on numbers
    the order is total. *)
Lemma not_lt_le (x y : float) :
  PyFloat.le x x = true -> PyFloat.le y y = true ->
  PyFloat.lt x y = false -> PyFloat.le y x = true.
Proof.
  unfold PyFloat.le, PyFloat.lt.
  rewrite !leb_spec, ltb_spec. unfold SFleb, SFltb.
  rewrite (SFcompare_antisym (Prim2SF x) (Prim2SF y)).
  destruct (SFcompare (Prim2SF x) (Prim2SF y)) as [[]|] eqn:E; cbn;
    try reflexivity; try discriminate.
  intros Hx Hy _.
  destruct (Prim2SF x), (Prim2SF y); cbn in *; discriminate.
Qed.

Lemma le_number (x y : float) : PyFloat.le x y = true -> PyFloat.le y y = true.
Proof.
  unfold PyFloat.le. rewrite !leb_spec. unfold SFleb.
  destruct (Prim2SF y) as [s|s| |s m e]; cbn.
  - reflexivity.
  - destruct s; reflexivity.
  - destruct (Prim2SF x); discriminate.
  - intros _. rewrite Z.compare_refl.
    change (PosDef.Pos.compare_cont Eq m m) with (Pos.compare_cont Eq m m).
    rewrite Pos.compare_cont_refl. destruct s; reflexivity.
Qed.

Lemma not_below_7 (x : float) : PyFloat.le 0 x = true ->
  PyFloat.lt x 7 = false -> PyFloat.le 7 x = true.
Proof.
  intros H0 H7.
  apply not_lt_le; [exact (le_number _ _ H0) | reflexivity | exact H7].
Qed.

(** A NaN is on neither side of any comparison. *)
Lemma nan_not_le (x y : float) :
  PrimFloat.is_nan x = true -> PyFloat.le x y = false.
Proof.
  unfold PrimFloat.is_nan, PyFloat.le. rewrite eqb_spec, leb_spec.
  unfold SFeqb, SFleb.
  destruct (Prim2SF x) as [s|s| |s m e]; cbn; try discriminate.
  - destruct s; discriminate.
  - reflexivity.
  - rewrite Z.compare_refl.
    change (PosDef.Pos.compare_cont Eq m m) with (Pos.compare_cont Eq m m).
    rewrite Pos.compare_cont_refl. destruct s; discriminate.
Qed.

End PyFloatOrder.

(* ------------------------------------------------------------------ *)
(** ** Counting the steps of a blog run *)

Module BlogCountFacts.

Import Eff Engine BlogAgent EffFacts EngineFacts BlogFacts Shape.

Lemma outline_done_clock (world : Oracle) st st1 resume n :
  outcome (exec world (create_outline st) resume n) = Done st1 ->
  clock (exec world (create_outline st) resume n) = S n.
Proof.
  destruct (topic st) as [t|] eqn:Ht;
    [|unfold create_outline; rewrite Ht; discriminate].
  destruct (exec_create_outline world st t Ht) as [prompt E]. rewrite E.
  destruct (world n _ (Invoke prompt)); [reflexivity | discriminate].
Qed.

Lemma blog_done_clock (world : Oracle) st st1 resume n :
  outcome (exec world (create_blog st) resume n) = Done st1 ->
  clock (exec world (create_blog st) resume n) = S n.
Proof.
  destruct (outline st) as [o|] eqn:Ho;
    [|unfold create_blog; rewrite Ho; discriminate].
  destruct (exec_create_blog world st o Ho) as [prompt E]. rewrite E.
  destruct (world n _ (Invoke prompt)); [reflexivity | discriminate].
Qed.

Lemma score_done_clock (world : Oracle) st st1 resume n :
  outcome (exec world (score_blog st) resume n) = Done st1 ->
  clock (exec world (score_blog st) resume n) = S n.
Proof.
  destruct (outline st) as [o|] eqn:Ho;
    [|unfold score_blog; rewrite Ho; discriminate].
  destruct (final_blog st) as [b|] eqn:Hb;
    [|unfold score_blog; rewrite Ho, Hb; discriminate].
  destruct (exec_score_blog world st o b Ho Hb) as [prompt E]. rewrite E.
  destruct (verdict world n prompt); [reflexivity | discriminate].
Qed.

#[local] Abbreviation outlines r := (count_node "outline_node" (steps r)).
#[local] Abbreviation drafts r := (count_node "blog_node" (steps r)).
#[local] Abbreviation scores r := (count_node "score_node" (steps r)).

Ltac count_steps :=
  unfold count_node in *;
  cbn [after stop steps result time filter step_node String.eqb Ascii.eqb
       Bool.eqb List.length] in *.

(** Drafts and evaluations alternate after the one outline, and every
    step of a run that completes made exactly one call to a model. *)
Lemma run_counts (world : Oracle) :
  forall fuel,
    (forall resume n st,
        let r := run world graph fuel ["outline_node"] resume n st in
        outlines r <= 1 /\ scores r <= drafts r <= scores r + 1
        /\ (forall st', result r = Completed st' ->
            outlines r = 1 /\ drafts r = scores r /\ 1 <= scores r
            /\ time r = n + List.length (steps r)))
    /\ (forall resume n st,
          let r := run world graph fuel ["blog_node"] resume n st in
          outlines r = 0 /\ scores r <= drafts r <= scores r + 1
          /\ (forall st', result r = Completed st' ->
              drafts r = scores r /\ 1 <= scores r
              /\ time r = n + List.length (steps r)))
    /\ (forall resume n st,
          let r := run world graph fuel ["score_node"] resume n st in
          outlines r = 0 /\ drafts r <= scores r <= drafts r + 1
          /\ (forall st', result r = Completed st' ->
              scores r = drafts r + 1
              /\ time r = n + List.length (steps r))).
Proof.
  induction fuel as [|fuel (IHo & IHb & IHs)].
  - repeat split; cbn; try lia; discriminate.
  - split; [|split]; intros resume n st; cbn zeta.
    + rewrite (run_node _ _ _ _ _ _ _ _ node_outline). cbn zeta.
      destruct (outcome (exec world (create_outline st) resume n))
        as [st1|q|e] eqn:E;
        try (count_steps; repeat split; try lia; discriminate).
      rewrite next_outline, (outline_done_clock _ _ _ _ _ E).
      destruct (IHb (unused (exec world (create_outline st) resume n))
                  (S n) st1) as (H0 & H1 & H2).
      count_steps. repeat split; try lia;
        destruct (H2 _ H) as (? & ? & ?); lia.
    + rewrite (run_node _ _ _ _ _ _ _ _ node_blog). cbn zeta.
      destruct (outcome (exec world (create_blog st) resume n))
        as [st1|q|e] eqn:E;
        try (count_steps; repeat split; try lia; discriminate).
      rewrite next_blog, (blog_done_clock _ _ _ _ _ E).
      destruct (IHs (unused (exec world (create_blog st) resume n))
                  (S n) st1) as (H0 & H1 & H2).
      count_steps. repeat split; try lia;
        destruct (H2 _ H) as (? & ?); lia.
    + rewrite (run_node _ _ _ _ _ _ _ _ node_score). cbn zeta.
      destruct (outcome (exec world (score_blog st) resume n))
        as [st1|q|e] eqn:E;
        try (count_steps; repeat split; try lia; discriminate).
      rewrite (score_done_clock _ _ _ _ _ E).
      destruct (successors graph "score_node" st1) as [next|] eqn:N;
        [|count_steps; repeat split; try lia; discriminate].
      rewrite next_score in N.
      destruct (blog_score st1) as [s|]; [|discriminate].
      destruct (PyFloat.lt s 7); injection N as <-.
      * destruct (IHb (unused (exec world (score_blog st) resume n))
                    (S n) st1) as (H0 & H1 & H2).
        count_steps. repeat split; try lia;
          destruct (H2 _ H) as (? & ? & ?); lia.
      * rewrite run_done. count_steps. repeat split; lia.
Qed.

End BlogCountFacts.

(* ------------------------------------------------------------------ *)
(** ** The refinement loop within the step limit *)

Module BlogTermination.

Import Eff Engine BlogAgent EffFacts EngineFacts BlogFacts BlogCountFacts.



Section Model.

Variable world : Oracle.
Variable topic_text : string.

Hypothesis drafts :
  forall n p, exists text, world n _ (Invoke p) = Returned text.



End Model.









End BlogTermination.

(* ------------------------------------------------------------------ *)
(** ** Further properties of the blog agent *)

Module BlogExtra.

Import Eff Engine BlogAgent EffFacts EngineFacts BlogFacts Shape.
Import PyStr PyStrFacts BlogNodeFacts BlogCountFacts PyFloatOrder.

(** X1: the draft step asks the model once.  When the state holds a
    feedback that is not empty, the prompt is the rewriting prompt and
    contains both the feedback and the outline; when the feedback is
    absent or empty (also after a low score) it is the first-draft prompt,
    made of the outline alone.  The answer becomes [final_blog], and a
    failure of the model is raised. *)
Theorem create_blog_prompt :
  forall (world : Oracle) (st : BlogState) (o : string)
         (resume : list string) (n : nat),
    outline st = Some o ->
    exists prompt,
      events (exec world (create_blog st) resume n)
      = [Called n (Invoke prompt)]
      /\ contains o prompt = true
      /\ (forall fb, feedback st = Some fb -> fb <> "" ->
            contains fb prompt = true
            /\ prefix (nl ++ "Improve the blog using this feedback:") prompt
               = true)
      /\ (feedback st = None \/ feedback st = Some "" ->
          prompt = nl ++ "Write a detailed blog based on this outline:"
                   ++ nl ++ nl ++ o ++ nl)
      /\ outcome (exec world (create_blog st) resume n)
         = match world n _ (Invoke prompt) with
           | Returned text => Done (set_final_blog text st)
           | Raises e => Crashed e
           end.
Proof.
  intros world st o resume n Ho.
  rewrite (exec_create_blog_prompt world st o resume n Ho). cbn zeta.
  destruct (draft_prompt_contents o (get (feedback st) "")) as (Co & Cf & Ce).
  match goal with
  | |- context [world n _ (Invoke ?p)] => exists p
  end.
  split; [|split; [exact Co | split; [|split]]].
  - destruct (world n _ (Invoke _)); reflexivity.
  - intros fb Hf Hne. rewrite Hf in *. cbn [get] in *.
    apply Cf. destruct fb; [contradiction | reflexivity].
  - intros [Hf|Hf]; rewrite Hf in *; now apply Ce.
  - destruct (world n _ (Invoke _)); reflexivity.
Qed.

Lemma create_blog_prompt_witness :
  exists prompt,
    events (exec Samples.cats_vs_dogs
              (create_blog
                 (set_feedback "add more examples"
                    (set_outline "outline" (initial "Cats vs Dogs")))) [] 3)
    = [Called 3 (Invoke prompt)]
    /\ contains "add more examples" prompt = true.
Proof.
  destruct (create_blog_prompt Samples.cats_vs_dogs
              (set_feedback "add more examples"
                 (set_outline "outline" (initial "Cats vs Dogs")))
              "outline" [] 3 eq_refl)
    as (prompt & He & _ & Hf & _).
  exists prompt. split; [exact He|].
  apply (Hf "add more examples" eq_refl). discriminate.
Defined.

(** X2: a node whose input key is absent raises [KeyError] before any
    call to a model, and writes nothing; a run started on a state without
    topic fails in its first step, with no call made. *)
Theorem missing_key_is_key_error :
  forall (world : Oracle) (st : BlogState) (resume : list string) (n : nat),
    (topic st = None ->
     exec world (create_outline st) resume n
     = {| outcome := Crashed "KeyError: topic"; clock := n;
          unused := resume; events := [] |})
    /\ (outline st = None ->
        exec world (create_blog st) resume n
        = {| outcome := Crashed "KeyError: outline"; clock := n;
             unused := resume; events := [] |}
        /\ exec world (score_blog st) resume n
           = {| outcome := Crashed "KeyError: outline"; clock := n;
                unused := resume; events := [] |})
    /\ (outline st <> None -> final_blog st = None ->
        exec world (score_blog st) resume n
        = {| outcome := Crashed "KeyError: final_blog"; clock := n;
             unused := resume; events := [] |})
    /\ (topic st = None ->
        forall fuel,
          invoke world graph (S fuel) n st
          = {| result := Errored "KeyError: topic"; time := n;
               steps := [{| step_node := "outline_node";
                            step_input := st |}] |}).
Proof.
  intros world st resume n.
  destruct (missing_key_raises world st resume n) as (H1 & H2 & H3 & H4).
  repeat split; auto.
  intros Ht fuel. unfold invoke. rewrite start_node.
  rewrite (run_node _ _ _ _ _ _ _ _ node_outline). cbn zeta.
  now rewrite (proj1 (missing_key_raises world st [] n) Ht).
Qed.

Lemma missing_key_is_key_error_witness :
  result (invoke Samples.cats_vs_dogs graph 5 0
            {| topic := None; outline := None; final_blog := None;
               blog_score := None; feedback := None |})
  = Errored "KeyError: topic".
Proof.
  now rewrite (proj2 (proj2 (proj2 (missing_key_is_key_error
                 Samples.cats_vs_dogs
                 {| topic := None; outline := None; final_blog := None;
                    blog_score := None; feedback := None |} [] 0)))
                 eq_refl 4).
Defined.

(** X3: along every run the topic is the one the run was started with,
    and the outline, once written by the outline step, is never written
    again: every draft and every evaluation work on the same outline, and
    a completed run returns that topic and that outline. *)
Theorem topic_and_outline_are_fixed :
  forall (world : Oracle) (fuel : nat) (topic_text : string),
    let r := app world fuel topic_text in
    Forall (fun s => topic (step_input s) = Some topic_text) (steps r)
    /\ exists o,
         Forall (fun s => outline (step_input s) = Some o) (tl (steps r))
         /\ forall st', result r = Completed st' ->
              topic st' = Some topic_text /\ outline st' = Some o.
Proof.
  intros world fuel topic_text. cbn zeta. unfold app, invoke.
  rewrite start_node.
  destruct fuel as [|fuel].
  { split; [constructor|]. exists "". split; [constructor | discriminate]. }
  rewrite (run_node _ _ _ _ _ _ _ _ node_outline). cbn zeta.
  destruct (outcome (exec world (create_outline (initial topic_text)) [] 0))
    as [st1|q|e] eqn:E;
    try (split; [repeat constructor|];
         exists ""; split; [constructor | discriminate]).
  destruct (exec_create_outline_done _ _ _ _ _ E) as [text ->].
  rewrite next_outline. cbn [after steps result tl].
  assert (R : forall resume n,
             let r := run world graph fuel ["blog_node"] resume n
                        (set_outline text (initial topic_text)) in
             Forall (fun s => step_node s <> "outline_node"
                              /\ topic (step_input s) = Some topic_text
                              /\ outline (step_input s) = Some text) (steps r)
             /\ (forall st', result r = Completed st' ->
                  topic st' = Some topic_text /\ outline st' = Some text)).
  { intros resume n.
    apply (run_invariant world
             (fun node st => node <> "outline_node"
                             /\ topic st = Some topic_text
                             /\ outline st = Some text)
             (fun st => topic st = Some topic_text /\ outline st = Some text)).
    - intros st text0 [Hn _]. now destruct Hn.
    - intros st text0 (_ & Ht & Ho). repeat split; [discriminate | | ]; assumption.
    - intros st ev (_ & Ht & Ho) _ _. repeat split; [discriminate | | ]; assumption.
    - intros st ev (_ & Ht & Ho) _ _. split; assumption.
    - cbn; tauto.
    - repeat split. discriminate. }
  destruct (R (unused (exec world (create_outline (initial topic_text)) [] 0))
              (clock (exec world (create_outline (initial topic_text)) [] 0)))
    as [Hs Hf].
  split.
  - constructor; [reflexivity|].
    eapply Forall_impl; [|exact Hs]. now intros s (_ & Ht & _).
  - exists text. split; [|exact Hf].
    eapply Forall_impl; [|exact Hs]. now intros s (_ & _ & Ho).
Qed.

(** X4: a draft is written either before any evaluation, on a state with
    neither score nor feedback, or after an evaluation whose validated
    score is below 7.0, on a state that holds that score and the judge's
    feedback.  No draft is ever rewritten after a score of 7.0 or more. *)
Theorem redraft_only_below_threshold :
  forall (world : Oracle) (fuel : nat) (topic_text : string),
    Forall
      (fun s =>
         step_node s = "blog_node" ->
         (blog_score (step_input s) = None /\ feedback (step_input s) = None)
         \/ exists v f,
              blog_score (step_input s) = Some v
              /\ feedback (step_input s) = Some f
              /\ PyFloat.lt v 7 = true /\ in_bounds v = true)
      (steps (app world fuel topic_text)).
Proof.
  intros world fuel topic_text. unfold app, invoke. rewrite start_node.
  pose (fresh := fun st : BlogState =>
                   blog_score st = None /\ feedback st = None).
  pose (low := fun st : BlogState =>
                 exists v f, blog_score st = Some v /\ feedback st = Some f
                             /\ PyFloat.lt v 7 = true /\ in_bounds v = true).
  destruct (run_invariant world
              (fun node st =>
                 (node = "outline_node" -> fresh st)
                 /\ (node = "blog_node" -> fresh st \/ low st))
              (fun _ => True))
    with (fuel := fuel) (node := "outline_node") (resume := @nil string)
         (n := 0) (st := initial topic_text) as [Hs _].
  - intros st text [Hf _]. split; [discriminate|].
    intros _. left. now apply Hf.
  - intros st text _. split; discriminate.
  - intros st ev _ Hb L. split; [discriminate|].
    intros _. right. exists (BlogEvaluation.score ev), (BlogEvaluation.feedback ev).
    now repeat split.
  - trivial.
  - cbn; tauto.
  - split; [intros _; split; reflexivity | discriminate].
  - eapply Forall_impl; [|exact Hs].
    intros s [_ H] Hn. exact (H Hn).
Qed.

(** X5: in every run the outline is made at most once and drafts and
    evaluations alternate, so that there are as many evaluations as
    drafts or one less; a run that completes has made one outline, [d]
    drafts and [d] evaluations for some [d >= 1], and exactly one call to
    a model per step, [2 d + 1] in all. *)
Theorem steps_and_model_calls :
  forall (world : Oracle) (fuel : nat) (topic_text : string),
    let r := app world fuel topic_text in
    count_node "outline_node" (steps r) <= 1
    /\ count_node "score_node" (steps r) <= count_node "blog_node" (steps r)
    /\ count_node "blog_node" (steps r) <= count_node "score_node" (steps r) + 1
    /\ (forall st',
          result r = Completed st' ->
          count_node "outline_node" (steps r) = 1
          /\ count_node "blog_node" (steps r)
             = count_node "score_node" (steps r)
          /\ 1 <= count_node "blog_node" (steps r)
          /\ time r = List.length (steps r)
          /\ time r = 2 * count_node "blog_node" (steps r) + 1).
Proof.
  intros world fuel topic_text. cbn zeta. unfold app, invoke.
  rewrite start_node.
  destruct (proj1 (run_counts world fuel) [] 0 (initial topic_text))
    as (Ho & Hbs & Hc).
  assert (Hlen : forall l : list (Step BlogState),
             Forall (fun s => In (step_node s)
                                ["outline_node"; "blog_node"; "score_node"]) l ->
             List.length l
             = count_node "outline_node" l + count_node "blog_node" l
               + count_node "score_node" l).
  { induction l as [|s l IH]; intros Hl; [reflexivity|].
    inversion Hl as [|? ? Hs Hl']; subst. specialize (IH Hl').
    unfold count_node in *. cbn [filter List.length].
    destruct Hs as [<-|[<-|[<-|[]]]]; cbn; lia. }
  assert (Hnodes : Forall (fun s => In (step_node s)
                                      ["outline_node"; "blog_node"; "score_node"])
                     (steps (run world graph fuel ["outline_node"] [] 0
                               (initial topic_text)))).
  { apply (run_invariant world
             (fun node _ => In node ["outline_node"; "blog_node"; "score_node"])
             (fun _ => True)); intros; cbn; tauto. }
  repeat split; try lia;
    destruct (Hc _ H) as (H1 & H2 & H3 & H4); try lia.
  rewrite H4, (Hlen _ Hnodes). lia.
Qed.

(** X6: the quality report of the page, on a run that completed: the
    label is [Excellent] or [Good], and the indicator is never the
    warning; the branch [Needs Improvement] cannot be reached, since the
    loop ends only on a validated score that is not below 7.0. *)
Theorem quality_report_never_warns :
  forall (world : Oracle) (fuel : nat) (topic_text : string)
         (response : BlogState),
    result (app world fuel topic_text) = Completed response ->
    exists score,
      blog_score response = Some score
      /\ BlogReport.ge score 7 = true
      /\ BlogReport.delta score <> "Needs Improvement"
      /\ (BlogReport.delta score = "Excellent"
          \/ BlogReport.delta score = "Good")
      /\ forall text, BlogReport.indicator score <> BlogReport.warning text.
Proof.
  intros world fuel topic_text response H. unfold app, invoke in H.
  rewrite start_node in H.
  destruct (completed_scored world fuel "outline_node" [] 0 _ response
              (or_introl eq_refl) H) as (s & Hs & Hb & L).
  apply andb_true_iff in Hb as [H0 _].
  assert (G : BlogReport.ge s 7 = true)
    by (unfold BlogReport.ge; now apply not_below_7).
  exists s. unfold BlogReport.delta, BlogReport.indicator. rewrite G.
  destruct (BlogReport.ge s 8); repeat split; try discriminate; auto.
Qed.

Lemma quality_report_never_warns_witness :
  exists score,
    BlogReport.ge score 7 = true
    /\ BlogReport.delta score <> "Needs Improvement".
Proof.
  edestruct (quality_report_never_warns Samples.cats_vs_dogs 5 "Cats vs Dogs")
    as (score & _ & G & D & _).
  - lazy. reflexivity.
  - now exists score.
Defined.

End BlogExtra.

(* ------------------------------------------------------------------ *)
(** ** Further properties of the tools of the stock agent *)

Module StockExtra.

Import Msg Eff PyStr StockAgent Shape.
Import PyStrFacts PyStrChars PyFloatFacts PyFloatOrder EffFacts.
Import StockToolFacts.

(** *** The normalised symbol *)

(** X7: [get_stock_price] asks the provider exactly once, for the period
    it was given and for the symbol [t.upper().strip()], and that symbol
    is in normal form whatever the ticker was: taking its upper case or
    stripping it again changes nothing, no letter [a] to [z] is left in
    it, and it neither begins nor ends with a white-space character. *)
Theorem provider_gets_normalised_symbol :
  forall (world : Oracle) (t period : string) (resume : list string)
         (n : nat),
    utf8 t = true ->
    let symbol := strip (upper t) in
    events (exec world (get_stock_price t period) resume n)
    = [Called n (History symbol period)]
    /\ clock (exec world (get_stock_price t period) resume n) = S n
    /\ upper symbol = symbol
    /\ strip symbol = symbol
    /\ no_ascii_lower symbol = true
    /\ clean_head (chars symbol)
    /\ clean_last (chars symbol).
Proof.
  intros world t period resume n Ht. cbn zeta.
  destruct (normal_clean t Ht) as [Hh Hl].
  split; [|split; [|split; [|split; [|split; [|split]]]]].
  - cbn. destruct (world n _ (History (strip (upper t)) period)) as [h|e|e];
      [|reflexivity|reflexivity].
    cbn. destruct (last_close h); reflexivity.
  - cbn. destruct (world n _ (History (strip (upper t)) period)) as [h|e|e];
      [|reflexivity|reflexivity].
    cbn. destruct (last_close h); reflexivity.
  - now apply upper_normal.
  - now apply strip_normal.
  - now apply normal_no_lower.
  - exact Hh.
  - exact Hl.
Qed.

(** The ticker [straße] with a tab before and an ideographic space
    (U+3000) after it: the provider is asked for [STRASSE]. *)
Lemma provider_gets_normalised_symbol_witness :
  events (exec Samples.market
            (get_stock_price (encode [9; 115; 116; 114; 97; 223; 101; 12288]%Z)
               "1d") [] 0)
  = [Called 0 (History "STRASSE" "1d")].
Proof.
  exact (proj1 (provider_gets_normalised_symbol Samples.market
                  (encode [9; 115; 116; 114; 97; 223; 101; 12288]%Z) "1d" [] 0
                  eq_refl)).
Defined.

(** *** The two guards *)

Lemma is_nan_spec (x : float) :
  PrimFloat.is_nan x = true -> Prim2SF x = S754_nan.
Proof.
  unfold PrimFloat.is_nan. rewrite eqb_spec. unfold SFeqb.
  destruct (Prim2SF x) as [s|s| |s m e]; cbn; try discriminate.
  - destruct s; discriminate.
  - reflexivity.
  - rewrite Z.compare_refl.
    change (PosDef.Pos.compare_cont Eq m m) with (Pos.compare_cont Eq m m).
    rewrite Pos.compare_cont_refl. destruct s; discriminate.
Qed.

Lemma repr_nan (x : float) : PrimFloat.is_nan x = true -> PyFloat.repr x = "nan".
Proof. intros H. unfold PyFloat.repr. now rewrite (is_nan_spec x H). Qed.

Lemma trade_cases (tool : string -> Z -> float -> Prog string)
    (verb past : string) (t : string) (q : Z) (p : float) :
  (tool, verb, past) = (buy_stocks, "buy", "bought")
  \/ (tool, verb, past) = (sell_stocks, "sell", "sold") ->
  ((q <= 0)%Z /\ tool t q p = Ret "❌ Error: Quantity must be positive")
  \/ ((0 < q)%Z /\ PyFloat.le p 0 = true
      /\ tool t q p = Ret "❌ Error: Total price must be positive")
  \/ ((0 < q)%Z /\ PyFloat.le p 0 = false
      /\ tool t q p = after_guards verb past t q p).
Proof.
  intros [[= -> -> ->] | [= -> -> ->]];
    unfold buy_stocks, sell_stocks;
    destruct (Z.leb_spec q 0) as [Hq|Hq];
    try (left; now split);
    right; destruct (PyFloat.le p 0); [left | right | left | right];
    now repeat split.
Qed.

(** X8: [buy_stocks] and [sell_stocks] ask for a confirmation exactly
    when the quantity is positive and the total price is not [<= 0]; when
    both are wrong the error is the one about the quantity.  A price that
    is not a number passes the guard: with a positive quantity the tool
    asks to confirm a price of [nan]. *)
Theorem guards_of_a_trade :
  forall (world : Oracle) (tool : string -> Z -> float -> Prog string)
         (verb past : string) (t : string) (q : Z) (p : float) (n : nat),
    (tool, verb, past) = (buy_stocks, "buy", "bought")
    \/ (tool, verb, past) = (sell_stocks, "sell", "sold") ->
    ((exists question,
         outcome (exec world (tool t q p) [] n) = Pending question)
     <-> (0 < q)%Z /\ PyFloat.le p 0 = false)
    /\ ((q <= 0)%Z ->
        outcome (exec world (tool t q p) [] n)
        = Done "❌ Error: Quantity must be positive")
    /\ ((0 < q)%Z -> PyFloat.le p 0 = true ->
        outcome (exec world (tool t q p) [] n)
        = Done "❌ Error: Total price must be positive")
    /\ ((0 < q)%Z -> PrimFloat.is_nan p = true ->
        outcome (exec world (tool t q p) [] n)
        = Pending ("Do you want to " ++ verb ++ " " ++ str_int q
                   ++ " shares of " ++ t ++ " for $nan? (yes/no)")).
Proof.
  intros world tool verb past t q p n Htool.
  destruct (trade_cases tool verb past t q p Htool)
    as [[Hq E] | [(Hq & Hp & E) | (Hq & Hp & E)]]; rewrite E.
  - split; [split|split; [|split]].
    + intros [question Hx]. discriminate.
    + intros [Hx _]. lia.
    + reflexivity.
    + intros Hx. lia.
    + intros Hx. lia.
  - split; [split|split; [|split]].
    + intros [question Hx]. discriminate.
    + intros [_ Hx]. congruence.
    + intros Hx. lia.
    + reflexivity.
    + intros _ Hnan. rewrite (nan_not_le p 0 Hnan) in Hp. discriminate.
  - rewrite exec_after_guards_pending. cbn [outcome].
    split; [split|split; [|split]].
    + intros _. now split.
    + intros _. now exists (ask verb t q p).
    + intros Hx. lia.
    + intros _ Hx. congruence.
    + intros _ Hnan. unfold ask. now rewrite (repr_nan p Hnan).
Qed.

Lemma guards_of_a_trade_witness :
  outcome (exec Samples.market (buy_stocks "AAPL" 1 nan) [] 0)
  = Pending "Do you want to buy 1 shares of AAPL for $nan? (yes/no)".
Proof.
  apply (proj2 (proj2 (proj2 (guards_of_a_trade Samples.market buy_stocks
                 "buy" "bought" "AAPL" 1 nan 0 (or_introl eq_refl))))
           eq_refl eq_refl).
Defined.

(** X9: the two trading tools never consult the outside world: they make
    no call but the one confirmation request, so their run does not
    depend on the world (no price is looked up, no ledger is touched) and
    consumes at most one resume answer. *)
Theorem trade_asks_nothing_but_confirmation :
  forall (world world' : Oracle)
         (tool : string -> Z -> float -> Prog string) (verb past : string)
         (t : string) (q : Z) (p : float) (resume : list string) (n : nat),
    (tool, verb, past) = (buy_stocks, "buy", "bought")
    \/ (tool, verb, past) = (sell_stocks, "sell", "sold") ->
    let r := exec world (tool t q p) resume n in
    r = exec world' (tool t q p) resume n
    /\ clock r = n
    /\ (events r = [] /\ unused r = resume
        \/ events r = [Called n (Interrupt (ask verb t q p))]
           /\ unused r = tl resume).
Proof.
  intros world world' tool verb past t q p resume n Htool. cbn zeta.
  destruct (trade_cases tool verb past t q p Htool)
    as [[Hq E] | [(Hq & Hp & E) | (Hq & Hp & E)]]; rewrite E.
  - repeat split. now left.
  - repeat split. now left.
  - destruct resume as [|answer rest].
    + rewrite !exec_after_guards_pending. repeat split. now right.
    + rewrite !exec_after_guards_answer. repeat split. now right.
Qed.

Lemma trade_asks_nothing_but_confirmation_witness :
  exec Samples.market (sell_stocks "AAPL" 10 1500.5) ["yes"] 0
  = exec Samples.down (sell_stocks "AAPL" 10 1500.5) ["yes"] 0.
Proof.
  apply (proj1 (trade_asks_nothing_but_confirmation Samples.market
                  Samples.down sell_stocks "sell" "sold" "AAPL" 10 1500.5
                  ["yes"] 0 (or_intror eq_refl))).
Defined.

End StockExtra.

(* ------------------------------------------------------------------ *)
(** ** Further properties of the conversational graphs *)

Module ConversationExtra.

Import Msg Eff Engine Prebuilt Shape.
Import EffFacts EngineFacts ConversationFacts GraphFacts.

Lemma grown_refl (ms : list Message) : grown_by_replies ms ms.
Proof. exists []. split; [now rewrite app_nil_r | reflexivity]. Qed.

Lemma grown_trans (a b c : list Message) :
  grown_by_replies a b -> grown_by_replies b c -> grown_by_replies a c.
Proof.
  intros (x & -> & Hx) (y & -> & Hy). exists (x ++ y)%list. split.
  - now rewrite app_assoc.
  - rewrite forallb_app. now rewrite Hx, Hy.
Qed.

(** The tool step returns tool messages only. *)
Lemma run_tool_call_reply (world : Oracle) (kit : list Tool) tc resume n m :
  outcome (exec world (run_tool_call kit tc) resume n) = Done m ->
  is_reply m = true.
Proof.
  unfold run_tool_call. destruct (find_tool kit (tc_name tc)) as [t|].
  - rewrite exec_bind. unfold and_then.
    destruct (outcome (exec world _ resume n)); cbn; try discriminate.
    now intros [= <-].
  - cbn. now intros [= <-].
Qed.

Lemma run_tool_calls_replies (world : Oracle) (kit : list Tool) :
  forall calls resume n ms,
    outcome (exec world (run_tool_calls kit calls) resume n) = Done ms ->
    forallb is_reply ms = true.
Proof.
  induction calls as [|tc calls IH]; intros resume n ms H.
  - cbn in H. now injection H as <-.
  - cbn [run_tool_calls] in H. rewrite exec_bind in H. unfold and_then in H.
    destruct (outcome (exec world (run_tool_call kit tc) resume n))
      as [m|q|e] eqn:Em; cbn in H; try discriminate.
    rewrite exec_bind in H. unfold and_then in H.
    destruct (outcome (exec world (run_tool_calls kit calls) _ _))
      as [ms'|q|e] eqn:E; cbn in H; try discriminate.
    injection H as <-. cbn [forallb].
    now rewrite (run_tool_call_reply _ _ _ _ _ _ Em), (IH _ _ _ E).
Qed.

Lemma exec_ToolNode_grows (world : Oracle) (kit : list Tool) st resume n st1 :
  outcome (exec world (ToolNode kit st) resume n) = Done st1 ->
  grown_by_replies (messages st) (messages st1).
Proof.
  unfold ToolNode. intros H.
  destruct (last_message (messages st)) as [[c|c|r|c i]|]; try discriminate.
  rewrite exec_bind in H. unfold and_then in H.
  destruct (outcome (exec world (run_tool_calls kit (tool_calls r)) resume n))
    as [ms|q|e] eqn:E; cbn in H; try discriminate.
  injection H as <-. exists ms. split; [reflexivity|].
  exact (run_tool_calls_replies _ _ _ _ _ _ E).
Qed.

Section Loop.

Variable world : Oracle.
Variable g : StateGraph MessagesState.
Variable agent_name : string.
Variable asked : MessagesState -> list Message.
Variable kit : list Tool.

Hypothesis agent_declared :
  lookup agent_name (nodes g) = Some (agent_node asked).
Hypothesis tools_declared :
  lookup "tools" (nodes g) = Some (ToolNode kit).
Hypothesis agent_routing :
  forall st, successors g agent_name st
             = match tools_condition st with
               | None => None
               | Some t => Some (live [t])
               end.
Hypothesis tools_routing :
  forall st, successors g "tools" st = Some [agent_name].
Hypothesis agent_is_not_tools : String.eqb agent_name "tools" = false.

(** Whatever a run reaches was obtained from the history it started
    with by appending responses of the model and tool messages. *)
Lemma run_grows :
  forall fuel frontier resume n st,
    frontier = [agent_name] \/ frontier = ["tools"] ->
    let r := run world g fuel frontier resume n st in
    Forall (fun s => grown_by_replies (messages st) (messages (step_input s)))
      (steps r)
    /\ (forall st', result r = Completed st' ->
        grown_by_replies (messages st) (messages st'))
    /\ (forall q ckpt, result r = AwaitingInput q ckpt ->
        grown_by_replies (messages st) (messages (saved ckpt))).
Proof.
  induction fuel as [|fuel IH]; intros frontier resume n st Hf; cbn zeta.
  - destruct Hf as [-> | ->]; repeat split; try constructor; discriminate.
  - destruct Hf as [-> | ->].
    + rewrite (run_agent world g agent_name asked agent_declared agent_routing).
      destruct (world n _ (Chat (asked st))) as [r|e].
      * assert (G : grown_by_replies (messages st) (messages st ++ [AI r])%list)
          by (exists [AI r]; now split).
        cbn [after steps result].
        destruct (tool_calls r).
        -- rewrite run_done. cbn [steps result]. split; [|split].
           ++ repeat constructor. apply grown_refl.
           ++ now intros st' [= <-].
           ++ discriminate.
        -- destruct (IH ["tools"] resume (S n)
                       {| messages := (messages st ++ [AI r])%list |}
                       (or_intror eq_refl)) as (Hs & Hc & Ha).
           cbn [messages] in *. split; [|split].
           ++ constructor; [apply grown_refl|].
              eapply Forall_impl; [|exact Hs].
              intros s. now apply grown_trans.
           ++ intros st' H. eapply grown_trans; [exact G | now apply Hc].
           ++ intros q ckpt H. eapply grown_trans; [exact G | eapply Ha, H].
      * cbn. split; [|split]; try discriminate.
        repeat constructor. apply grown_refl.
    + rewrite (run_tools world g agent_name kit tools_declared tools_routing).
      cbn zeta.
      destruct (outcome (exec world (ToolNode kit st) resume n))
        as [st1|q|e] eqn:E.
      * pose proof (exec_ToolNode_grows _ _ _ _ _ _ E) as G.
        destruct (IH [agent_name]
                    (unused (exec world (ToolNode kit st) resume n))
                    (clock (exec world (ToolNode kit st) resume n)) st1
                    (or_introl eq_refl)) as (Hs & Hc & Ha).
        cbn [after steps result]. split; [|split].
        -- constructor; [apply grown_refl|].
           eapply Forall_impl; [|exact Hs].
           intros s. now apply grown_trans.
        -- intros st' H. eapply grown_trans; [exact G | now apply Hc].
        -- intros q ckpt H. eapply grown_trans; [exact G | eapply Ha, H].
      * cbn. split; [|split]; try discriminate.
        -- repeat constructor. apply grown_refl.
        -- intros q0 ckpt [= _ <-]. apply grown_refl.
      * cbn. split; [|split]; try discriminate.
        repeat constructor. apply grown_refl.
Qed.

#[local] Abbreviation agents r := (count_node agent_name (steps r)).
#[local] Abbreviation rounds r := (count_node "tools" (steps r)).




End Loop.

(** X10: a run of either conversational graph only appends to the
    history, and what it appends are responses of the model and tool
    messages: every step starts on, and the run returns or saves, the
    history it was given followed by replies.  No message is rewritten or
    dropped, and the system prompt of the stock agent, sent with every
    request to the model, never enters the history. *)
Theorem history_is_append_only :
  forall (world : Oracle) (fuel n : nat) (st : MessagesState),
    (forall r,
        (r = invoke world Chatbot.graph fuel n st
         \/ r = invoke world StockAgent.graph fuel n st) ->
        Forall (fun s => grown_by_replies (messages st)
                           (messages (step_input s))) (steps r)
        /\ (forall st', result r = Completed st' ->
            grown_by_replies (messages st) (messages st'))
        /\ (forall q ckpt, result r = AwaitingInput q ckpt ->
            grown_by_replies (messages st) (messages (saved ckpt))))
    /\ (forall resume,
          events (exec world (StockAgent.agent st) resume n)
          = [Called n (Chat (StockAgent.system_prompt :: messages st))]
          /\ forall st',
               outcome (exec world (StockAgent.agent st) resume n) = Done st' ->
               grown_by_replies (messages st) (messages st')).
Proof.
  intros world fuel n st. split.
  - intros r [-> | ->]; unfold invoke.
    + rewrite chatbot_start.
      apply (run_grows world Chatbot.graph "chat_node" messages Chatbot.tools
               chatbot_agent_declared chatbot_tools_declared
               chatbot_agent_routing chatbot_tools_routing).
      now left.
    + rewrite stock_start.
      apply (run_grows world StockAgent.graph "agent" _ StockAgent.tools
               stock_agent_declared stock_tools_declared
               stock_agent_routing stock_tools_routing).
      now left.
  - intros resume.
    change (StockAgent.agent st)
      with (agent_node (fun st => StockAgent.system_prompt :: messages st) st).
    rewrite exec_agent_node.
    destruct (world n _ (Chat (StockAgent.system_prompt :: messages st)))
      as [r|e]; split; try reflexivity; try discriminate.
    intros st' [= <-]. exists [AI r]. now split.
Qed.


End ConversationExtra.

(* ------------------------------------------------------------------ *)
(** ** The threads of the checkpoint database *)

Module ThreadsExtra.

Import ChatbotThreads.

Lemma fold_add (t : string) :
  forall checkpoints acc,
    NoDup acc ->
    let out := fold_left
                 (fun all_threads checkpoint =>
                    add (thread_id checkpoint) all_threads)
                 checkpoints acc in
    NoDup out
    /\ (In t out <->
        In t acc \/ exists c, In c checkpoints /\ thread_id c = t).
Proof.
  induction checkpoints as [|c cs IH]; intros acc Hacc; cbn zeta.
  - cbn. split; [assumption|]. split; [now left|].
    intros [H | (c & [] & _)]. assumption.
  - cbn [fold_left].
    destruct (IH (add (thread_id c) acc)
                (ListSet.set_add_nodup string_dec (thread_id c) Hacc))
      as [Hn Hi].
    split; [exact Hn|]. rewrite Hi. unfold add.
    rewrite ListSet.set_add_iff. split.
    + intros [[-> | H] | (c' & Hc & <-)].
      * right. exists c. split; [now left | reflexivity].
      * now left.
      * right. exists c'. split; [now right | reflexivity].
    + intros [H | (c' & [<- | Hc] & <-)].
      * left. now right.
      * left. now left.
      * right. exists c'. now split.
Qed.

(** X12: [get_threads_in_db] returns every thread that has a checkpoint
    in the database and nothing else, each thread once, however many
    checkpoints it has. (The order of the list is that of a set and is
    not part of the statement.) *)
Theorem threads_listed_once :
  forall checkpoints,
    NoDup (get_threads_in_db checkpoints)
    /\ (forall t, In t (get_threads_in_db checkpoints)
                  <-> exists c, In c checkpoints /\ thread_id c = t)
    /\ List.length (get_threads_in_db checkpoints)
       <= List.length checkpoints.
Proof.
  intros checkpoints. unfold get_threads_in_db.
  assert (N : NoDup (@nil string)) by constructor.
  split; [|split].
  - exact (proj1 (fold_add "" checkpoints [] N)).
  - intros t. rewrite (proj2 (fold_add t checkpoints [] N)).
    split; [intros [[] | H]; exact H | now right].
  - rewrite <- (length_map thread_id checkpoints).
    apply NoDup_incl_length.
    + exact (proj1 (fold_add "" checkpoints [] N)).
    + intros t H.
      apply (proj2 (fold_add t checkpoints [] N)) in H.
      destruct H as [[] | (c & Hc & <-)]. now apply in_map.
Qed.

End ThreadsExtra.

(* ------------------------------------------------------------------ *)
(** ** The session of the stock agent's page *)

Module SessionExtra.

Import Msg Eff StockUI.

Lemma snoc_split {A : Type} (l pre post : list A) (x y : A) :
  (l ++ [x] = pre ++ y :: post)%list ->
  (post = [] /\ pre = l /\ x = y)
  \/ exists post', post = (post' ++ [x])%list /\ l = (pre ++ y :: post')%list.
Proof.
  destruct post as [|z post0] using rev_ind; intros H.
  - apply app_inj_tail in H as [-> ->]. now left.
  - clear IHpost0. right. exists post0.
    change (pre ++ y :: post0 ++ [z])%list
      with (pre ++ (y :: post0) ++ [z])%list in H.
    rewrite app_assoc in H. apply app_inj_tail in H as [-> ->].
    now split.
Qed.

#[local] Abbreviation entry_ok :=
  (fun e => entry_type e = "user" \/ entry_type e = "agent").

#[local] Abbreviation decisions_ok app made :=
  (forall pre answer post,
      made = (pre ++ Resume answer :: post)%list ->
      (answer = "yes" \/ answer = "no") /\ suspended_after app pre).

#[local] Abbreviation Inv app s :=
  (thread s = "thread_1"
   /\ (awaiting_decision s = true <-> exists r, pending_response s = Some r)
   /\ (forall r, pending_response s = Some r ->
       res_interrupt r <> [] /\ answered_by app (invoked s) r)
   /\ decisions_ok app (invoked s)
   /\ Forall entry_ok (chat_history s)).

Lemma answered_by_decision app made answer r :
  answered_by app made r -> answered_by app (made ++ [Resume answer])%list r.
Proof.
  intros (before & u & ds & -> & Hd & Ha).
  exists before, u, (ds ++ [Resume answer])%list. split; [|split].
  - now rewrite <- app_assoc.
  - rewrite forallb_app, Hd. reflexivity.
  - exact Ha.
Qed.

Lemma decisions_ok_decision app made answer r :
  (answer = "yes" \/ answer = "no") ->
  decisions_ok app made ->
  answered_by app made r -> res_interrupt r <> [] ->
  decisions_ok app (made ++ [Resume answer])%list.
Proof.
  intros Hans Hq Ha Hr pre a post H.
  apply snoc_split in H as [(-> & -> & [= <-]) | (post' & -> & ->)].
  - split; [exact Hans|]. now exists r.
  - exact (Hq _ _ _ eq_refl).
Qed.

Lemma decisions_ok_message app made u :
  decisions_ok app made ->
  decisions_ok app (made ++ [UserMessage u])%list.
Proof.
  intros Hq pre a post H.
  apply snoc_split in H as [(_ & _ & [=]) | (post' & -> & ->)].
  exact (Hq _ _ _ eq_refl).
Qed.

Lemma decide_keeps app answer s :
  (answer = "yes" \/ answer = "no") ->
  buttons_shown s = true ->
  Inv app s -> Inv app (decide app answer s).
Proof.
  intros Hans Hb (Ht & Haw & Hp & Hq & Hh).
  unfold buttons_shown in Hb. apply andb_true_iff in Hb as [Hb1 Hb2].
  destruct (pending_response s) as [r|] eqn:Er; [|discriminate].
  destruct (Hp r eq_refl) as [Hr Ha].
  pose proof (decisions_ok_decision app _ answer r Hans Hq Ha Hr) as Hq'.
  unfold decide.
  destruct (app (List.length (invoked s)) (thread s) (Resume answer))
    as [response|e].
  - destruct (last_content response) as [text|e]; cbn.
    + split; [exact Ht|]. split; [|split; [|split]].
      * split; [discriminate | intros [? [=]]].
      * intros ? [=].
      * exact Hq'.
      * apply Forall_app. split; [exact Hh|]. constructor; [now right | constructor].
    + rewrite Er. split; [exact Ht|]. split; [|split; [|split]].
      * split; [now exists r | intros _; exact Hb1].
      * intros r0 [= <-]. split; [exact Hr|].
        now apply answered_by_decision.
      * exact Hq'.
      * exact Hh.
  - cbn. rewrite Er. split; [exact Ht|]. split; [|split; [|split]].
    + split; [now exists r | intros _; exact Hb1].
    + intros r0 [= <-]. split; [exact Hr|].
      now apply answered_by_decision.
    + exact Hq'.
    + exact Hh.
Qed.

Lemma submit_keeps app user_input s :
  awaiting_decision s = false ->
  Inv app s -> Inv app (submit app user_input s).
Proof.
  intros Hf (Ht & Haw & Hp & Hq & Hh).
  assert (Hn : pending_response s = None).
  { destruct (pending_response s) as [r|] eqn:Er; [|reflexivity].
    rewrite (proj2 Haw (ex_intro _ r eq_refl)) in Hf. discriminate. }
  pose proof (decisions_ok_message app _ user_input Hq) as Hq'.
  assert (Hu : Forall entry_ok
                 (chat_history s
                    ++ [{| entry_type := "user";
                           entry_content := user_input |}])%list).
  { apply Forall_app. split; [exact Hh|]. constructor; [now left | constructor]. }
  assert (Quiet :
            Inv app (sent (UserMessage user_input)
                       (append {| entry_type := "user";
                                  entry_content := user_input |} s))).
  { cbn. rewrite Hn, Hf. split; [exact Ht|]. split; [|split; [|split]].
    - split; [discriminate | intros [? [=]]].
    - intros ? [=].
    - exact Hq'.
    - exact Hu. }
  unfold submit.
  destruct (app (List.length (invoked s)) (thread s) (UserMessage user_input))
    as [response|e] eqn:Ea; [|exact Quiet].
  destruct (res_interrupt response) as [|q qs] eqn:Ei;
    (destruct (last_content response) as [agent_msg|e]; [|exact Quiet]).
  - cbn. rewrite Hn, Hf. split; [exact Ht|]. split; [|split; [|split]].
    + split; [discriminate | intros [? [=]]].
    + intros ? [=].
    + exact Hq'.
    + apply Forall_app. split; [exact Hu|]. constructor; [now right | constructor].
  - cbn. split; [exact Ht|]. split; [|split; [|split]].
    + split; [now exists response | reflexivity].
    + intros r0 [= <-]. split; [rewrite Ei; discriminate|].
      exists (invoked s), user_input, []. rewrite <- Ht.
      now repeat split.
    + exact Hq'.
    + apply Forall_app. split; [exact Hu|]. constructor; [now right | constructor].
Qed.

Lemma rerun_keeps app s w : Inv app s -> Inv app (rerun app s w).
Proof.
  intros H. destruct w as [| | |user_input]; cbn [rerun].
  - destruct H as (Ht & _ & _ & Hq & _). cbn.
    split; [exact Ht|]. split; [|split; [|split]].
    + split; [discriminate | intros [? [=]]].
    + intros ? [=].
    + exact Hq.
    + constructor.
  - destruct (buttons_shown s) eqn:Hb; [|exact H].
    apply decide_keeps; [now left | exact Hb | exact H].
  - destruct (buttons_shown s) eqn:Hb; [|exact H].
    apply decide_keeps; [now right | exact Hb | exact H].
  - destruct (Bool.bool_dec (awaiting_decision s) true) as [Hf|Hf].
    + rewrite Hf. exact H.
    + apply not_true_is_false in Hf. rewrite Hf.
      destruct (PyStr.truthy user_input); [|exact H].
      now apply submit_keeps.
Qed.

Lemma page_keeps app : forall widgets, Inv app (page app widgets).
Proof.
  unfold page. induction widgets as [|w ws IH] using rev_ind.
  - cbn. split; [reflexivity|]. split; [|split; [|split]].
    + split; [discriminate | intros [? [=]]].
    + intros ? [=].
    + intros [|? ?] ? ? [=].
    + constructor.
  - rewrite fold_left_app. cbn [fold_left]. now apply rerun_keeps.
Qed.

(** X13: whatever the user clicks and whatever the graph answers, the
    session of the page is consistent: the thread is always "thread_1";
    [awaiting_decision] is set exactly when a response is pending, so the
    two buttons are shown exactly when the chat input is disabled; a
    pending response is a suspended one, and it is the answer to the
    latest user message; the chat history holds user and agent entries
    only. *)
Theorem session_is_consistent :
  forall (app : App) (widgets : list Widget),
    let s := page app widgets in
    thread s = "thread_1"
    /\ (awaiting_decision s = true <-> exists r, pending_response s = Some r)
    /\ buttons_shown s = awaiting_decision s
    /\ (forall r, pending_response s = Some r ->
        res_interrupt r <> [] /\ answered_by app (invoked s) r)
    /\ Forall (fun e => entry_type e = "user" \/ entry_type e = "agent")
         (chat_history s).
Proof.
  intros app widgets. cbn zeta.
  destruct (page_keeps app widgets) as (Ht & Haw & Hp & _ & Hh).
  split; [exact Ht|]. split; [exact Haw|]. split; [|split].
  - unfold buttons_shown.
    destruct (awaiting_decision (page app widgets)) eqn:Ea; [|reflexivity].
    destruct (proj1 Haw eq_refl) as [r ->]. reflexivity.
  - exact Hp.
  - exact Hh.
Qed.

(** X14: the page resumes a run only with "yes" or "no", and only a run
    it saw suspended: every [Command(resume=...)] it sends comes after a
    user message whose invocation returned with an interrupt, with
    nothing but decisions sent in between. *)
Theorem resumes_only_what_was_suspended :
  forall (app : App) (widgets : list Widget) pre answer post,
    invoked (page app widgets) = (pre ++ Resume answer :: post)%list ->
    (answer = "yes" \/ answer = "no") /\ suspended_after app pre.
Proof.
  intros app widgets pre answer post H.
  destruct (page_keeps app widgets) as (_ & _ & _ & Hq & _).
  exact (Hq _ _ _ H).
Qed.

Lemma resumes_only_what_was_suspended_witness :
  invoked (page cautious [ChatInput "buy"; Yes])
  = ([UserMessage "buy"] ++ Resume "yes" :: [])%list
  /\ (("yes" = "yes" \/ "yes" = "no")
      /\ suspended_after cautious [UserMessage "buy"]).
Proof.
  split; [reflexivity|].
  apply (resumes_only_what_was_suspended cautious [ChatInput "buy"; Yes]
           [UserMessage "buy"] "yes" []).
  reflexivity.
Defined.

End SessionExtra.
